(** * AI-Healthcare-Assistant-Chatbot: the first-party logic of [streamlit_app.py]

    The development follows the source file:
    - the configuration (lines 18-51) and the session state,
    - [ask_groq], the completion wrapper (lines 146-166),
    - the analysis, rendering and PDF handlers (lines 194-229),
    - [EMAIL_RE] and the send handler (lines 236-293),
    - the adapters, [get_route_distance_km] and [haversine_km]
      (lines 315-376),
    - the hospital search handler and the driving-distance handler
      (lines 381-426).

    Python exceptions are an explicit [result] type.  Floating-point
    arithmetic is an interface ([FloatModel]) with two instances:
    [Binary64.model], CPython's doubles over a C library, and
    [RealModel], exact arithmetic.  The search is written twice: on
    the Python values the services return ([Py]), in any arithmetic,
    and on typed responses in exact arithmetic, which is the reading
    the ranking statements use; [data_row_on_values] relates the two.

    Part I holds the definitions, Parts II and III the theorems. *)

From Stdlib Require Import Reals Lra Lia ZArith NArith List Bool String Ascii.
From Stdlib Require Import Permutation Sorted Zfloor.
From Stdlib Require PrimFloat FloatOps SpecFloat.
Import ListNotations.

(* ================================================================== *)
(** * Part I: definitions *)

(** ** Python strings *)

(** A [str] is a sequence of Unicode code points. *)
Definition pystr : Type := list N.

Fixpoint str (s : string) : pystr :=
  match s with
  | EmptyString => []
  | String c s' => N_of_ascii c :: str s'
  end.

(** [str.isspace] on one code point ([_PyUnicode_IsWhitespace]): this is
    what [\s] means in a [str] pattern and what [str.strip()] removes. *)
Definition is_space (c : N) : bool :=
  ((9 <=? c) && (c <=? 13) || (28 <=? c) && (c <=? 31) || (c =? 32)
   || (c =? 133) || (c =? 160) || (c =? 5760)
   || (8192 <=? c) && (c <=? 8202) || (c =? 8232) || (c =? 8233)
   || (c =? 8239) || (c =? 8287) || (c =? 12288))%N.

Fixpoint lstrip (s : pystr) : pystr :=
  match s with
  | c :: s' => if is_space c then lstrip s' else s
  | [] => []
  end.

Definition rstrip (s : pystr) : pystr := rev (lstrip (rev s)).

Definition strip (s : pystr) : pystr := rstrip (lstrip s).

(** ** Python outcomes *)

(** The classes of [Exception] the modelled code can meet.
    [OtherException] stands for any other subclass of [Exception] raised
    by an external client. *)
Inductive exn_class : Type :=
| ZeroDivisionError
| ValueError
| OverflowError
| TypeError
| IndexError
| KeyError
| AttributeError
| OtherException.

(** An exception instance: its class and [str(e)]. *)
Inductive exn : Type :=
| Exn (c : exn_class) (msg : pystr).

Definition exn_cls (e : exn) : exn_class := match e with Exn c _ => c end.
Definition exn_str (e : exn) : pystr := match e with Exn _ m => m end.

Inductive result (A : Type) : Type :=
| Ok (a : A)
| Raise (e : exn).

Arguments Ok {A} a.
Arguments Raise {A} e.

Definition bind {A B : Type} (m : result A) (k : A -> result B) : result B :=
  match m with
  | Ok a => k a
  | Raise e => Raise e
  end.

Notation "x <- m ;; k" := (bind m (fun x => k))
  (at level 61, m at next level, right associativity).

(** [try: body  except Exception as e: handler(e)] *)
Definition try_except {A : Type} (body : result A) (handler : exn -> result A)
  : result A :=
  match body with
  | Ok a => Ok a
  | Raise e => handler e
  end.

(** A partial library function: [None] is reported as the exception [e]. *)
Definition lift_partial {A : Type} (e : exn) (o : option A) : result A :=
  match o with
  | Some a => Ok a
  | None => Raise e
  end.

Definition is_class (c : exn_class) (e : exn) : bool :=
  match c, exn_cls e with
  | ZeroDivisionError, ZeroDivisionError
  | ValueError, ValueError
  | OverflowError, OverflowError
  | TypeError, TypeError
  | IndexError, IndexError
  | KeyError, KeyError
  | AttributeError, AttributeError
  | OtherException, OtherException => true
  | _, _ => false
  end.

(** Does the outcome raise an exception of class [c]? *)
Definition raises {A : Type} (c : exn_class) (r : result A) : bool :=
  match r with
  | Ok _ => false
  | Raise e => is_class c e
  end.

Definition float_division_by_zero : exn :=
  Exn ZeroDivisionError (str "float division by zero").
Definition math_domain_error : exn :=
  Exn ValueError (str "math domain error").
Definition numerical_result_out_of_range : exn :=
  Exn OverflowError (str "(34, 'Numerical result out of range')").

(* ------------------------------------------------------------------ *)
(** ** The completion wrapper [ask_groq] (lines 146-166) *)

(** The arguments of [client.chat.completions.create]. *)
Record Request : Type := {
  model : pystr;
  messages : list (pystr * pystr);   (* role, content *)
  temperature : R;
  max_tokens : Z
}.

(** [resp.choices[i].message.content], a [str] or [None]. *)
Record Choice : Type := { message_content : option pystr }.
Record ChatCompletion : Type := { choices : list Choice }.

(** The external client: a call returns a completion or raises. *)
Record Groq : Type := { create : Request -> result ChatCompletion }.

(** [client = None; if GROQ_API_KEY: try: client = Groq(api_key=...)
    except Exception: st.warning(...)] (lines 147-152). *)
Definition init_client (GROQ_API_KEY : option pystr)
  (Groq_ctor : pystr -> result Groq) : option Groq :=
  match GROQ_API_KEY with
  | None => None
  | Some [] => None
  | Some key =>
      match Groq_ctor key with
      | Ok c => Some c
      | Raise _ => None
      end
  end.

(** [xs[0]] *)
Definition index0 {A : Type} (xs : list A) : result A :=
  match xs with
  | x :: _ => Ok x
  | [] => Raise (Exn IndexError (str "list index out of range"))
  end.

(** [content or ""] *)
Definition or_empty (content : option pystr) : pystr :=
  match content with
  | Some (c :: s) => c :: s
  | _ => []
  end.

Definition LLM_not_configured : pystr :=
  str "LLM is not configured. Please add GROQ_API_KEY in Streamlit secrets.".

(** The keyword arguments of the call of lines 158-163. *)
Definition completion_request (user_input : pystr) : Request :=
  {| model := str "llama3-70b-8192";
     messages := [(str "user", user_input)];
     temperature := 2 / 10;
     max_tokens := 800 |}.

Definition ask_groq (client : option Groq) (user_input : pystr) : result pystr :=
  match client with
  | None => Ok LLM_not_configured
  | Some c =>
      try_except
        (resp <- create c (completion_request user_input) ;;
         ch <- index0 (choices resp) ;;
         Ok (strip (or_empty (message_content ch))))
        (fun e => Ok (str "LLM error: " ++ exn_str e))
  end.

(* ------------------------------------------------------------------ *)
(** ** The recipient pattern [EMAIL_RE] (line 236) *)

(** The fragment of [re] the pattern uses, named as [sre_parse] names
    its nodes: anchors, one character, and a greedy [+] over one
    character. *)
Inductive set_item : Type :=
| SetLiteral (c : N)
| CATEGORY_SPACE.                      (* \s *)

Inductive atom : Type :=
| LITERAL (c : N)
| IN (negate : bool) (items : list set_item).   (* [...] and [^...] *)

Inductive item : Type :=
| AT_BEGINNING                         (* ^ *)
| AT_END                               (* $ *)
| One (a : atom)
| MAX_REPEAT1 (a : atom).              (* a+ *)

Definition pattern : Type := list item.

Definition set_item_match (i : set_item) (c : N) : bool :=
  match i with
  | SetLiteral d => (c =? d)%N
  | CATEGORY_SPACE => is_space c
  end.

Definition atom_match (a : atom) (c : N) : bool :=
  match a with
  | LITERAL d => (c =? d)%N
  | IN negate items =>
      xorb negate (existsb (fun i => set_item_match i c) items)
  end.

(** [$] without [re.MULTILINE]: at the end of the string, or just before
    a line feed that is the last character. *)
Definition at_end (s : pystr) : bool :=
  match s with
  | [] => true
  | [c] => (c =? 10)%N
  | _ => false
  end.

(** Backtracking match of [p] at the current position; [bos] tells
    whether the position is the beginning of the string. The repeat is
    greedy: it first tries to take one more character. *)
Fixpoint sre_match (p : pattern) (bos : bool) (s : pystr) {struct p} : bool :=
  match p with
  | [] => true
  | AT_BEGINNING :: p' => bos && sre_match p' bos s
  | AT_END :: p' => at_end s && sre_match p' bos s
  | One a :: p' =>
      match s with
      | c :: s' => atom_match a c && sre_match p' false s'
      | [] => false
      end
  | MAX_REPEAT1 a :: p' =>
      (fix rep (s : pystr) : bool :=
         match s with
         | c :: s' => atom_match a c && (rep s' || sre_match p' false s')
         | [] => false
         end) s
  end.

(** [Pattern.match(s)] is not [None]. *)
Definition re_match (p : pattern) (s : pystr) : bool := sre_match p true s.

Definition chr_at : N := 64.     (* "@" *)
Definition chr_dot : N := 46.    (* "." *)
Definition chr_LF : N := 10.     (* "\n" *)

(** [[^@\s]] *)
Definition not_at_space : atom := IN true [SetLiteral chr_at; CATEGORY_SPACE].

(** [EMAIL_RE = re.compile(r"^[^@\s]+@[^@\s]+\.[^@\s]+$")] *)
Definition EMAIL_RE : pattern :=
  [AT_BEGINNING; MAX_REPEAT1 not_at_space; One (LITERAL chr_at);
   MAX_REPEAT1 not_at_space; One (LITERAL chr_dot);
   MAX_REPEAT1 not_at_space; AT_END].

(** The guard of the send handler, line 245: [EMAIL_RE.match(email or "")]
    is truthy. *)
Definition email_accepted (email : pystr) : bool := re_match EMAIL_RE email.

(** The pattern as the specification words it: local-part "@" domain-part
    "." tld-part, the parts non-empty and free of whitespace and of "@". *)
Definition part_ok (p : pystr) : Prop :=
  p <> [] /\ Forall (fun c => c <> chr_at /\ is_space c = false) p.

Definition email_form (s : pystr) : Prop :=
  exists l d t : pystr,
    s = l ++ chr_at :: d ++ chr_dot :: t /\ part_ok l /\ part_ok d /\ part_ok t.

(* ------------------------------------------------------------------ *)
(** ** Floating-point arithmetic as an interface *)

(** What the code needs from Python's [float] and the [math] module.
    - [fdiv] is IEEE division; Python's [/] first tests the divisor with
      [== 0] ([fis_zero]) and raises [ZeroDivisionError].
    - [fpow2] is [x ** 2]: [None] when CPython reports [OverflowError].
    - [m_sin], [m_cos], [m_asin], [m_sqrt] are the [math] functions:
      [None] when CPython reports [ValueError] (math domain error).
    - [m_radians] is [x * (pi / 180)] and never raises.
    - [fconst] embeds the literals [2], [1000] and [6371.0]. *)
Record FloatModel : Type := {
  num : Type;
  fconst : Z -> num;
  fadd : num -> num -> num;
  fsub : num -> num -> num;
  fmul : num -> num -> num;
  fdiv : num -> num -> num;
  fis_zero : num -> bool;
  fpow2 : num -> option num;
  m_radians : num -> num;
  m_sin : num -> option num;
  m_cos : num -> option num;
  m_asin : num -> option num;
  m_sqrt : num -> option num;
  two_nonzero : fis_zero (fconst 2) = false
}.

Section Haversine.

Variable F : FloatModel.

(** Python's [x / y] on floats. *)
Definition py_div (x y : num F) : result (num F) :=
  if fis_zero F y then Raise float_division_by_zero else Ok (fdiv F x y).

(** Python's [x ** 2] on a float. *)
Definition py_pow2 (x : num F) : result (num F) :=
  lift_partial numerical_result_out_of_range (fpow2 F x).

(** [from math import radians, sin, cos, asin, sqrt] *)
Definition math_radians (x : num F) : num F := m_radians F x.
Definition math_sin (x : num F) : result (num F) :=
  lift_partial math_domain_error (m_sin F x).
Definition math_cos (x : num F) : result (num F) :=
  lift_partial math_domain_error (m_cos F x).
Definition math_asin (x : num F) : result (num F) :=
  lift_partial math_domain_error (m_asin F x).
Definition math_sqrt (x : num F) : result (num F) :=
  lift_partial math_domain_error (m_sqrt F x).

(** [haversine_km], lines 371-376, in Python's left-to-right evaluation
    order:
<<
    def haversine_km(lat1, lon1, lat2, lon2):
        R = 6371.0
        dlat = radians(lat2 - lat1)
        dlon = radians(lon2 - lon1)
        a = sin(dlat/2)**2 + cos(radians(lat1)) * cos(radians(lat2)) * sin(dlon/2)**2
        return 2 * R * asin(sqrt(a))
>> *)
Definition haversine_km (lat1 lon1 lat2 lon2 : num F) : result (num F) :=
  let R := fconst F 6371 in
  let dlat := math_radians (fsub F lat2 lat1) in
  let dlon := math_radians (fsub F lon2 lon1) in
  hdlat <- py_div dlat (fconst F 2) ;;
  s1 <- math_sin hdlat ;;
  t1 <- py_pow2 s1 ;;
  c1 <- math_cos (math_radians lat1) ;;
  c2 <- math_cos (math_radians lat2) ;;
  hdlon <- py_div dlon (fconst F 2) ;;
  s2 <- math_sin hdlon ;;
  t2 <- py_pow2 s2 ;;
  let a := fadd F t1 (fmul F (fmul F c1 c2) t2) in
  r <- math_sqrt a ;;
  q <- math_asin r ;;
  Ok (fmul F (fmul F (fconst F 2) R) q).

(** *** The same function body as syntax

    The expression the function returns, with the locals [R], [dlat],
    [dlon] and [a] written where they are used; it serves to count the
    operators of the formula. *)
Inductive param : Type := lat1 | lon1 | lat2 | lon2.

Inductive math_fn : Type := fn_radians | fn_sin | fn_cos | fn_asin | fn_sqrt.

Inductive expr : Type :=
| Param (x : param)
| Lit (z : Z)
| Add (e1 e2 : expr)
| Sub (e1 e2 : expr)
| Mul (e1 e2 : expr)
| Div (e1 e2 : expr)
| Pow2 (e : expr)
| Call (f : math_fn) (e : expr).

Definition call (f : math_fn) (x : num F) : result (num F) :=
  match f with
  | fn_radians => Ok (math_radians x)
  | fn_sin => math_sin x
  | fn_cos => math_cos x
  | fn_asin => math_asin x
  | fn_sqrt => math_sqrt x
  end.

Fixpoint eval (env : param -> num F) (e : expr) : result (num F) :=
  match e with
  | Param x => Ok (env x)
  | Lit z => Ok (fconst F z)
  | Add e1 e2 => x <- eval env e1 ;; y <- eval env e2 ;; Ok (fadd F x y)
  | Sub e1 e2 => x <- eval env e1 ;; y <- eval env e2 ;; Ok (fsub F x y)
  | Mul e1 e2 => x <- eval env e1 ;; y <- eval env e2 ;; Ok (fmul F x y)
  | Div e1 e2 => x <- eval env e1 ;; y <- eval env e2 ;; py_div x y
  | Pow2 e1 => x <- eval env e1 ;; py_pow2 x
  | Call f e1 => x <- eval env e1 ;; call f x
  end.

End Haversine.

Definition dlat_expr : expr := Call fn_radians (Sub (Param lat2) (Param lat1)).
Definition dlon_expr : expr := Call fn_radians (Sub (Param lon2) (Param lon1)).

Definition a_expr : expr :=
  Add (Pow2 (Call fn_sin (Div dlat_expr (Lit 2))))
      (Mul (Mul (Call fn_cos (Call fn_radians (Param lat1)))
                (Call fn_cos (Call fn_radians (Param lat2))))
           (Pow2 (Call fn_sin (Div dlon_expr (Lit 2))))).

Definition haversine_expr : expr :=
  Mul (Mul (Lit 2) (Lit 6371)) (Call fn_asin (Call fn_sqrt a_expr)).

(** The divisors of the [/] operators of an expression. *)
Fixpoint divisors (e : expr) : list expr :=
  match e with
  | Param _ | Lit _ => []
  | Add e1 e2 | Sub e1 e2 | Mul e1 e2 => divisors e1 ++ divisors e2
  | Div e1 e2 => divisors e1 ++ divisors e2 ++ [e2]
  | Pow2 e1 | Call _ e1 => divisors e1
  end.

(** The environment binding the four parameters of the call. *)
Definition args {A : Type} (a b c d : A) (x : param) : A :=
  match x with lat1 => a | lon1 => b | lat2 => c | lon2 => d end.

(* ------------------------------------------------------------------ *)
(** ** Exact arithmetic: floats read as real numbers

    In this instance nothing is rounded and [sqrt] and [asin] never
    leave their domain on the formula. It is the reading of the typed
    rows and of the ranking; what depends on rounding is stated on
    [Binary64.model] below. *)

Local Open Scope R_scope.

Definition Rleb (x y : R) : bool := if Rle_dec x y then true else false.
Definition Rltb (x y : R) : bool := if Rlt_dec x y then true else false.
Definition Reqb (x y : R) : bool := if Req_dec_T x y then true else false.

Definition RealModel : FloatModel := {|
  num := R;
  fconst := IZR;
  fadd := Rplus;
  fsub := Rminus;
  fmul := Rmult;
  fdiv := Rdiv;
  fis_zero := fun x : R => Reqb x 0;
  fpow2 := fun x : R => Some (x ^ 2)%R;
  m_radians := fun x : R => (x * (PI / 180))%R;
  m_sin := fun x : R => Some (sin x);
  m_cos := fun x : R => Some (cos x);
  m_asin := fun x : R =>
    if Rleb (-1) x && Rleb x 1 then Some (asin x) else None;
  m_sqrt := fun x : R => if Rleb 0 x then Some (sqrt x) else None;
  two_nonzero :=
    ltac:(unfold Reqb; destruct (Req_dec_T 2 0); [lra | reflexivity])
|}.

(** A point of the data model: degrees of latitude and longitude. *)
Record GeoPoint : Type := { latitude : R; longitude : R }.

(** [computeDistanceKm(a, b)] is the call [haversine_km(lat, lon, h_lat,
    h_lon)] of line 395, in exact arithmetic. *)
Definition computeDistanceKm (a b : GeoPoint) : result R :=
  haversine_km RealModel (latitude a) (longitude a) (latitude b) (longitude b).

(** The haversine value as the specification writes it: every angle is
    first converted to radians. *)
Definition deg2rad (d : R) : R := d * PI / 180.

Definition haversine_a (a b : GeoPoint) : R :=
  let dlat := deg2rad (latitude b) - deg2rad (latitude a) in
  let dlon := deg2rad (longitude b) - deg2rad (longitude a) in
  (sin (dlat / 2))² + cos (deg2rad (latitude a)) * cos (deg2rad (latitude b))
                      * (sin (dlon / 2))².

Definition haversine_value (a b : GeoPoint) : R :=
  2 * 6371 * asin (sqrt (haversine_a a b)).

(** The position of a point on the unit sphere. *)
Definition on_sphere (p : GeoPoint) : R * R * R :=
  let phi := deg2rad (latitude p) in
  let lam := deg2rad (longitude p) in
  (cos phi * cos lam, cos phi * sin lam, sin phi).


(** The haversine term is a quarter of the squared chord between the two
    positions on the unit sphere, and its complement a quarter of the
    squared length of their sum. *)
Definition chord2 (p q : R * R * R) : R :=
  let '(x1, y1, z1) := p in
  let '(x2, y2, z2) := q in
  (x1 - x2)² + (y1 - y2)² + (z1 - z2)².

Definition sum2 (p q : R * R * R) : R :=
  let '(x1, y1, z1) := p in
  let '(x2, y2, z2) := q in
  (x1 + x2)² + (y1 + y2)² + (z1 + z2)².

(** The origin of the specification's example. *)
Definition Lahore : GeoPoint := {| latitude := 31.5204; longitude := 74.3587 |}.


(* ------------------------------------------------------------------ *)
(** ** The hospital search handler (lines 381-426) *)

(** [round(x, 2)]: the nearest multiple of 0.01, ties to the even one. *)
Definition round_half_even (y : R) : Z :=
  let f := Zfloor y in
  let r := y - IZR f in
  if Rltb r (1 / 2) then f
  else if Rltb (1 / 2) r then (f + 1)%Z
  else if Z.even f then f else (f + 1)%Z.

Definition py_round2 (x : R) : R := IZR (round_half_even (x * 100)) / 100.

(** Truthiness of a number: [0] and [0.0] are falsy. *)
Definition truthy (x : R) : bool := negb (Reqb x 0).

(** [d.get(k, default)] on an absent key. *)
Definition get_default {A : Type} (v : option A) (default : A) : A :=
  match v with
  | Some x => x
  | None => default
  end.

(** A feature of the places response; [None] is an absent key, for which
    [dict.get] returns [None]. *)
Record Properties : Type := {
  prop_name : option pystr;
  prop_formatted : option pystr;
  prop_lat : option R;
  prop_lon : option R
}.

Record Feature : Type := { properties : option Properties }.

(** [{}] *)
Definition no_properties : Properties :=
  {| prop_name := None; prop_formatted := None;
     prop_lat := None; prop_lon := None |}.

(** The column "Approx. Distance (km)" holds a float or the string
    ["N/A"]. *)
Inductive cell : Type :=
| Km (x : R)
| N_A.

(** A Python float: a real number or NaN. *)
Inductive pyfloat : Type :=
| Finite (x : R)
| NaN.

(** A value of the columns "lat" and "lon": a float or the object
    [None]. *)
Inductive coord : Type :=
| Float (f : pyfloat)
| NoneObject.

Definition of_json (v : option R) : coord :=
  match v with
  | Some x => Float (Finite x)
  | None => NoneObject
  end.

(** A row of [data_rows]. The column "Coordinates" is a display string
    of [lat] and [lon] and is left out. *)
Record Row : Type := {
  Name : pystr;
  Address : pystr;
  Approx_Distance_km : cell;
  lat : coord;
  lon : coord
}.

(** [haversine_km(lat, lon, h_lat, h_lon) if (h_lat and h_lon) else None]
    (line 395); [None] is falsy. *)
Definition approx_km (origin_lat origin_lon : R) (h_lat h_lon : option R)
  : result (option R) :=
  match h_lat, h_lon with
  | Some la, Some lo =>
      if truthy la && truthy lo
      then d <- haversine_km RealModel origin_lat origin_lon la lo ;; Ok (Some d)
      else Ok None
  | _, _ => Ok None
  end.

(** The body of the loop over [hospitals["features"]], lines 390-403. *)
Definition data_row (origin_lat origin_lon : R) (hospital : Feature) : result Row :=
  let props := get_default (properties hospital) no_properties in
  let name := get_default (prop_name props) (str "Unknown") in
  let address := get_default (prop_formatted props) (str "No address available") in
  let h_lat := prop_lat props in
  let h_lon := prop_lon props in
  approx <- approx_km origin_lat origin_lon h_lat h_lon ;;
  Ok {| Name := name;
        Address := address;
        Approx_Distance_km :=
          match approx with
          | Some d => Km (py_round2 d)
          | None => N_A
          end;
        lat := of_json h_lat;
        lon := of_json h_lon |}.

Fixpoint data_rows (origin_lat origin_lon : R) (features : list Feature)
  : result (list Row) :=
  match features with
  | [] => Ok []
  | hospital :: rest =>
      row <- data_row origin_lat origin_lon hospital ;;
      rows <- data_rows origin_lat origin_lon rest ;;
      Ok (row :: rows)
  end.

(** [pd.DataFrame(data_rows)] (line 405) infers the type of each column:
    a column of floats and [None]s becomes a float column in which
    [None] is NaN; a column of [None]s only stays a column of objects. *)
Definition is_float (v : coord) : bool :=
  match v with
  | Float _ => true
  | NoneObject => false
  end.

Definition to_float64 (v : coord) : coord :=
  match v with
  | Float f => Float f
  | NoneObject => Float NaN
  end.

Definition infer (column : list coord) (v : coord) : coord :=
  if existsb is_float column then to_float64 v else v.

Definition DataFrame (data : list Row) : list Row :=
  map (fun r => {| Name := Name r;
                   Address := Address r;
                   Approx_Distance_km := Approx_Distance_km r;
                   lat := infer (map lat data) (lat r);
                   lon := infer (map lon data) (lon r) |})
      data.

(** The places response: [hospitals.get("features")]. *)
Record Places : Type := { features : option (list Feature) }.

(** What the handler shows. *)
Inductive outcome : Type :=
| Idle
| Geocoding_failed          (* st.error("Invalid address or geocoding failed.") *)
| No_hospitals_found        (* st.warning("No hospitals found ...") *)
| Results (df : list Row).

Section SearchHandler.

(** The two adapters, lines 315-347; each returns [None] on any error. *)
Variable geocode_address : pystr -> option R * option R.
Variable find_nearby_hospitals : R -> R -> option Places.

Definition search_handler (search_clicked : bool) (location_input : pystr)
  : result outcome :=
  match search_clicked, location_input with
  | true, _ :: _ =>
      match geocode_address (strip location_input) with
      | (Some la, Some lo) =>
          if truthy la && truthy lo then
            match find_nearby_hospitals la lo with
            | Some hospitals =>
                match features hospitals with
                | Some (f :: fs) =>
                    rows <- data_rows la lo (f :: fs) ;;
                    Ok (Results (DataFrame rows))
                | _ => Ok No_hospitals_found
                end
            | None => Ok No_hospitals_found
            end
          else Ok Geocoding_failed
      | _ => Ok Geocoding_failed
      end
  | _, _ => Ok Idle
  end.

End SearchHandler.

(* ------------------------------------------------------------------ *)
(** ** Sorting by approximate distance (line 414) *)

(** [pd.to_numeric(s, errors="coerce")] on one cell; [None] is NaN. *)
Definition to_numeric (c : cell) : option R :=
  match c with
  | Km x => Some x
  | N_A => None
  end.

Definition sort_key (r : Row) : option R := to_numeric (Approx_Distance_km r).

Definition isna (v : option R) : bool :=
  match v with
  | None => true
  | Some _ => false
  end.

(** [xs[mask]] *)
Fixpoint boolean_index {A : Type} (xs : list A) (mask : list bool) : list A :=
  match xs, mask with
  | x :: xs', m :: mask' =>
      if m then x :: boolean_index xs' mask' else boolean_index xs' mask'
  | _, _ => []
  end.

(** [xs[i]]; an index out of range raises. *)
Definition getitem {A : Type} (xs : list A) (i : nat) : result A :=
  lift_partial (Exn IndexError (str "index out of bounds")) (nth_error xs i).

(** [xs.take(indexer)] and [xs[indexer]] *)
Fixpoint take {A : Type} (xs : list A) (indexer : list nat) : result (list A) :=
  match indexer with
  | [] => Ok []
  | i :: rest => x <- getitem xs i ;; ys <- take xs rest ;; Ok (x :: ys)
  end.

(** The floats of a column that are not NaN. *)
Fixpoint non_nan_values (items : list (option R)) : list R :=
  match items with
  | [] => []
  | Some x :: rest => x :: non_nan_values rest
  | None :: rest => non_nan_values rest
  end.

Section SortValues.

(** [ndarray.argsort(kind="quicksort")], the default [kind] of
    [sort_values]: the library promises a sorting permutation of the
    indices and nothing about the order of equal elements. *)
Variable argsort : list R -> list nat.

(** [pandas.core.sorting.nargsort] with [ascending=True] and
    [na_position="last"]:
<<
    idx = np.arange(len(items))
    non_nans = items[~mask]
    non_nan_idx = idx[~mask]
    nan_idx = np.nonzero(mask)[0]
    indexer = non_nan_idx[non_nans.argsort(kind=kind)]
    indexer = np.concatenate([indexer, nan_idx])
>> *)
Definition nargsort (items : list (option R)) : result (list nat) :=
  let mask := map isna items in
  let idx := seq 0 (List.length items) in
  let non_nans := non_nan_values items in
  let non_nan_idx := boolean_index idx (map negb mask) in
  let nan_idx := boolean_index idx mask in
  indexer <- take non_nan_idx (argsort non_nans) ;;
  Ok (indexer ++ nan_idx).

(** [df.sort_values(by="Approx. Distance (km)",
                    key=lambda s: pd.to_numeric(s, errors="coerce"))] *)
Definition sort_values (df : list Row) : result (list Row) :=
  indexer <- nargsort (map sort_key df) ;;
  take df indexer.

(** [df.head(n)] *)
Definition head (n : nat) (df : list Row) : list Row := firstn n df.

End SortValues.

(** What [argsort] promises. *)
Definition argsort_contract (argsort : list R -> list nat) : Prop :=
  forall a : list R,
    Permutation (argsort a) (seq 0 (List.length a)) /\
    Sorted Rle (map (fun i => nth i a 0) (argsort a)).

(** A sorting permutation by insertion, built from the last index to
    the first: [before x y] tells whether an element [x] goes in front
    of an element [y] met later in the array. *)
Fixpoint insert_index (before : R -> R -> bool) (a : list R) (i : nat)
  (sorted : list nat) : list nat :=
  match sorted with
  | [] => [i]
  | j :: rest =>
      if before (nth i a 0) (nth j a 0) then i :: j :: rest
      else j :: insert_index before a i rest
  end.

Definition argsort_with (before : R -> R -> bool) (a : list R) : list nat :=
  fold_right (insert_index before a) [] (seq 0 (List.length a)).

(** Equal elements keep their order. *)
Definition argsort_stable : list R -> list nat := argsort_with Rleb.


(* ------------------------------------------------------------------ *)
(** ** Driving distances (lines 349-369 and 412-422) *)

(** The routing request: waypoints as (lon, lat) pairs, and the mode. *)
Record RoutingRequest : Type := {
  waypoints : (R * R) * (pyfloat * pyfloat);
  mode : pystr;
  details : pystr
}.

(** [data["features"][0]["properties"]["distance"]] raises when a key is
    missing. *)
Record RouteFeature : Type := { route_distance : result R }.
Record RoutingData : Type := { routing_features : option (list RouteFeature) }.
Record Response : Type := { ok : bool; json : result RoutingData }.

(** A row of the displayed subset, with the added column. *)
Record DrivingRow : Type := {
  row : Row;
  Driving_Distance_km : option R
}.

(** [float(v)] for a float or [None]. *)
Definition py_float (v : coord) : result pyfloat :=
  match v with
  | Float f => Ok f
  | NoneObject =>
      Raise (Exn TypeError
               (str "float() argument must be a string or a real number, not 'NoneType'"))
  end.

(** The parameters of the request of lines 353-362; the waypoints are
    written longitude first. *)
Definition routing_request (start_lat start_lon : R) (end_lat end_lon : pyfloat)
  : RoutingRequest :=
  {| waypoints := ((start_lon, start_lat), (end_lon, end_lat));
     mode := str "drive";
     details := str "route_details" |}.


Section DrivingDistances.

Variable argsort : list R -> list nat.

(** [requests.get] on the routing endpoint: a response, or an exception
    (connection error, timeout). *)
Variable requests_get : RoutingRequest -> result Response.

Definition get_route_distance_km (start_lat start_lon : R)
  (end_lat end_lon : pyfloat) : option R :=
  match
    try_except
      (r <- requests_get (routing_request start_lat start_lon end_lat end_lon) ;;
       if ok r then
         data <- json r ;;
         match routing_features data with
         | Some (f :: _) =>
             d <- route_distance f ;;
             km <- py_div RealModel d 1000 ;;
             Ok (Some km)
         | _ => Ok None
         end
       else Ok None)
      (fun _ => Ok None)
  with
  | Ok v => v
  | Raise _ => None
  end.

(** The loop of lines 416-419. *)
Fixpoint route_dists (origin_lat origin_lon : R) (subset : list Row)
  : result (list (option R)) :=
  match subset with
  | [] => Ok []
  | r :: rest =>
      la <- py_float (lat r) ;;
      lo <- py_float (lon r) ;;
      let d := get_route_distance_km origin_lat origin_lon la lo in
      dists <- route_dists origin_lat origin_lon rest ;;
      Ok (option_map py_round2 d :: dists)
  end.

(** [subset["Driving Distance (km)"] = dists] *)
Definition assign_driving (subset : list Row) (dists : list (option R))
  : list DrivingRow :=
  map (fun p => {| row := fst p; Driving_Distance_km := snd p |})
      (combine subset dists).


(** The handler of the button "Calculate driving distances". *)
Definition calculate_driving_distances (origin_lat origin_lon : R)
  (df : list Row) (top_n : nat) : result (list DrivingRow) :=
  df_sorted <- sort_values argsort df ;;
  let subset := head top_n df_sorted in
  dists <- route_dists origin_lat origin_lon subset ;;
  Ok (assign_driving subset dists).

End DrivingDistances.

(* ------------------------------------------------------------------ *)
(** ** Vocabulary of the ranking statements *)

(** A candidate is numerically ranked when its approximate distance is a
    number, unavailable when it is the marker ["N/A"]. *)
Definition unavailable (r : Row) : bool := isna (sort_key r).
Definition numeric (r : Row) : bool := negb (isna (sort_key r)).

Definition numeric_rows (df : list Row) : list Row := filter numeric df.
Definition unavailable_rows (df : list Row) : list Row := filter unavailable df.

(** The number a numerically ranked candidate is sorted by. *)
Definition key_of (r : Row) : R :=
  match sort_key r with
  | Some x => x
  | None => 0
  end.

(** The candidates of one sort key, [None] for the unavailable ones. *)
Definition same_key (k : option R) (r : Row) : bool :=
  match k, sort_key r with
  | Some x, Some y => Reqb x y
  | None, None => true
  | _, _ => false
  end.

(** Rows for the examples. *)
Definition located_row (name : string) (km : R) (la lo : R) : Row :=
  {| Name := str name; Address := str "No address available";
     Approx_Distance_km := Km km;
     lat := Float (Finite la); lon := Float (Finite lo) |}.

Definition unlocated_row (name : string) : Row :=
  {| Name := str name; Address := str "No address available";
     Approx_Distance_km := N_A;
     lat := Float NaN; lon := Float NaN |}.

Definition hospital_far : Row := located_row "Far" 12.4 31.6 74.4.
Definition hospital_near : Row := located_row "Near" 3.2 31.5497 74.3436.
Definition hospital_unlocated : Row := unlocated_row "Unknown".

(** A hospital 0.00001 degrees of latitude north of Lahore, and one twice
    as far, as the places response gives them. *)
Definition feature_at (name : string) (la lo : R) : Feature :=
  {| properties := Some {| prop_name := Some (str name);
                           prop_formatted := None;
                           prop_lat := Some la;
                           prop_lon := Some lo |} |}.

Definition next_door : Feature := feature_at "Next door" 31.52041 74.3587.
Definition two_doors : Feature := feature_at "Two doors" 31.52042 74.3587.

(** A feature without coordinates. *)
Definition feature_unlocated (name : string) : Feature :=
  {| properties := Some {| prop_name := Some (str name);
                           prop_formatted := None;
                           prop_lat := None;
                           prop_lon := None |} |}.

(** A routing service that is unreachable. *)
Definition requests_get_fails (_ : RoutingRequest) : result Response :=
  Raise (Exn OtherException (str "Connection timed out")).

(* ------------------------------------------------------------------ *)
(** ** Rendering the response (lines 204-211) *)

(** [s.replace(old, new)] for a pattern [old] of one character. *)
Definition replace_char (old : N) (new : pystr) (s : pystr) : pystr :=
  flat_map (fun c => if (c =? old)%N then new else [c]) s.

Definition chr_amp : N := 38.     (* & *)
Definition chr_lt : N := 60.      (* < *)
Definition chr_gt : N := 62.      (* > *)
Definition chr_quot : N := 34.    (* double quote *)
Definition chr_apos : N := 39.    (* ' *)

(** [html.escape(s)] with its default [quote=True]: five replacements,
    the one of "&" first. *)
Definition html_escape (s : pystr) : pystr :=
  let s := replace_char chr_amp (str "&amp;") s in
  let s := replace_char chr_lt (str "&lt;") s in
  let s := replace_char chr_gt (str "&gt;") s in
  let s := replace_char chr_quot (str "&quot;") s in
  replace_char chr_apos (str "&#x27;") s.

(** The two pieces of the f-string of line 208 around [{escaped}]. *)
Definition result_container_open : pystr :=
  str "<div class=" ++ [chr_quot] ++ str "result-container" ++ [chr_quot]
  ++ str "><p><strong>AI Response:</strong></p><div>".

Definition result_container_close : pystr := str "</div></div>".

(** [escaped = html.escape(st.session_state.llm_response or "")] and the
    markup handed to [st.markdown]. *)
Definition render_response (llm_response : option pystr) : pystr :=
  let escaped := html_escape (or_empty llm_response) in
  result_container_open ++ escaped ++ result_container_close.

(** The entity, or the character itself, that stands for one character
    of the text. *)
Definition escape_char (c : N) : pystr :=
  if (c =? chr_amp)%N then str "&amp;"
  else if (c =? chr_lt)%N then str "&lt;"
  else if (c =? chr_gt)%N then str "&gt;"
  else if (c =? chr_quot)%N then str "&quot;"
  else if (c =? chr_apos)%N then str "&#x27;"
  else [c].

(** Characters that can open or close markup or an attribute value. *)
Definition is_markup (c : N) : bool :=
  ((c =? chr_lt) || (c =? chr_gt) || (c =? chr_quot) || (c =? chr_apos))%N.

(* ------------------------------------------------------------------ *)
(** ** Secrets and configuration (lines 18-51, 239) *)

(** A value of the secrets file that is neither a string nor an
    integer (a float, a boolean, a date, an array, a table), by what
    the code does with a secret: its truth value, [int(v)] and
    [str(v)]. *)
Record PyObject : Type := {
  obj_bool : bool;
  obj_int : result Z;
  obj_str : pystr
}.

(** A value of [st.secrets] or of the environment: a string, an
    integer, or another value of the secrets file. *)
Inductive secret : Type :=
| SecretStr (s : pystr)
| SecretInt (z : Z)
| SecretObject (o : PyObject).

(** Truthiness of a value, and of a value or [None]. *)
Definition secret_truthy (v : secret) : bool :=
  match v with
  | SecretStr [] => false
  | SecretStr (_ :: _) => true
  | SecretInt z => negb (z =? 0)%Z
  | SecretObject o => obj_bool o
  end.

(** The array [[587]] and the float [inf] of a secrets file. *)
Definition toml_array_587 : secret :=
  SecretObject
    {| obj_bool := true;
       obj_int :=
         Raise (Exn TypeError
                  (str "int() argument must be a string, a bytes-like object or a real number, not 'list'"));
       obj_str := str "[587]" |}.

Definition toml_inf : secret :=
  SecretObject
    {| obj_bool := true;
       obj_int :=
         Raise (Exn OverflowError (str "cannot convert float infinity to integer"));
       obj_str := str "inf" |}.

Definition truthy_opt (v : option secret) : bool :=
  match v with
  | Some x => secret_truthy x
  | None => false
  end.

(** How module-level code ends: with a value, with [st.stop()] after the
    given error message, or with an exception. *)
Inductive script (A : Type) : Type :=
| Returns (a : A)
| Stops (message : pystr)
| Fails (e : exn).

Arguments Returns {A} a.
Arguments Stops {A} message.
Arguments Fails {A} e.

Definition script_bind {A B : Type} (m : script A) (k : A -> script B) : script B :=
  match m with
  | Returns a => k a
  | Stops message => Stops message
  | Fails e => Fails e
  end.

Notation "x <~ m ;; k" := (script_bind m (fun x => k))
  (at level 61, m at next level, right associativity).

Section Secrets.

(** [st.secrets.get(name)]: the value, [None] for a missing key, or an
    exception when there is no secrets file. *)
Variable st_secrets_get : pystr -> result (option secret).

(** The environment. *)
Variable os_environ : pystr -> option pystr.

(** [int(s)] on a string: [None] when it raises [ValueError]. *)
Variable int_of_str : pystr -> option Z.

(** [os.getenv(name, default)] *)
Definition os_getenv (name : pystr) (default : option pystr) : option pystr :=
  match os_environ name with
  | Some s => Some s
  | None => default
  end.

(** [get_secret], lines 18-35. *)
Definition get_secret (name : pystr) (required : bool) (default : option pystr)
  : script (option secret) :=
  let val :=
    match st_secrets_get name with
    | Ok v => v
    | Raise _ => None
    end in
  let val :=
    match val with
    | None => option_map SecretStr (os_getenv name default)
    | Some v => Some v
    end in
  if required && negb (truthy_opt val)
  then Stops (str "Missing required secret: " ++ name)
  else Returns val.

(** The value [get_secret] finds: the secret if there is one, else the
    environment variable, else the default. *)
Definition looked_up (name : pystr) (default : option pystr) : option secret :=
  match st_secrets_get name with
  | Ok (Some v) => Some v
  | _ => option_map SecretStr (os_getenv name default)
  end.

(** [x or y] where [y] is a value. *)
Definition or_value (x : option secret) (y : secret) : secret :=
  match x with
  | Some v => if secret_truthy v then v else y
  | None => y
  end.

(** [x or y] where [y] may be [None]. *)
Definition or_opt (x y : option secret) : option secret :=
  if truthy_opt x then x else y.

(** [int(v)] *)
Definition py_int (v : secret) : script Z :=
  match v with
  | SecretInt z => Returns z
  | SecretStr s =>
      match int_of_str s with
      | Some z => Returns z
      | None =>
          Fails (Exn ValueError
                   (str "invalid literal for int() with base 10: " ++ s))
      end
  | SecretObject o =>
      match obj_int o with
      | Ok z => Returns z
      | Raise e => Fails e
      end
  end.

(** The module-level names of lines 38-51. *)
Record Config : Type := {
  GROQ_API_KEY : option secret;
  GEOAPIFY_KEY : option secret;
  BREVO_SMTP_HOST : secret;
  BREVO_SMTP_PORT : Z;
  BREVO_SMTP_LOGIN : option secret;
  BREVO_SMTP_PASSWORD : option secret;
  BREVO_FROM_EMAIL : option secret;
  BREVO_FROM_NAME : secret;
  BREVO_REPLY_TO_EMAIL : option secret;
  BREVO_REPLY_TO_NAME : option secret
}.

Definition load_config : script Config :=
  groq <~ get_secret (str "GROQ_API_KEY") false None ;;
  geoapify <~ get_secret (str "GEOAPIFY_KEY") false None ;;
  host <~ get_secret (str "BREVO_SMTP_HOST") false None ;;
  port_secret <~ get_secret (str "BREVO_SMTP_PORT") false None ;;
  port <~ py_int (or_value port_secret (SecretInt 587)) ;;
  login <~ get_secret (str "BREVO_SMTP_LOGIN") false None ;;
  password <~ get_secret (str "BREVO_SMTP_PASSWORD") false None ;;
  from_email <~ get_secret (str "BREVO_FROM_EMAIL") false None ;;
  from_name <~ get_secret (str "BREVO_FROM_NAME") false None ;;
  reply_to_email <~ get_secret (str "BREVO_REPLY_TO_EMAIL") false None ;;
  reply_to_name <~ get_secret (str "BREVO_REPLY_TO_NAME") false None ;;
  Returns {| GROQ_API_KEY := groq;
             GEOAPIFY_KEY := geoapify;
             BREVO_SMTP_HOST :=
               or_value host (SecretStr (str "smtp-relay.brevo.com"));
             BREVO_SMTP_PORT := port;
             BREVO_SMTP_LOGIN := login;
             BREVO_SMTP_PASSWORD := password;
             BREVO_FROM_EMAIL := or_opt from_email login;
             BREVO_FROM_NAME :=
               or_value from_name (SecretStr (str "HealthCare AI Assistant"));
             BREVO_REPLY_TO_EMAIL := reply_to_email;
             BREVO_REPLY_TO_NAME := reply_to_name |}.

End Secrets.

(** [can_send_email], line 239:
    [bool(BREVO_SMTP_HOST and BREVO_SMTP_PORT and BREVO_SMTP_LOGIN and
    BREVO_SMTP_PASSWORD)]. *)
Definition can_send_email (cfg : Config) : bool :=
  secret_truthy (BREVO_SMTP_HOST cfg)
  && negb (BREVO_SMTP_PORT cfg =? 0)%Z
  && truthy_opt (BREVO_SMTP_LOGIN cfg)
  && truthy_opt (BREVO_SMTP_PASSWORD cfg).

(** The envelope sender of line 285: [BREVO_FROM_EMAIL or
    BREVO_SMTP_LOGIN]. *)
Definition envelope_sender (cfg : Config) : option secret :=
  or_opt (BREVO_FROM_EMAIL cfg) (BREVO_SMTP_LOGIN cfg).

(* ------------------------------------------------------------------ *)
(** ** Session state, theme and the analysis and PDF handlers
       (lines 53-76, 118-123, 194-229) *)

Fixpoint str_eqb (a b : pystr) : bool :=
  match a, b with
  | [], [] => true
  | x :: a', y :: b' => (x =? y)%N && str_eqb a' b'
  | _, _ => false
  end.

(** The content of a file. *)
Definition bytes : Type := list N.

(** The keys of [st.session_state] the script uses; [None] is a key that
    is not set. *)
Record SessionState : Type := {
  ss_theme : option pystr;
  ss_llm_response : option pystr;
  ss_pdf_generated : option bool;
  ss_pdf_path : option pystr;
  ss_search_clicked : option bool
}.

Definition new_session : SessionState :=
  {| ss_theme := None; ss_llm_response := None; ss_pdf_generated := None;
     ss_pdf_path := None; ss_search_clicked := None |}.

(** The session and the files of the working directory. *)
Record World : Type := {
  session : SessionState;
  files : pystr -> option bytes
}.

Definition write_file (fs : pystr -> option bytes) (path : pystr) (data : bytes)
  : pystr -> option bytes :=
  fun p => if str_eqb p path then Some data else fs p.

(** Lines 54-55: [if "theme" not in st.session_state: ... = "dark"]. *)
Definition init_theme (s : SessionState) : SessionState :=
  match ss_theme s with
  | Some _ => s
  | None =>
      {| ss_theme := Some (str "dark");
         ss_llm_response := ss_llm_response s;
         ss_pdf_generated := ss_pdf_generated s;
         ss_pdf_path := ss_pdf_path s;
         ss_search_clicked := ss_search_clicked s |}
  end.

(** The colours of lines 58-76. *)
Record Palette : Type := {
  bg_color : pystr;
  text_color : pystr;
  header_color : pystr;
  card_color : pystr;
  result_color : pystr;
  button_color : pystr;
  button_text : pystr;
  shadow : pystr
}.

Definition palette (theme : pystr) : Palette :=
  if str_eqb theme (str "dark") then
    {| bg_color := str "#121212";
       text_color := str "#FFFFFF";
       header_color := str "#5B0C86";
       card_color := str "#1e1e26";
       result_color := str "#2A2A2D";
       button_color := str "#ffffff";
       button_text := str "#6a1b9a";
       shadow := str "0 4px 6px rgba(0, 0, 0, 0.1)" |}
  else
    {| bg_color := str "#f5f5f5";
       text_color := str "#000000";
       header_color := str "#e1bee7";
       card_color := str "#ffffff";
       result_color := str "#f7eeee";
       button_color := str "#ce93d8";
       button_text := str "#000000";
       shadow := str "0 4px 6px rgba(0, 0, 0, 0.1)" |}.

(** Line 120; the two emoji are U+1F31E and U+1F319. *)
Definition toggle_label (theme : pystr) : pystr :=
  if str_eqb theme (str "dark")
  then 127774%N :: str " Light Mode"
  else 127769%N :: str " Dark Mode".

(** Lines 121-123: the button sets the other theme and reruns. *)
Definition on_toggle (s : SessionState) : SessionState :=
  {| ss_theme :=
       Some (if str_eqb (get_default (ss_theme s) []) (str "dark")
             then str "light" else str "dark");
     ss_llm_response := ss_llm_response s;
     ss_pdf_generated := ss_pdf_generated s;
     ss_pdf_path := ss_pdf_path s;
     ss_search_clicked := ss_search_clicked s |}.

(** What a handler shows. *)
Inductive notice : Type :=
| st_warning (message : pystr)
| st_success (message : pystr)
| st_error (message : pystr).

Definition emoji_warning : pystr := [9888%N; 65039%N; 32%N].   (* U+26A0 U+FE0F *)
Definition emoji_check : pystr := [9989%N; 32%N].              (* U+2705 *)
Definition emoji_cross : pystr := [10060%N; 32%N].             (* U+274C *)

Definition pdf_file_name : pystr := str "healthcare_report.pdf".

Section Handlers.

Variable client : option Groq.

(** [pdf = PDF(); pdf.add_unicode_text(text)] and the bytes that
    [pdf.output] writes, or the exception one of them raises; the
    document is taken to depend on the text only. *)
Variable render_pdf : pystr -> result bytes.

(** The handler of "Analyze Symptoms", lines 194-202. *)
Definition on_analyze (symptoms : pystr) (s : SessionState)
  : result (SessionState * notice) :=
  match strip symptoms with
  | [] => Ok (s, st_warning (emoji_warning ++ str "Please describe your symptoms."))
  | _ :: _ =>
      llm_response <- ask_groq client (strip symptoms) ;;
      Ok ({| ss_theme := ss_theme s;
             ss_llm_response := Some llm_response;
             ss_pdf_generated := Some false;
             ss_pdf_path := ss_pdf_path s;
             ss_search_clicked := ss_search_clicked s |},
          st_success (emoji_check ++ str "Analysis complete!"))
  end.

(** The handler of "Generate PDF", lines 213-223; the button is drawn
    only when [llm_response] is set (line 205). A failed [pdf.output]
    is taken to leave the file as it was. *)
Definition on_generate_pdf (w : World) : World * option notice :=
  match ss_llm_response (session w) with
  | None => (w, None)
  | Some llm_response =>
      match render_pdf (or_empty (Some llm_response)) with
      | Ok data =>
          ({| session :=
                {| ss_theme := ss_theme (session w);
                   ss_llm_response := ss_llm_response (session w);
                   ss_pdf_generated := Some true;
                   ss_pdf_path := Some pdf_file_name;
                   ss_search_clicked := ss_search_clicked (session w) |};
              files := write_file (files w) pdf_file_name data |},
           Some (st_success (emoji_check ++ str "PDF generated successfully!")))
      | Raise e =>
          (w, Some (st_error (emoji_cross ++ str "Failed to generate PDF: "
                              ++ exn_str e)))
      end
  end.

(** Lines 378-382: the search button with a non-empty input records the
    click. *)
Definition on_search (location_input : pystr) (s : SessionState) : SessionState :=
  match location_input with
  | [] => s
  | _ :: _ =>
      {| ss_theme := ss_theme s;
         ss_llm_response := ss_llm_response s;
         ss_pdf_generated := ss_pdf_generated s;
         ss_pdf_path := ss_pdf_path s;
         ss_search_clicked := Some true |}
  end.

(** One run of the script: at most one button is clicked. A click on
    "Calculate driving distances" is a [Rerun] for the session: the
    search button is not clicked in that run. *)
Inductive event : Type :=
| Rerun
| Click_toggle
| Click_analyze (symptoms : pystr)
| Click_generate_pdf
| Click_send_email (email : pystr)
| Click_search (location_input : pystr).

Definition with_session (w : World) (s : SessionState) : World :=
  {| session := s; files := files w |}.

(** Lines 378-379, run whenever the hospital finder is drawn:
    [if 'search_clicked' not in st.session_state: ... = False]. *)
Definition init_search (hospital_finder : bool) (s : SessionState) : SessionState :=
  match hospital_finder, ss_search_clicked s with
  | true, None =>
      {| ss_theme := ss_theme s;
         ss_llm_response := ss_llm_response s;
         ss_pdf_generated := ss_pdf_generated s;
         ss_pdf_path := ss_pdf_path s;
         ss_search_clicked := Some false |}
  | _, _ => s
  end.

(** The effect of one run of the script on the session and the files,
    in the order of the script: the theme, the clicked button, the
    hospital finder. The hospital finder is drawn only with a places key
    ([hospital_finder]); after the theme button the script reruns, which
    reaches the hospital finder too. The send handler changes neither
    the session nor the files. The hospital search runs last, after
    [search_clicked] is set: when it raises, the session is the one
    given here, the session state keeping what was assigned before an
    exception. A run that fails while the configuration is read (line
    43) reaches no assignment and is no event. *)
Definition step (hospital_finder : bool) (w : World) (e : event) : result World :=
  let w := with_session w (init_theme (session w)) in
  w <- match e with
       | Click_toggle => Ok (with_session w (on_toggle (session w)))
       | Click_analyze symptoms =>
           r <- on_analyze symptoms (session w) ;; Ok (with_session w (fst r))
       | Click_generate_pdf => Ok (fst (on_generate_pdf w))
       | Rerun | Click_send_email _ | Click_search _ => Ok w
       end ;;
  let s := init_search hospital_finder (session w) in
  let s := match e with
           | Click_search location_input =>
               if hospital_finder then on_search location_input s else s
           | _ => s
           end in
  Ok (with_session w s).

Fixpoint run (hospital_finder : bool) (w : World) (events : list event)
  : result World :=
  match events with
  | [] => Ok w
  | e :: rest => w' <- step hospital_finder w e ;; run hospital_finder w' rest
  end.

End Handlers.

(** [st.session_state.get("pdf_generated", False)], the guard of the
    download and email section (line 224). *)
Definition pdf_section_shown (s : SessionState) : bool :=
  get_default (ss_pdf_generated s) false.

(** The invariant of the session: the theme is unset, "dark" or
    "light"; when the download and email section is shown, the path is
    the report's file name, a response is set, and the file holds the
    document of that response. *)
Definition session_invariant (render_pdf : pystr -> result bytes) (w : World)
  : Prop :=
  (ss_theme (session w) = None \/
   ss_theme (session w) = Some (str "dark") \/
   ss_theme (session w) = Some (str "light")) /\
  (pdf_section_shown (session w) = true ->
   ss_pdf_path (session w) = Some pdf_file_name /\
   exists (llm_response : pystr) (data : bytes),
     ss_llm_response (session w) = Some llm_response /\
     render_pdf (or_empty (Some llm_response)) = Ok data /\
     files w pdf_file_name = Some data).

(* ------------------------------------------------------------------ *)
(** ** The handler of "Send PDF to Email" (lines 244-293) *)

(** The message the handler builds; [as_string()] and the base64
    transfer encoding of the attachment are left to the library. *)
Record Message : Type := {
  header_From : pystr;
  header_To : pystr;
  header_Subject : pystr;
  header_Reply_To : option pystr;
  body_plain : pystr;
  attachment : bytes;
  attachment_disposition : pystr
}.

(** The calls the handler makes on the server object, the constructor
    and the end of the [with] statement included. *)
Inductive smtp_call : Type :=
| SMTP_connect (host : secret) (port : Z)
| SMTP_ehlo
| SMTP_starttls
| SMTP_login (user password : option secret)
| SMTP_sendmail (from_addr : option secret) (to_addr : pystr) (msg : Message)
| SMTP_quit.

(** What the end of the [with] statement does with the answer to QUIT:
    a lost connection is ignored, another error is raised. *)
Inductive quit_answer : Type :=
| Bye
| Disconnected
| Quit_error (e : exn).

(** What the handler shows. *)
Inductive send_notice : Type :=
| Invalid_address          (* "Please enter a valid email address." *)
| Not_configured           (* "Email sending not configured. ..." *)
| Sent (to_addr : pystr)   (* "PDF sent to ... successfully via Brevo SMTP!" *)
| PDF_not_found            (* "PDF file not found. Please generate the PDF first." *)
| Send_failed (error : pystr).  (* "Failed to send email via Brevo SMTP: ..." *)

Section SendEmail.

(** [str(z)] for an integer. *)
Variable str_of_int : Z -> pystr.

(** The server: its answer to a call after the calls made so far
    ([None]: no exception), and its answer to QUIT. *)
Variable smtp_server : list smtp_call -> smtp_call -> option exn.
Variable smtp_quit : list smtp_call -> quit_answer.

(** [str(e)] of the [AttributeError] for a key of the session state that
    is not set. *)
Variable missing_key_message : pystr -> pystr.

Variable cfg : Config.

(** A value in an f-string. *)
Definition format_secret (v : option secret) : pystr :=
  match v with
  | Some (SecretStr s) => s
  | Some (SecretInt z) => str_of_int z
  | Some (SecretObject o) => obj_str o
  | None => str "None"
  end.

(** Lines 261-280. *)
Definition build_message (email : pystr) (pdf_binary_data : bytes) : Message :=
  {| header_From :=
       format_secret (Some (BREVO_FROM_NAME cfg)) ++ str " <"
       ++ format_secret (BREVO_FROM_EMAIL cfg) ++ str ">";
     header_To := strip email;
     header_Subject := str "Your Healthcare Report";
     header_Reply_To :=
       if truthy_opt (BREVO_REPLY_TO_EMAIL cfg) then
         if truthy_opt (BREVO_REPLY_TO_NAME cfg)
         then Some (format_secret (BREVO_REPLY_TO_NAME cfg) ++ str " <"
                    ++ format_secret (BREVO_REPLY_TO_EMAIL cfg) ++ str ">")
         else Some (format_secret (BREVO_REPLY_TO_EMAIL cfg))
       else None;
     body_plain := str "Attached is your AI-generated healthcare report.";
     attachment := pdf_binary_data;
     attachment_disposition := str "attachment; filename=healthcare_report.pdf" |}.

(** One call on the server, added to the calls made so far. *)
Definition smtp_do (c : smtp_call) (calls : list smtp_call)
  : list smtp_call * result unit :=
  (calls ++ [c],
   match smtp_server calls c with
   | None => Ok tt
   | Some e => Raise e
   end).

(** Calls in sequence, up to the first that raises. *)
Fixpoint smtp_do_all (cs : list smtp_call) (calls : list smtp_call)
  : list smtp_call * result unit :=
  match cs with
  | [] => (calls, Ok tt)
  | c :: rest =>
      match smtp_do c calls with
      | (calls', Ok _) => smtp_do_all rest calls'
      | (calls', Raise e) => (calls', Raise e)
      end
  end.

(** The body of the [with] statement, lines 283-287. *)
Definition smtp_body (email : pystr) (msg : Message) : list smtp_call :=
  [SMTP_ehlo; SMTP_starttls; SMTP_ehlo;
   SMTP_login (BREVO_SMTP_LOGIN cfg) (BREVO_SMTP_PASSWORD cfg);
   SMTP_sendmail (envelope_sender cfg) (strip email) msg].

(** Lines 282-287: the constructor connects; once it has succeeded the
    body runs and the [with] statement ends with QUIT, whose error, if
    any, replaces the outcome of the body. *)
Definition smtp_session (email : pystr) (msg : Message)
  : list smtp_call * result unit :=
  match smtp_do (SMTP_connect (BREVO_SMTP_HOST cfg) (BREVO_SMTP_PORT cfg)) [] with
  | (calls, Raise e) => (calls, Raise e)
  | (calls, Ok _) =>
      match smtp_do_all (smtp_body email msg) calls with
      | (calls', body) =>
          (calls' ++ [SMTP_quit],
           match smtp_quit calls' with
           | Quit_error e => Raise e
           | Bye | Disconnected => body
           end)
      end
  end.

(** The handler: the calls made on the server and what is shown. An
    unset [pdf_path] raises at line 251 and is reported by the last
    [except]; the exceptions of the server are taken not to be
    [FileNotFoundError]. *)
Definition on_send_email (w : World) (email : pystr)
  : list smtp_call * send_notice :=
  if negb (email_accepted email) then ([], Invalid_address)
  else if negb (can_send_email cfg) then ([], Not_configured)
  else
    match ss_pdf_path (session w) with
    | None => ([], Send_failed (missing_key_message (str "pdf_path")))
    | Some path =>
        match files w path with
        | None => ([], PDF_not_found)
        | Some pdf_binary_data =>
            match smtp_session email (build_message email pdf_binary_data) with
            | (calls, Ok _) => (calls, Sent (strip email))
            | (calls, Raise e) => (calls, Send_failed (exn_str e))
            end
        end
    end.

(** The send button is drawn only in the download and email section
    (line 224). *)
Definition send_email_block (w : World) (email : pystr)
  : list smtp_call * option send_notice :=
  if pdf_section_shown (session w)
  then let (calls, n) := on_send_email w email in (calls, Some n)
  else ([], None).

End SendEmail.

(* ------------------------------------------------------------------ *)
(** ** Values for the examples *)

Definition example_config : Config :=
  {| GROQ_API_KEY := None;
     GEOAPIFY_KEY := None;
     BREVO_SMTP_HOST := SecretStr (str "smtp-relay.brevo.com");
     BREVO_SMTP_PORT := 587;
     BREVO_SMTP_LOGIN := Some (SecretStr (str "login@smtp-brevo.com"));
     BREVO_SMTP_PASSWORD := Some (SecretStr (str "secret"));
     BREVO_FROM_EMAIL := Some (SecretStr (str "login@smtp-brevo.com"));
     BREVO_FROM_NAME := SecretStr (str "HealthCare AI Assistant");
     BREVO_REPLY_TO_EMAIL := None;
     BREVO_REPLY_TO_NAME := None |}.

(** A server that accepts every call. *)
Definition smtp_accepts (_ : list smtp_call) (_ : smtp_call) : option exn := None.
Definition smtp_says_bye (_ : list smtp_call) : quit_answer := Bye.

(* ------------------------------------------------------------------ *)
(** ** Double precision: CPython's [float] on an IEEE 754 platform *)

Module Binary64.

Import PrimFloat.
Local Open Scope float_scope.

(** The functions of the C library whose rounding IEEE 754 leaves to
    the platform. [c_pow] gives the value and whether [errno] is set to
    [ERANGE]. *)
Record Libm : Type := {
  c_sin : float -> float;
  c_cos : float -> float;
  c_asin : float -> float;
  c_pow : float -> float -> float * bool
}.

Definition is_finite (x : float) : bool := negb (is_nan x || is_infinity x).

(** [math_1] of [mathmodule.c] with [can_overflow = 0], the wrapper of
    [math.sin], [math.cos], [math.asin] and [math.sqrt]: a NaN from an
    argument that is not NaN, or an infinity from a finite argument, is
    [ValueError] ([None]). *)
Definition math_1 (func : float -> float) (x : float) : option float :=
  let r := func x in
  if is_nan r && negb (is_nan x) then None
  else if is_infinity r && is_finite x then None
  else Some r.

(** [math.radians]: [x * degToRad], where [degToRad] is the C constant
    [Py_MATH_PI / 180.0]. *)
Definition Py_MATH_PI : float := 0x1.921fb54442d18p+1.
Definition degToRad : float := Py_MATH_PI / 180.

(** [float_pow] of [floatobject.c] for the exponent [2]: the special
    cases, then the C [pow] on the absolute value; [None] is
    [OverflowError]. *)
Definition float_pow2 (L : Libm) (iv : float) : option float :=
  if is_nan iv then Some iv
  else if is_infinity iv then Some (abs iv)
  else if iv =? 0 then Some 0
  else
    let iv := abs iv in
    if iv =? 1 then Some 1
    else
      let (ix, erange) := c_pow L iv 2 in
      let erange :=
        if erange then negb (ix =? 0) else is_infinity ix in
      if erange then None else Some ix.

(** An integer as a float, rounded to nearest, ties to even. *)
Definition float_of_Z (z : Z) : float :=
  FloatOps.SF2Prim
    (SpecFloat.binary_normalize FloatOps.prec FloatOps.emax z 0 false).

(** [PyLong_AsDouble]: [None] is [OverflowError]. *)
Definition PyLong_AsDouble (z : Z) : option float :=
  let x := float_of_Z z in
  if is_infinity x then None else Some x.

(** [|x| * 100] rounded to an integer, ties to even, on the exact value
    of a finite [x]. *)
Definition round_half_even_100 (x : float) : Z :=
  match FloatOps.Prim2SF x with
  | SpecFloat.S754_finite _ m e =>
      match e with
      | Z0 => (Zpos m * 100)%Z
      | Zpos p => (Zpos m * 100 * 2 ^ Zpos p)%Z
      | Zneg p =>
          let den := (2 ^ Zpos p)%Z in
          let num := (Zpos m * 100)%Z in
          let q := (num / den)%Z in
          let r := (num mod den)%Z in
          match (2 * r ?= den)%Z with
          | Lt => q
          | Gt => (q + 1)%Z
          | Eq => if Z.even q then q else (q + 1)%Z
          end
      end
  | _ => 0%Z
  end.

(** [round(x, 2)] ([float___round___impl] and [double_round]): the
    float nearest to the decimal with two places nearest to the exact
    value of [x], ties to even. From [2^46] on every float is its own
    rounding, the floats being more than 0.01 apart; below, the
    integer [|x| * 100] is exact as a float and its quotient by [100]
    is correctly rounded. *)
Definition round2 (x : float) : float :=
  if negb (is_finite x) then x
  else if 0x1p+46 <=? abs x then x
  else
    let r := float_of_Z (round_half_even_100 x) / 100 in
    if get_sign x then - r else r.

(** CPython's floats over the C library [L]. *)
Definition model (L : Libm) : FloatModel := {|
  num := float;
  fconst := float_of_Z;
  fadd := add;
  fsub := sub;
  fmul := mul;
  fdiv := div;
  fis_zero := fun x => x =? 0;
  fpow2 := float_pow2 L;
  m_radians := fun x => x * degToRad;
  m_sin := math_1 (c_sin L);
  m_cos := math_1 (c_cos L);
  m_asin := math_1 (c_asin L);
  m_sqrt := math_1 sqrt;
  two_nonzero := eq_refl
|}.

(** Latitudes in [-90, 90], longitudes in [-180, 180]. *)
Definition valid (lat lon : float) : bool :=
  (-90 <=? lat) && (lat <=? 90) && (-180 <=? lon) && (lon <=? 180).

(** *** Values of the C library

    What a C library returns at some arguments: a table for each
    function; for [pow] the exponent is [2] and [errno] is not set. *)
Record Samples : Type := {
  sin_samples : list (float * float);
  cos_samples : list (float * float);
  asin_samples : list (float * float);
  pow2_samples : list (float * float)
}.

Definition agrees (L : Libm) (S : Samples) : Prop :=
  Forall (fun p => c_sin L (fst p) = snd p) (sin_samples S) /\
  Forall (fun p => c_cos L (fst p) = snd p) (cos_samples S) /\
  Forall (fun p => c_asin L (fst p) = snd p) (asin_samples S) /\
  Forall (fun p => c_pow L (fst p) 2 = (snd p, false)) (pow2_samples S).

Fixpoint lookup (table : list (float * float)) (x : float) : float :=
  match table with
  | [] => nan
  | (a, v) :: rest =>
      if Leibniz.eqb a x then v else lookup rest x
  end.

(** The library that knows the samples only. *)
Definition libm_of (S : Samples) : Libm := {|
  c_sin := lookup (sin_samples S);
  c_cos := lookup (cos_samples S);
  c_asin := lookup (asin_samples S);
  c_pow := fun x _ => (lookup (pow2_samples S) x, false)
|}.

(** The values of glibc 2.36 on x86-64 at the arguments the calls below
    reach. *)
Definition glibc_samples : Samples := {|
  sin_samples :=
    [ (-0x1.01ce5ae1c1cdfp+0, -0x1.b0c628b07bf36p-1);
      (0x1.921fb54442d18p+0, 0x1p+0);
      (-0x1.921fb54442d18p+0, -0x1p+0);
      (0x1.1df46a2589c6fp+0, 0x1.cc2ebbb5b7ac6p-1);
      (-0x1.1df46a2589c6fp+0, -0x1.cc2ebbb5b7ac6p-1);
      (0x1.0c1c758b4af5ep-12, 0x1.0c1c755a47914p-12);
      (-0x1.1458bf0d634cbp-13, -0x1.1458befff86bap-13) ];
  cos_samples :=
    [ (0x1.01ce5ae5814f2p+0, 0x1.1196a19257137p-1);
      (-0x1.01ce5ade024cap+0, 0x1.1196a19f03351p-1);
      (-0x1.1df46a2529d39p+0, 0x1.c0e45dabe05c9p-2);
      (0x1.1df46a25e9ba3p+0, 0x1.c0e45da92e71bp-2);
      (0x1.19ab4372765fbp-1, 0x1.b474dc55112c5p-1);
      (0x1.19ee4a8fd9327p-1, 0x1.b451cdc56a995p-1) ];
  asin_samples :=
    [ (0x1.0000000000001p+0, nan);
      (0x1.24d5ffdb42d55p-12, 0x1.24d6001b1f7bdp-12) ];
  pow2_samples :=
    [ (0x1.b0c628b07bf36p-1, 0x1.6dceb15b4ce66p-1);
      (0x1.cc2ebbb5b7ac6p-1, 0x1.9d9bfd8e85824p-1);
      (0x1.0c1c755a47914p-12, 0x1.18cb98dee7637p-24);
      (0x1.1458befff86bap-13, 0x1.2a4f7a9bce23dp-26) ]
|}.

(** Two valid points that are almost antipodal, (57.7, -87.8) and
    (-57.6999999, 92.2), and two more, (-64.0, 0.0) and
    (64.00000001, 180.0). *)
Definition hudson_bay_lat : float := 0x1.cd9999999999ap+5.
Definition hudson_bay_lon : float := -0x1.5f33333333333p+6.
Definition indian_ocean_lat : float := -0x1.cd99998c2da05p+5.
Definition indian_ocean_lon : float := 0x1.70ccccccccccdp+6.


(** Lahore (31.5204, 74.3587) and a hospital at (31.5497, 74.3436). *)
Definition Lahore_lat : float := 0x1.f8538ef34d6a1p+4.
Definition Lahore_lon : float := 0x1.296f4f0d844d0p+6.
Definition hospital_lat : float := 0x1.f8cb923a29c78p+4.
Definition hospital_lon : float := 0x1.295fd8adab9f5p+6.

(** 3.558459793304851 and 3.56. *)
Definition Lahore_hospital_km : float := 0x1.c77b9c4a30086p+1.
Definition km_3_56 : float := 0x1.c7ae147ae147bp+1.

End Binary64.

(* ------------------------------------------------------------------ *)
(** ** The hospital search on the values the services return
       (lines 315-347 and 381-403)

    The bodies of the responses are whatever [r.json()] returns, and
    the code tests none of their types: here the adapters, the distance
    and the row loop are written on Python values, with the exceptions
    the operations raise on a value of the wrong type. *)

(** Python's numbers beyond the float operations of the formula: the
    conversion of an [int] to a [float] ([None]: [OverflowError]) and
    [round(x, 2)]. *)
Record Arith : Type := {
  floats : FloatModel;
  PyLong_AsDouble : Z -> option (num floats);
  round2 : num floats -> num floats
}.

(** Double precision over a C library, and exact arithmetic. *)
Definition Binary64_arith (L : Binary64.Libm) : Arith :=
  {| floats := Binary64.model L;
     PyLong_AsDouble := Binary64.PyLong_AsDouble;
     round2 := Binary64.round2 |}.

Definition Real_arith : Arith :=
  {| floats := RealModel;
     PyLong_AsDouble := fun z => Some (IZR z);
     round2 := py_round2 |}.

Module Py.

(** A value of [r.json()]: [None], a [bool], an [int], a [float], a
    [str], a [list], or a [dict] by the list of its items. *)
Unset Elimination Schemes.
Inductive value (A : Type) : Type :=
| PNone
| PBool (b : bool)
| PInt (z : Z)
| PFloat (x : A)
| PStr (s : pystr)
| PList (items : list (value A))
| PDict (items : list (pystr * value A)).
Set Elimination Schemes.

Arguments PNone {A}.
Arguments PBool {A} b.
Arguments PInt {A} z.
Arguments PFloat {A} x.
Arguments PStr {A} s.
Arguments PList {A} items.
Arguments PDict {A} items.

Definition type_name {A : Type} (v : value A) : pystr :=
  match v with
  | PNone => str "NoneType"
  | PBool _ => str "bool"
  | PInt _ => str "int"
  | PFloat _ => str "float"
  | PStr _ => str "str"
  | PList _ => str "list"
  | PDict _ => str "dict"
  end.

Definition no_attribute_get {A : Type} (v : value A) : exn :=
  Exn AttributeError
    (str "'" ++ type_name v ++ str "' object has no attribute 'get'").

Definition not_subscriptable {A : Type} (v : value A) : exn :=
  Exn TypeError (str "'" ++ type_name v ++ str "' object is not subscriptable").

Definition not_iterable {A : Type} (v : value A) : exn :=
  Exn TypeError (str "'" ++ type_name v ++ str "' object is not iterable").

Fixpoint lookup {A : Type} (key : pystr) (items : list (pystr * value A))
  : option (value A) :=
  match items with
  | [] => None
  | (k, v) :: rest => if str_eqb k key then Some v else lookup key rest
  end.

(** [v.get(key, default)] *)
Definition get {A : Type} (v : value A) (key : pystr) (default : value A)
  : result (value A) :=
  match v with
  | PDict items => Ok (get_default (lookup key items) default)
  | _ => Raise (no_attribute_get v)
  end.

(** [v[key]] for a string [key] *)
Definition getitem_str {A : Type} (v : value A) (key : pystr) : result (value A) :=
  match v with
  | PDict items =>
      lift_partial (Exn KeyError (str "'" ++ key ++ str "'")) (lookup key items)
  | PStr _ =>
      Raise (Exn TypeError (str "string indices must be integers, not 'str'"))
  | PList _ =>
      Raise (Exn TypeError (str "list indices must be integers or slices, not str"))
  | _ => Raise (not_subscriptable v)
  end.

(** [v[0]]; the keys of a [dict] of [r.json()] are strings. *)
Definition getitem_0 {A : Type} (v : value A) : result (value A) :=
  match v with
  | PList (x :: _) => Ok x
  | PList [] => Raise (Exn IndexError (str "list index out of range"))
  | PStr (c :: _) => Ok (PStr [c])
  | PStr [] => Raise (Exn IndexError (str "string index out of range"))
  | PDict _ => Raise (Exn KeyError (str "0"))
  | _ => Raise (not_subscriptable v)
  end.

(** [for x in v]: the items of a [list], the characters of a [str], the
    keys of a [dict]. *)
Definition iterate {A : Type} (v : value A) : result (list (value A)) :=
  match v with
  | PList items => Ok items
  | PStr s => Ok (map (fun c => PStr [c]) s)
  | PDict items => Ok (map (fun kv => PStr (fst kv)) items)
  | _ => Raise (not_iterable v)
  end.

(** A row of [data_rows]; the display string "Coordinates" is left
    out. The distance cell holds a float or the string ["N/A"]. *)
Inductive cell (A : Type) : Type :=
| Km (x : A)
| N_A.

Arguments Km {A} x.
Arguments N_A {A}.

Record Row (A : Type) : Type := {
  Name : value A;
  Address : value A;
  Approx_Distance_km : cell A;
  lat : value A;
  lon : value A
}.

Arguments Name {A} r.
Arguments Address {A} r.
Arguments Approx_Distance_km {A} r.
Arguments lat {A} r.
Arguments lon {A} r.

(** [pd.to_numeric(s, errors="coerce")] on one cell: the float, and NaN
    ([None]) for ["N/A"]. *)
Definition to_numeric {A : Type} (c : cell A) : option A :=
  match c with
  | Km x => Some x
  | N_A => None
  end.

Definition sort_key {A : Type} (r : Row A) : option A :=
  to_numeric (Approx_Distance_km r).

(** The parameters of the two requests (the API key aside); the filter
    is [f"circle:{lon},{lat},35000"]. *)
Record GeocodeRequest : Type := { text : pystr }.

Record PlacesRequest (A : Type) : Type := {
  categories : pystr;
  filter_circle : value A * value A * Z;
  limit : Z
}.

(** A response: [r.ok], and [r.json()], which raises on a body that is
    not JSON. *)
Record Response (A : Type) : Type := {
  ok : bool;
  json : result (value A)
}.

Arguments ok {A} r.
Arguments json {A} r.

(** What the handler has done when it reaches line 405. *)
Inductive outcome (A : Type) : Type :=
| Idle
| Geocoding_failed          (* st.error("Invalid address or geocoding failed.") *)
| No_hospitals_found        (* st.warning("No hospitals found ...") *)
| Results (data_rows : list (Row A)).

Arguments Idle {A}.
Arguments Geocoding_failed {A}.
Arguments No_hospitals_found {A}.
Arguments Results {A} data_rows.

Section Handler.

Variable P : Arith.

Local Abbreviation F := (floats P).
Local Abbreviation A := (num (floats P)).

(** Truthiness: [None], [False], zero, and the empty string, list and
    dict are falsy. *)
Definition truthy (v : value A) : bool :=
  match v with
  | PNone => false
  | PBool b => b
  | PInt z => negb (z =? 0)%Z
  | PFloat x => negb (fis_zero F x)
  | PStr s => match s with [] => false | _ :: _ => true end
  | PList items => match items with [] => false | _ :: _ => true end
  | PDict items => match items with [] => false | _ :: _ => true end
  end.

(** A number: an [int] (a [bool] is one) or a [float]. *)
Inductive number : Type :=
| NInt (z : Z)
| NFloat (x : A).

Definition as_number (v : value A) : option number :=
  match v with
  | PBool b => Some (NInt (if b then 1 else 0))
  | PInt z => Some (NInt z)
  | PFloat x => Some (NFloat x)
  | _ => None
  end.

(** [PyFloat_AsDouble] on a number. *)
Definition to_float (n : number) : result A :=
  match n with
  | NInt z =>
      lift_partial (Exn OverflowError (str "int too large to convert to float"))
        (PyLong_AsDouble P z)
  | NFloat x => Ok x
  end.

(** [x - y]: exact on two [int]s, on floats otherwise. *)
Definition sub (x y : value A) : result number :=
  match as_number x, as_number y with
  | Some (NInt a), Some (NInt b) => Ok (NInt (a - b))
  | Some a, Some b =>
      fa <- to_float a ;;
      fb <- to_float b ;;
      Ok (NFloat (fsub F fa fb))
  | _, _ =>
      Raise (Exn TypeError
               (str "unsupported operand type(s) for -: '" ++ type_name x
                ++ str "' and '" ++ type_name y ++ str "'"))
  end.

(** [math.radians(v)] *)
Definition radians (v : value A) : result A :=
  match as_number v with
  | Some n => x <- to_float n ;; Ok (math_radians F x)
  | None =>
      Raise (Exn TypeError (str "must be real number, not " ++ type_name v))
  end.

Definition of_number (n : number) : value A :=
  match n with
  | NInt z => PInt z
  | NFloat x => PFloat x
  end.

(** [haversine_km], lines 371-376, on the values it is called with. *)
Definition haversine_km (lat1 lon1 lat2 lon2 : value A) : result A :=
  let R := fconst F 6371 in
  d <- sub lat2 lat1 ;;
  dlat <- radians (of_number d) ;;
  d <- sub lon2 lon1 ;;
  dlon <- radians (of_number d) ;;
  hdlat <- py_div F dlat (fconst F 2) ;;
  s1 <- math_sin F hdlat ;;
  t1 <- py_pow2 F s1 ;;
  r1 <- radians lat1 ;;
  c1 <- math_cos F r1 ;;
  r2 <- radians lat2 ;;
  c2 <- math_cos F r2 ;;
  hdlon <- py_div F dlon (fconst F 2) ;;
  s2 <- math_sin F hdlon ;;
  t2 <- py_pow2 F s2 ;;
  let a := fadd F t1 (fmul F (fmul F c1 c2) t2) in
  r <- math_sqrt F a ;;
  q <- math_asin F r ;;
  Ok (fmul F (fmul F (fconst F 2) R) q).

(** [haversine_km(lat, lon, h_lat, h_lon) if (h_lat and h_lon) else None]
    (line 395) *)
Definition approx_km (origin_lat origin_lon h_lat h_lon : value A)
  : result (option A) :=
  if truthy h_lat && truthy h_lon
  then d <- haversine_km origin_lat origin_lon h_lat h_lon ;; Ok (Some d)
  else Ok None.

(** The body of the loop over [hospitals["features"]], lines 390-403. *)
Definition data_row (origin_lat origin_lon hospital : value A) : result (Row A) :=
  props <- get hospital (str "properties") (PDict []) ;;
  name <- get props (str "name") (PStr (str "Unknown")) ;;
  address <- get props (str "formatted") (PStr (str "No address available")) ;;
  h_lat <- get props (str "lat") PNone ;;
  h_lon <- get props (str "lon") PNone ;;
  approx <- approx_km origin_lat origin_lon h_lat h_lon ;;
  Ok {| Name := name;
        Address := address;
        Approx_Distance_km :=
          match approx with
          | Some d => Km (round2 P d)
          | None => N_A
          end;
        lat := h_lat;
        lon := h_lon |}.

Fixpoint data_rows (origin_lat origin_lon : value A) (hospitals : list (value A))
  : result (list (Row A)) :=
  match hospitals with
  | [] => Ok []
  | hospital :: rest =>
      row <- data_row origin_lat origin_lon hospital ;;
      rows <- data_rows origin_lat origin_lon rest ;;
      Ok (row :: rows)
  end.

Definition places_request (lat lon : value A) : PlacesRequest A :=
  {| categories := str "healthcare.hospital";
     filter_circle := (lon, lat, 35000%Z);
     limit := 10 |}.

(** [requests.get] on the two endpoints: a response or an exception. *)
Variable requests_get_geocode : GeocodeRequest -> result (Response A).
Variable requests_get_places : PlacesRequest A -> result (Response A).

(** [geocode_address], lines 316-330: the body of [try] returns a pair
    or falls through to the last line, and every exception gives
    [(None, None)]. *)
Definition geocode_address (address : pystr) : value A * value A :=
  match
    r <- requests_get_geocode {| text := address |} ;;
    if ok r then
      data <- json r ;;
      features <- get data (str "features") PNone ;;
      if truthy features then
        features <- getitem_str data (str "features") ;;
        first <- getitem_0 features ;;
        p <- getitem_str first (str "properties") ;;
        la <- get p (str "lat") PNone ;;
        lo <- get p (str "lon") PNone ;;
        Ok (Some (la, lo))
      else Ok None
    else Ok None
  with
  | Ok (Some coordinates) => coordinates
  | Ok None | Raise _ => (PNone, PNone)
  end.

(** [find_nearby_hospitals], lines 333-347 *)
Definition find_nearby_hospitals (lat lon : value A) : value A :=
  match
    r <- requests_get_places (places_request lat lon) ;;
    if ok r then json r else Ok PNone
  with
  | Ok v => v
  | Raise _ => PNone
  end.

(** The handler of "Search Hospitals", lines 381-403 and 423-426. *)
Definition search_handler (search_clicked : bool) (location_input : pystr)
  : result (outcome A) :=
  match search_clicked, location_input with
  | true, _ :: _ =>
      let (lat, lon) := geocode_address (strip location_input) in
      if truthy lat && truthy lon then
        let hospitals := find_nearby_hospitals lat lon in
        if truthy hospitals then
          features <- get hospitals (str "features") PNone ;;
          if truthy features then
            features <- getitem_str hospitals (str "features") ;;
            items <- iterate features ;;
            rows <- data_rows lat lon items ;;
            Ok (Results rows)
          else Ok No_hospitals_found
        else Ok No_hospitals_found
      else Ok Geocoding_failed
  | _, _ => Ok Idle
  end.

(** What lines 390-403 make of one hospital: the coordinates are those
    of its properties; when both are truthy the cell holds the rounded
    distance, which is then the sort key, and ["N/A"] otherwise. *)
Definition distance_row (origin_lat origin_lon hospital : value A) (row : Row A)
  : Prop :=
  exists props : value A,
    get hospital (str "properties") (PDict []) = Ok props /\
    get props (str "lat") PNone = Ok (lat row) /\
    get props (str "lon") PNone = Ok (lon row) /\
    if truthy (lat row) && truthy (lon row)
    then exists d : A,
           haversine_km origin_lat origin_lon (lat row) (lon row) = Ok d /\
           Approx_Distance_km row = Km (round2 P d) /\
           sort_key row = Some (round2 P d)
    else Approx_Distance_km row = N_A /\ sort_key row = None.

End Handler.

(** The coordinates a geocoding body gives: those of the properties of
    the first feature, when the body is an object whose "features" is a
    list that starts with an object whose "properties" is an object. *)
Definition first_coordinates {A : Type} (body : value A)
  : option (value A * value A) :=
  match body with
  | PDict items =>
      match lookup (str "features") items with
      | Some (PList (PDict first :: _)) =>
          match lookup (str "properties") first with
          | Some (PDict p) =>
              Some (get_default (lookup (str "lat") p) PNone,
                    get_default (lookup (str "lon") p) PNone)
          | _ => None
          end
      | _ => None
      end
  | _ => None
  end.

(** A hospital the loop cannot read: it is not an object, or its
    "properties" is there and is not an object ([null], for one). *)
Definition malformed {A : Type} (hospital : value A) : bool :=
  match hospital with
  | PDict items =>
      match lookup (str "properties") items with
      | Some (PDict _) | None => false
      | Some _ => true
      end
  | _ => true
  end.

(** An object of the places response with a name and float
    coordinates. *)
Definition hospital_at {A : Type} (name : string) (la lo : A) : value A :=
  PDict [(str "properties",
          PDict [(str "name", PStr (str name));
                 (str "lat", PFloat la);
                 (str "lon", PFloat lo)])].

End Py.

(** *** The typed reading of the places response as Python values *)

Definition py_of_option {A B : Type} (f : B -> Py.value A) (key : string)
  (v : option B) : list (pystr * Py.value A) :=
  match v with
  | Some x => [(str key, f x)]
  | None => []
  end.

Definition py_of_properties (p : Properties) : Py.value R :=
  Py.PDict (py_of_option Py.PStr "name" (prop_name p)
            ++ py_of_option Py.PStr "formatted" (prop_formatted p)
            ++ py_of_option Py.PFloat "lat" (prop_lat p)
            ++ py_of_option Py.PFloat "lon" (prop_lon p)).

Definition py_of_feature (hospital : Feature) : Py.value R :=
  Py.PDict (py_of_option py_of_properties "properties" (properties hospital)).

(** Before [pd.DataFrame] a coordinate of a row is a float or [None]. *)
Definition py_of_coord (v : coord) : Py.value R :=
  match v with
  | Float (Finite x) => Py.PFloat x
  | _ => Py.PNone
  end.

Definition py_of_cell (c : cell) : Py.cell R :=
  match c with
  | Km x => Py.Km x
  | N_A => Py.N_A
  end.

Definition py_of_row (r : Row) : Py.Row R :=
  {| Py.Name := Py.PStr (Name r);
     Py.Address := Py.PStr (Address r);
     Py.Approx_Distance_km := py_of_cell (Approx_Distance_km r);
     Py.lat := py_of_coord (lat r);
     Py.lon := py_of_coord (lon r) |}.

(* ================================================================== *)
(** * Part II: theorems *)

(* ------------------------------------------------------------------ *)
(** ** [ask_groq] *)

Lemma init_client_no_key (Groq_ctor : pystr -> result Groq) :
  init_client None Groq_ctor = None /\ init_client (Some []) Groq_ctor = None.
Proof. split; reflexivity. Qed.

Lemma ask_groq_total (client : option Groq) (user_input : pystr) :
  exists text : pystr, ask_groq client user_input = Ok text.
Proof.
  destruct client as [c|]; simpl; [|eauto].
  destruct (create c (completion_request user_input)) as [resp|e]; simpl; [|eauto].
  destruct (choices resp) as [|ch rest]; simpl; eauto.
Qed.

(** C8. Without a configured client (no API key, or an empty one) the
    call returns the fixed message that the feature is disabled; with a
    client it always returns text, never an exception: an error of the
    completion call, or a response without choices, comes back as the
    text "LLM error: ..." . *)
Theorem ask_groq_returns_text :
  (forall user_input : pystr,
      ask_groq None user_input =
      Ok (str "LLM is not configured. Please add GROQ_API_KEY in Streamlit secrets.")) /\
  (forall (Groq_ctor : pystr -> result Groq) (user_input : pystr),
      ask_groq (init_client None Groq_ctor) user_input = Ok LLM_not_configured /\
      ask_groq (init_client (Some []) Groq_ctor) user_input = Ok LLM_not_configured) /\
  (forall (client : option Groq) (user_input : pystr),
      exists text : pystr, ask_groq client user_input = Ok text) /\
  (forall (c : Groq) (user_input : pystr) (e : exn),
      create c (completion_request user_input) = Raise e ->
      ask_groq (Some c) user_input = Ok (str "LLM error: " ++ exn_str e)) /\
  (forall (c : Groq) (user_input : pystr),
      create c (completion_request user_input) = Ok {| choices := [] |} ->
      ask_groq (Some c) user_input = Ok (str "LLM error: list index out of range")).
Proof.
  split; [reflexivity|].
  split; [intros; split; reflexivity|].
  split; [exact ask_groq_total|].
  split; intros c user_input.
  - intros e H. simpl. rewrite H. reflexivity.
  - intros H. simpl. rewrite H. reflexivity.
Qed.

(** A successful completion is returned stripped of surrounding white
    space; a missing content is the empty text. *)
Lemma ask_groq_success (c : Groq) (user_input : pystr) (ch : Choice)
  (rest : list Choice) :
  create c (completion_request user_input) = Ok {| choices := ch :: rest |} ->
  ask_groq (Some c) user_input = Ok (strip (or_empty (message_content ch))).
Proof.
  intros H. simpl. rewrite H. reflexivity.
Qed.

Example strip_example : strip (str "  take rest  ") = str "take rest".
Proof. reflexivity. Qed.

(* ------------------------------------------------------------------ *)
(** ** [EMAIL_RE] *)

Lemma sre_match_repeat (a : atom) (p : pattern) (bos : bool) (s : pystr) :
  sre_match (MAX_REPEAT1 a :: p) bos s = true <->
  exists pre post : pystr,
    s = pre ++ post /\ pre <> [] /\ forallb (atom_match a) pre = true /\
    sre_match p false post = true.
Proof.
  induction s as [|c s' IH].
  - simpl; split; [discriminate|].
    intros (pre & post & E & Hne & _).
    destruct pre; [congruence | discriminate].
  - change (sre_match (MAX_REPEAT1 a :: p) bos (c :: s'))
      with (atom_match a c &&
            (sre_match (MAX_REPEAT1 a :: p) bos s' || sre_match p false s')).
    rewrite andb_true_iff, orb_true_iff, IH. split.
    + intros [Hc [(pre & post & E & _ & Hall & Hk) | Hk]].
      * exists (c :: pre), post. subst s'. simpl. rewrite Hc, Hall.
        repeat split; [discriminate | assumption].
      * exists [c], s'. simpl. rewrite Hc.
        repeat split; [discriminate | assumption].
    + intros (pre & post & E & Hne & Hall & Hk).
      destruct pre as [|c' pre']; [congruence|].
      simpl in E, Hall. injection E as -> ->.
      apply andb_true_iff in Hall as [Hc Hall].
      split; [assumption|].
      destruct pre' as [|c'' pre''].
      * right. exact Hk.
      * left. exists (c'' :: pre''), post.
        repeat split; [discriminate | assumption | assumption].
Qed.

Lemma sre_match_one (a : atom) (p : pattern) (bos : bool) (s : pystr) :
  sre_match (One a :: p) bos s = true <->
  exists c s', s = c :: s' /\ atom_match a c = true /\ sre_match p false s' = true.
Proof.
  destruct s as [|c s']; simpl.
  - split; [discriminate | intros (c & s' & E & _); discriminate].
  - rewrite andb_true_iff. split.
    + intros [H1 H2]. exists c, s'. auto.
    + intros (c0 & s0 & E & H1 & H2). injection E as -> ->. auto.
Qed.

Lemma at_end_spec (s : pystr) : at_end s = true <-> s = [] \/ s = [chr_LF].
Proof.
  destruct s as [|c [|c' s']]; simpl.
  - split; auto.
  - rewrite N.eqb_eq. split.
    + intros ->. right. reflexivity.
    + intros [H|H]; [discriminate | now injection H].
  - split; [discriminate | intros [H|H]; discriminate].
Qed.

Lemma not_at_space_spec (c : N) :
  atom_match not_at_space c = true <-> c <> chr_at /\ is_space c = false.
Proof.
  unfold not_at_space, atom_match, existsb, set_item_match.
  rewrite orb_false_r, xorb_true_l, negb_true_iff, orb_false_iff, N.eqb_neq.
  tauto.
Qed.

Lemma part_ok_spec (p : pystr) :
  p <> [] /\ forallb (atom_match not_at_space) p = true <-> part_ok p.
Proof.
  unfold part_ok. rewrite forallb_forall, Forall_forall.
  split; intros [Hne H]; (split; [assumption|]); intros c Hc;
    apply not_at_space_spec; auto.
Qed.

(** The strings the pattern accepts: the specified form, optionally
    followed by one line feed. *)
Lemma email_accepted_iff (s : pystr) :
  email_accepted s = true <->
  exists e nl : pystr, s = e ++ nl /\ email_form e /\ (nl = [] \/ nl = [chr_LF]).
Proof.
  unfold email_accepted, re_match, EMAIL_RE.
  change (sre_match (AT_BEGINNING :: ?p) true s) with (true && sre_match p true s).
  rewrite andb_true_l, sre_match_repeat. split.
  - intros (l & r1 & E1 & Hl1 & Hl2 & H).
    apply sre_match_one in H as (c1 & r2 & E2 & Hc1 & H).
    apply sre_match_repeat in H as (d & r3 & E3 & Hd1 & Hd2 & H).
    apply sre_match_one in H as (c2 & r4 & E4 & Hc2 & H).
    apply sre_match_repeat in H as (t & nl & E5 & Ht1 & Ht2 & H).
    simpl in H. rewrite andb_true_r in H. apply at_end_spec in H.
    simpl in Hc1, Hc2. apply N.eqb_eq in Hc1, Hc2. subst.
    exists (l ++ chr_at :: d ++ chr_dot :: t), nl.
    split; [now rewrite <- !app_assoc; simpl; rewrite <- !app_assoc|].
    split; [|assumption].
    exists l, d, t. split; [reflexivity|].
    repeat split; try assumption; apply part_ok_spec; auto.
  - intros (e & nl & E & (l & d & t & Ee & Hl & Hd & Ht) & Hnl).
    apply part_ok_spec in Hl as [Hl1 Hl2], Hd as [Hd1 Hd2], Ht as [Ht1 Ht2].
    exists l, (chr_at :: d ++ chr_dot :: t ++ nl).
    split; [subst; now rewrite <- !app_assoc; simpl; rewrite <- !app_assoc|].
    split; [assumption|]. split; [assumption|].
    apply sre_match_one. exists chr_at, (d ++ chr_dot :: t ++ nl).
    split; [reflexivity|]. split; [reflexivity|].
    apply sre_match_repeat. exists d, (chr_dot :: t ++ nl).
    split; [reflexivity|]. split; [assumption|]. split; [assumption|].
    apply sre_match_one. exists chr_dot, (t ++ nl).
    split; [reflexivity|]. split; [reflexivity|].
    apply sre_match_repeat. exists t, nl.
    split; [reflexivity|]. split; [assumption|]. split; [assumption|].
    simpl. rewrite andb_true_r. apply at_end_spec. assumption.
Qed.

(** Every string of the specified form is accepted, and the three
    examples of the specification behave as it says. *)
Lemma email_form_accepted (s : pystr) : email_form s -> email_accepted s = true.
Proof.
  intros H. apply email_accepted_iff. exists s, [].
  rewrite app_nil_r. auto.
Qed.

Example email_user_at_example_com :
  email_accepted (str "user@example.com") = true.
Proof. reflexivity. Qed.

Example email_double_at : email_accepted (str "user@@example.com") = false.
Proof. reflexivity. Qed.

Example email_with_space : email_accepted (str "user example.com") = false.
Proof. reflexivity. Qed.

Lemma email_form_no_space (s : pystr) :
  email_form s -> Forall (fun c => is_space c = false) s.
Proof.
  intros (l & d & t & -> & [_ Hl] & [_ Hd] & [_ Ht]).
  rewrite Forall_forall in *.
  intros c Hc.
  apply in_app_or in Hc as [Hc | [<- | Hc]];
    [apply Hl; assumption | reflexivity |].
  apply in_app_or in Hc as [Hc | [<- | Hc]];
    [apply Hd; assumption | reflexivity | apply Ht; assumption].
Qed.

(** C7 at its failing input: the address followed by a line feed is
    accepted, although it contains whitespace and so is not of the
    specified form. *)
Theorem email_trailing_newline_accepted :
  email_accepted (str "user@example.com" ++ [chr_LF]) = true /\
  is_space chr_LF = true /\
  ~ email_form (str "user@example.com" ++ [chr_LF]).
Proof.
  split; [reflexivity|]. split; [reflexivity|].
  intros H. apply email_form_no_space in H.
  rewrite Forall_forall in H.
  specialize (H chr_LF). simpl in H.
  assert (E : is_space chr_LF = false) by (apply H; tauto).
  discriminate E.
Qed.

(* ------------------------------------------------------------------ *)
(** ** [haversine_km] *)

Lemma Rleb_true (x y : R) : x <= y -> Rleb x y = true.
Proof. unfold Rleb; destruct (Rle_dec x y); tauto. Qed.

Lemma Rleb_false (x y : R) : y < x -> Rleb x y = false.
Proof. unfold Rleb; destruct (Rle_dec x y); [lra | reflexivity]. Qed.

Lemma Reqb_true (x y : R) : x = y -> Reqb x y = true.
Proof. unfold Reqb; destruct (Req_dec_T x y); tauto. Qed.

Lemma Reqb_false (x y : R) : x <> y -> Reqb x y = false.
Proof. unfold Reqb; destruct (Req_dec_T x y); tauto. Qed.

Lemma sin_half_sqr (x : R) : (sin (x / 2))² = (1 - cos x) / 2.
Proof.
  replace x with (2 * (x / 2)) at 2 by field.
  rewrite cos_2a_sin. unfold Rsqr. field.
Qed.

Lemma haversine_a_chord (a b : GeoPoint) :
  4 * haversine_a a b = chord2 (on_sphere a) (on_sphere b).
Proof.
  unfold haversine_a, on_sphere, chord2; cbv zeta.
  rewrite !sin_half_sqr, !cos_minus.
  generalize (sin2_cos2 (deg2rad (latitude a))) (sin2_cos2 (deg2rad (latitude b)))
             (sin2_cos2 (deg2rad (longitude a))) (sin2_cos2 (deg2rad (longitude b))).
  unfold Rsqr.
  generalize (sin (deg2rad (latitude a))) (cos (deg2rad (latitude a)))
             (sin (deg2rad (latitude b))) (cos (deg2rad (latitude b)))
             (sin (deg2rad (longitude a))) (cos (deg2rad (longitude a)))
             (sin (deg2rad (longitude b))) (cos (deg2rad (longitude b))).
  intros s1 c1 s2 c2 u1 v1 u2 v2 H1 H2 H3 H4.
  assert (E3 : c1 * c1 * (u1 * u1 + v1 * v1) = c1 * c1) by (rewrite H3; ring).
  assert (E4 : c2 * c2 * (u2 * u2 + v2 * v2) = c2 * c2) by (rewrite H4; ring).
  nra.
Qed.

Lemma haversine_a_sum (a b : GeoPoint) :
  4 * (1 - haversine_a a b) = sum2 (on_sphere a) (on_sphere b).
Proof.
  unfold haversine_a, on_sphere, sum2; cbv zeta.
  rewrite !sin_half_sqr, !cos_minus.
  generalize (sin2_cos2 (deg2rad (latitude a))) (sin2_cos2 (deg2rad (latitude b)))
             (sin2_cos2 (deg2rad (longitude a))) (sin2_cos2 (deg2rad (longitude b))).
  unfold Rsqr.
  generalize (sin (deg2rad (latitude a))) (cos (deg2rad (latitude a)))
             (sin (deg2rad (latitude b))) (cos (deg2rad (latitude b)))
             (sin (deg2rad (longitude a))) (cos (deg2rad (longitude a)))
             (sin (deg2rad (longitude b))) (cos (deg2rad (longitude b))).
  intros s1 c1 s2 c2 u1 v1 u2 v2 H1 H2 H3 H4.
  assert (E3 : c1 * c1 * (u1 * u1 + v1 * v1) = c1 * c1) by (rewrite H3; ring).
  assert (E4 : c2 * c2 * (u2 * u2 + v2 * v2) = c2 * c2) by (rewrite H4; ring).
  nra.
Qed.

Lemma chord2_nonneg (p q : R * R * R) : 0 <= chord2 p q.
Proof.
  destruct p as [[x1 y1] z1], q as [[x2 y2] z2]; simpl.
  generalize (Rle_0_sqr (x1 - x2)) (Rle_0_sqr (y1 - y2)) (Rle_0_sqr (z1 - z2)); lra.
Qed.

Lemma sum2_nonneg (p q : R * R * R) : 0 <= sum2 p q.
Proof.
  destruct p as [[x1 y1] z1], q as [[x2 y2] z2]; simpl.
  generalize (Rle_0_sqr (x1 + x2)) (Rle_0_sqr (y1 + y2)) (Rle_0_sqr (z1 + z2)); lra.
Qed.

Lemma haversine_a_bounds (a b : GeoPoint) : 0 <= haversine_a a b <= 1.
Proof.
  generalize (haversine_a_chord a b) (haversine_a_sum a b)
             (chord2_nonneg (on_sphere a) (on_sphere b))
             (sum2_nonneg (on_sphere a) (on_sphere b)); lra.
Qed.

Lemma sqrt_unit (x : R) : 0 <= x <= 1 -> 0 <= sqrt x <= 1.
Proof.
  intros [H0 H1]; split; [apply sqrt_pos|].
  rewrite <- sqrt_1. apply sqrt_le_1; lra.
Qed.

(** The code subtracts the degrees and converts the difference; the
    specification converts every angle first.  Over the reals both give
    the same half-angles. *)
Lemma radians_sub (x y : R) : (y - x) * (PI / 180) / 2 = (deg2rad y - deg2rad x) / 2.
Proof. unfold deg2rad; field. Qed.

Lemma radians_deg2rad (x : R) : x * (PI / 180) = deg2rad x.
Proof. unfold deg2rad; field. Qed.

(** On the exact model the function returns, for all arguments, the
    haversine value; no call of [sqrt] or [asin] leaves its domain. *)
Lemma haversine_km_exact (a b : GeoPoint) :
  computeDistanceKm a b = Ok (haversine_value a b).
Proof.
  destruct (haversine_a_bounds a b) as [H0 H1].
  destruct (sqrt_unit (haversine_a a b) (conj H0 H1)) as [S0 S1].
  unfold computeDistanceKm, haversine_km, py_div, py_pow2, math_sin, math_cos,
    math_sqrt, math_asin, math_radians.
  rewrite (two_nonzero RealModel). simpl.
  rewrite !radians_sub, !radians_deg2rad.
  replace (sin ((deg2rad (latitude b) - deg2rad (latitude a)) / 2) *
           (sin ((deg2rad (latitude b) - deg2rad (latitude a)) / 2) * 1) +
           cos (deg2rad (latitude a)) * cos (deg2rad (latitude b)) *
           (sin ((deg2rad (longitude b) - deg2rad (longitude a)) / 2) *
            (sin ((deg2rad (longitude b) - deg2rad (longitude a)) / 2) * 1)))
    with (haversine_a a b) by (unfold haversine_a, Rsqr; ring).
  rewrite (Rleb_true 0 (haversine_a a b)) by assumption. simpl.
  rewrite (Rleb_true (-1)), (Rleb_true _ 1) by lra. simpl.
  reflexivity.
Qed.


(** *** Division in the formula *)

Ltac step_partial :=
  repeat match goal with
         | |- context [lift_partial _ ?o] => destruct o; simpl
         end.

Lemma haversine_expr_denotes (F : FloatModel) (a b c d : num F) :
  eval F (args a b c d) haversine_expr = haversine_km F a b c d.
Proof.
  unfold haversine_km, haversine_expr, a_expr, dlat_expr, dlon_expr.
  simpl. unfold py_div, math_sin, math_cos, math_sqrt, math_asin, py_pow2.
  rewrite (two_nonzero F). simpl.
  step_partial; reflexivity.
Qed.

Lemma divisors_haversine_expr : divisors haversine_expr = [Lit 2; Lit 2].
Proof. reflexivity. Qed.

Lemma haversine_km_never_divides_by_zero (F : FloatModel) (a b c d : num F) :
  raises ZeroDivisionError (haversine_km F a b c d) = false.
Proof.
  unfold haversine_km, py_div, math_sin, math_cos, math_sqrt, math_asin, py_pow2.
  rewrite (two_nonzero F). simpl.
  step_partial; reflexivity.
Qed.

(** C9. In every model of float arithmetic, double precision over any
    C library among them, and for all arguments, in range or not, the
    function cannot raise a division-by-zero error. The function is the
    evaluation of one arithmetic expression, without a test of its
    arguments; the expression has two divisions, [dlat/2] and [dlon/2],
    both by the literal 2. *)
Theorem haversine_km_zero_division_free :
  (forall (F : FloatModel) (a b c d : num F),
      raises ZeroDivisionError (haversine_km F a b c d) = false) /\
  (forall (L : Binary64.Libm) (a b c d : PrimFloat.float),
      raises ZeroDivisionError (haversine_km (Binary64.model L) a b c d) = false) /\
  (forall (F : FloatModel) (a b c d : num F),
      eval F (args a b c d) haversine_expr = haversine_km F a b c d) /\
  divisors haversine_expr = [Lit 2; Lit 2].
Proof.
  split; [exact haversine_km_never_divides_by_zero|].
  split; [intros L; exact (haversine_km_never_divides_by_zero (Binary64.model L))|].
  split; [exact haversine_expr_denotes|].
  exact divisors_haversine_expr.
Qed.

(** *** Double precision *)

Ltac split_samples :=
  unfold Binary64.agrees, Binary64.glibc_samples;
  cbn [Binary64.sin_samples Binary64.cos_samples Binary64.asin_samples
       Binary64.pow2_samples];
  intros (Hs & Hc & Ha & Hp);
  repeat match goal with
         | H : Forall _ (_ :: _) |- _ => inversion H; clear H; subst
         | H : Forall _ [] |- _ => clear H
         end;
  cbn [fst snd] in *.

Ltac run_float :=
  repeat (cbv - [Binary64.c_sin Binary64.c_cos Binary64.c_asin Binary64.c_pow];
          repeat match goal with
                 | H : _ = _ |- _ => progress rewrite H
                 end).

Lemma glibc_samples_agree :
  Binary64.agrees (Binary64.libm_of Binary64.glibc_samples) Binary64.glibc_samples.
Proof.
  unfold Binary64.agrees. cbn.
  repeat split; repeat (constructor; [reflexivity|]); constructor.
Defined.

(** C1 fails in the code. The points (57.7, -87.8) and (-57.6999999,
    92.2) are valid and almost antipodal. With the values the C library
    returns for the sines and cosines of the call, the sum [a] is
    rounded to 1.0000000000000004, its square root to
    1.0000000000000002, and [asin] raises [ValueError]: the function
    returns no distance where the haversine value is about 20015 km. *)
Theorem haversine_km_raises_near_antipodes (L : Binary64.Libm) :
  Binary64.agrees L Binary64.glibc_samples ->
  Binary64.valid Binary64.hudson_bay_lat Binary64.hudson_bay_lon = true /\
  Binary64.valid Binary64.indian_ocean_lat Binary64.indian_ocean_lon = true /\
  raises ValueError
    (haversine_km (Binary64.model L)
       Binary64.hudson_bay_lat Binary64.hudson_bay_lon
       Binary64.indian_ocean_lat Binary64.indian_ocean_lon) = true.
Proof.
  split_samples. run_float. repeat split.
Qed.

Lemma haversine_km_raises_near_antipodes_witness :
  Binary64.agrees (Binary64.libm_of Binary64.glibc_samples) Binary64.glibc_samples /\
  Binary64.valid Binary64.hudson_bay_lat Binary64.hudson_bay_lon = true /\
  Binary64.valid Binary64.indian_ocean_lat Binary64.indian_ocean_lon = true /\
  raises ValueError
    (haversine_km (Binary64.model (Binary64.libm_of Binary64.glibc_samples))
       Binary64.hudson_bay_lat Binary64.hudson_bay_lon
       Binary64.indian_ocean_lat Binary64.indian_ocean_lon) = true.
Proof.
  split; [exact glibc_samples_agree|].
  exact (haversine_km_raises_near_antipodes _ glibc_samples_agree).
Defined.



(** The same library on an ordinary pair: from Lahore to the hospital
    the function returns 3.558459793304851, which [round] stores as
    3.56. *)
Lemma haversine_km_Lahore (L : Binary64.Libm) :
  Binary64.agrees L Binary64.glibc_samples ->
  haversine_km (Binary64.model L) Binary64.Lahore_lat Binary64.Lahore_lon
    Binary64.hospital_lat Binary64.hospital_lon
  = Ok Binary64.Lahore_hospital_km.
Proof.
  split_samples. run_float. reflexivity.
Qed.

Lemma round2_Lahore_hospital_km :
  Binary64.round2 Binary64.Lahore_hospital_km = Binary64.km_3_56.
Proof. vm_compute. reflexivity. Qed.

(* ------------------------------------------------------------------ *)
(** ** Indexing *)

Section Take.

Context {A : Type}.

Lemma take_app (xs : list A) (i1 i2 : list nat) :
  take xs (i1 ++ i2) =
  (ys1 <- take xs i1 ;; ys2 <- take xs i2 ;; Ok (ys1 ++ ys2)).
Proof.
  induction i1 as [|i i1 IH]; simpl.
  - destruct (take xs i2); reflexivity.
  - destruct (getitem xs i); simpl; [|reflexivity].
    rewrite IH. destruct (take xs i1); simpl; [|reflexivity].
    destruct (take xs i2); reflexivity.
Qed.

Lemma take_ok (xs : list A) (indexer : list nat) :
  Forall (fun i => (i < List.length xs)%nat) indexer ->
  exists ys, take xs indexer = Ok ys /\
             Forall2 (fun i y => nth_error xs i = Some y) indexer ys.
Proof.
  induction 1 as [|i rest Hi _ (ys & E & H2)]; simpl.
  - exists []. split; [reflexivity | constructor].
  - unfold getitem.
    destruct (nth_error xs i) as [x|] eqn:Ex.
    + simpl. rewrite E. simpl. exists (x :: ys).
      split; [reflexivity | constructor; assumption].
    + apply nth_error_None in Ex. lia.
Qed.

Lemma take_spec (xs : list A) (indexer : list nat) (ys : list A) :
  take xs indexer = Ok ys ->
  Forall2 (fun i y => nth_error xs i = Some y) indexer ys.
Proof.
  revert ys. induction indexer as [|i rest IH]; simpl; intros ys H.
  - injection H as <-. constructor.
  - unfold getitem in H.
    destruct (nth_error xs i) as [x|] eqn:Ex; simpl in H; [|discriminate].
    destruct (take xs rest) as [zs|]; simpl in H; [|discriminate].
    injection H as <-. constructor; auto.
Qed.

(** [xs[indexer[js]] = (xs[indexer])[js]] *)
Lemma take_take (xs : list A) (indexer : list nat) (ys : list A)
  (js ks : list nat) :
  take xs indexer = Ok ys -> take indexer js = Ok ks ->
  take xs ks = take ys js.
Proof.
  intros Hys. apply take_spec in Hys.
  revert ks. induction js as [|j js IH]; simpl; intros ks H.
  - injection H as <-. reflexivity.
  - unfold getitem in H.
    destruct (nth_error indexer j) as [k|] eqn:Ek; simpl in H; [|discriminate].
    destruct (take indexer js) as [ks'|]; simpl in H; [|discriminate].
    injection H as <-. simpl. rewrite (IH ks' eq_refl).
    assert (E : nth_error xs k = nth_error ys j).
    { clear -Hys Ek. revert j Ek.
      induction Hys as [|i y is' ys' Hi _ IH']; intros [|j] Ek; simpl in *;
        try discriminate.
      - injection Ek as <-. exact Hi.
      - apply IH'. exact Ek. }
    unfold getitem. rewrite E. reflexivity.
Qed.

Lemma boolean_index_shift (idx : list nat) (mask : list bool) :
  boolean_index (map S idx) mask = map S (boolean_index idx mask).
Proof.
  revert mask. induction idx as [|i idx IH]; intros [|m mask]; simpl; auto.
  destruct m; simpl; rewrite IH; reflexivity.
Qed.

Lemma take_cons_shift (x : A) (xs : list A) (indexer : list nat) :
  take (x :: xs) (map S indexer) = take xs indexer.
Proof.
  induction indexer as [|i rest IH]; simpl; [reflexivity|].
  rewrite IH. reflexivity.
Qed.

(** [df[mask]] through the indices: [xs.take(idx[mask])] is the
    sub-list of the selected elements, in order. *)
Lemma take_boolean_index (f : A -> bool) (xs : list A) :
  take xs (boolean_index (seq 0 (List.length xs)) (map f xs)) = Ok (filter f xs).
Proof.
  induction xs as [|x xs IH]; simpl; [reflexivity|].
  rewrite <- seq_shift, boolean_index_shift.
  destruct (f x); simpl.
  - rewrite take_cons_shift, IH. reflexivity.
  - rewrite take_cons_shift. exact IH.
Qed.

Lemma nth_error_seq_all (pre xs : list A) :
  map (nth_error (pre ++ xs)) (seq (List.length pre) (List.length xs)) = map Some xs.
Proof.
  revert pre. induction xs as [|x xs IH]; intros pre; simpl; [reflexivity|].
  rewrite nth_error_app2, Nat.sub_diag by lia. simpl. f_equal.
  specialize (IH (pre ++ [x])).
  rewrite <- app_assoc, length_app, Nat.add_1_r in IH. exact IH.
Qed.

Lemma map_Some_inj (l1 l2 : list A) : map Some l1 = map Some l2 -> l1 = l2.
Proof.
  revert l2. induction l1 as [|x l1 IH]; intros [|y l2] H; simpl in H;
    try discriminate; [reflexivity|].
  injection H as -> H. f_equal. auto.
Qed.

(** Indexing by a permutation of all the indices permutes the list. *)
Lemma take_permutation (xs ys : list A) (indexer : list nat) :
  Permutation indexer (seq 0 (List.length xs)) ->
  Forall2 (fun i y => nth_error xs i = Some y) indexer ys ->
  Permutation ys xs.
Proof.
  intros HP H2.
  assert (E : map Some ys = map (nth_error xs) indexer).
  { clear HP. induction H2 as [|i y is' ys' Hi _ IH]; simpl; [reflexivity|].
    rewrite Hi, IH. reflexivity. }
  apply (Permutation_map (nth_error xs)) in HP.
  generalize (nth_error_seq_all [] xs); simpl; intros E0.
  rewrite E0, <- E in HP.
  apply Permutation_sym, Permutation_map_inv in HP as (zs & Ez & HP).
  apply map_Some_inj in Ez. subst zs. exact HP.
Qed.

End Take.

Lemma permutation_seq_in_range (n : nat) (p : list nat) :
  Permutation p (seq 0 n) -> Forall (fun i => (i < n)%nat) p.
Proof.
  intros HP. apply Forall_forall. intros i Hi.
  apply (Permutation_in _ HP), in_seq in Hi. lia.
Qed.

(* ------------------------------------------------------------------ *)
(** ** [sort_values] *)

Lemma Rltb_true (x y : R) : x < y -> Rltb x y = true.
Proof. unfold Rltb; destruct (Rlt_dec x y); tauto. Qed.

Lemma Rltb_false (x y : R) : y <= x -> Rltb x y = false.
Proof. unfold Rltb; destruct (Rlt_dec x y); [lra | reflexivity]. Qed.

Lemma mask_unavailable (df : list Row) :
  map isna (map sort_key df) = map unavailable df.
Proof. rewrite map_map. reflexivity. Qed.

Lemma mask_numeric (df : list Row) :
  map negb (map isna (map sort_key df)) = map numeric df.
Proof. rewrite !map_map. reflexivity. Qed.

Lemma non_nan_values_keys (df : list Row) :
  non_nan_values (map sort_key df) = map key_of (numeric_rows df).
Proof.
  unfold numeric_rows, numeric, key_of.
  induction df as [|r df IH]; simpl; [reflexivity|].
  destruct (sort_key r) eqn:E; simpl; rewrite IH, ?E; reflexivity.
Qed.

Lemma numeric_rows_numeric (df : list Row) :
  Forall (fun r => numeric r = true) (numeric_rows df).
Proof. apply Forall_forall. intros r Hr. apply filter_In in Hr. tauto. Qed.

Lemma unavailable_rows_unavailable (df : list Row) :
  Forall (fun r => unavailable r = true) (unavailable_rows df).
Proof. apply Forall_forall. intros r Hr. apply filter_In in Hr. tauto. Qed.

Lemma partition_permutation (df : list Row) :
  Permutation (numeric_rows df ++ unavailable_rows df) df.
Proof.
  unfold numeric_rows, unavailable_rows, numeric, unavailable.
  induction df as [|r df IH]; simpl; [constructor|].
  destruct (isna (sort_key r)); simpl.
  - apply Permutation_sym, Permutation_cons_app, Permutation_sym, IH.
  - constructor. exact IH.
Qed.

Lemma key_of_nth (rows : list Row) (i : nat) (r : Row) :
  nth_error rows i = Some r -> nth i (map key_of rows) 0 = key_of r.
Proof.
  intros H. apply nth_error_nth. now apply map_nth_error.
Qed.

Section SortValuesFacts.

Variable argsort : list R -> list nat.
Hypothesis argsort_ok : argsort_contract argsort.

(** The sorted frame: the numerically ranked rows, indexed by the
    sorting permutation of their keys, then the unavailable rows. *)
Lemma sort_values_structure (df : list Row) :
  exists ranked : list Row,
    sort_values argsort df = Ok (ranked ++ unavailable_rows df) /\
    Forall2 (fun i r => nth_error (numeric_rows df) i = Some r)
            (argsort (map key_of (numeric_rows df))) ranked.
Proof.
  unfold sort_values, nargsort.
  rewrite mask_numeric, mask_unavailable, non_nan_values_keys, length_map.
  set (ks := map key_of (numeric_rows df)).
  assert (Hnum := take_boolean_index numeric df). fold (numeric_rows df) in Hnum.
  assert (Hna := take_boolean_index unavailable df).
  fold (unavailable_rows df) in Hna.
  set (non_nan_idx := boolean_index (seq 0 (List.length df)) (map numeric df)) in *.
  set (nan_idx := boolean_index (seq 0 (List.length df)) (map unavailable df)) in *.
  assert (Hlen : List.length non_nan_idx = List.length ks).
  { unfold ks. rewrite length_map.
    apply take_spec in Hnum. eapply Forall2_length. exact Hnum. }
  destruct (argsort_ok ks) as [HP _].
  assert (Hrange := permutation_seq_in_range _ _ HP).
  destruct (take_ok non_nan_idx (argsort ks)) as (indexer & Ei & _).
  { now rewrite Hlen. }
  destruct (take_ok (numeric_rows df) (argsort ks)) as (ranked & Er & H2).
  { unfold ks in Hrange. now rewrite length_map in Hrange. }
  exists ranked. split; [|exact H2].
  rewrite Ei. simpl.
  rewrite take_app, (take_take _ _ _ _ _ Hnum Ei), Er, Hna.
  reflexivity.
Qed.

Lemma ranked_permutation (df ranked : list Row) :
  Forall2 (fun i r => nth_error (numeric_rows df) i = Some r)
          (argsort (map key_of (numeric_rows df))) ranked ->
  Permutation ranked (numeric_rows df).
Proof.
  intros H2. destruct (argsort_ok (map key_of (numeric_rows df))) as [HP _].
  rewrite length_map in HP. exact (take_permutation _ _ _ HP H2).
Qed.

Lemma ranked_sorted (df ranked : list Row) :
  Forall2 (fun i r => nth_error (numeric_rows df) i = Some r)
          (argsort (map key_of (numeric_rows df))) ranked ->
  Sorted Rle (map key_of ranked).
Proof.
  intros H2. destruct (argsort_ok (map key_of (numeric_rows df))) as [_ HS].
  replace (map key_of ranked)
    with (map (fun i => nth i (map key_of (numeric_rows df)) 0)
              (argsort (map key_of (numeric_rows df)))); [exact HS|].
  clear HS. induction H2 as [|i r is' rs Hi _ IH]; simpl; [reflexivity|].
  rewrite IH, (key_of_nth _ _ _ Hi). reflexivity.
Qed.

Lemma ranked_numeric (df ranked : list Row) :
  Permutation ranked (numeric_rows df) ->
  Forall (fun r => numeric r = true) ranked.
Proof.
  intros HP. apply Forall_forall. intros r Hr.
  apply (Permutation_in _ HP) in Hr.
  revert r Hr. apply Forall_forall, numeric_rows_numeric.
Qed.

Lemma filter_none (f : Row -> bool) (l : list Row) :
  Forall (fun r => f r = false) l -> filter f l = [].
Proof.
  induction 1 as [|r l Hr _ IH]; simpl; [reflexivity|].
  rewrite Hr. exact IH.
Qed.

Lemma filter_all (f : Row -> bool) (l : list Row) :
  Forall (fun r => f r = true) l -> filter f l = l.
Proof.
  induction 1 as [|r l Hr _ IH]; simpl; [reflexivity|].
  rewrite Hr, IH. reflexivity.
Qed.

Lemma same_key_None (r : Row) : same_key None r = unavailable r.
Proof. unfold same_key, unavailable. destruct (sort_key r); reflexivity. Qed.

(** The facts about the sorted frame that the later proofs share. *)
Lemma sort_values_facts (df : list Row) :
  exists ranked : list Row,
    sort_values argsort df = Ok (ranked ++ unavailable_rows df) /\
    Permutation (ranked ++ unavailable_rows df) df /\
    Permutation ranked (numeric_rows df) /\
    Forall (fun r => numeric r = true) ranked /\
    Sorted Rle (map key_of ranked) /\
    Forall (fun r => unavailable r = true) (unavailable_rows df) /\
    filter (same_key None) (ranked ++ unavailable_rows df)
    = filter (same_key None) df.
Proof.
  destruct (sort_values_structure df) as (ranked & E & H2).
  assert (HP := ranked_permutation _ _ H2).
  assert (HN := ranked_numeric _ _ HP).
  exists ranked. split; [exact E|].
  split.
  { apply Permutation_trans with (numeric_rows df ++ unavailable_rows df).
    - apply Permutation_app_tail. exact HP.
    - apply partition_permutation. }
  split; [exact HP|]. split; [exact HN|].
  split; [exact (ranked_sorted _ _ H2)|].
  split; [apply unavailable_rows_unavailable|].
  rewrite filter_app, filter_none, filter_all.
  - rewrite app_nil_l. unfold unavailable_rows. apply filter_ext.
    intros r. symmetry. apply same_key_None.
  - eapply Forall_impl; [|apply unavailable_rows_unavailable].
    intros r Hr. exact Hr.
  - eapply Forall_impl; [|exact HN].
    intros r Hr. change (same_key None r) with (unavailable r).
    unfold numeric, unavailable in *. now apply negb_true_iff.
Qed.

(** X20. Under what [argsort] promises, the sorted frame is a
    permutation of the input made of the numerically ranked candidates
    in ascending order of approximate distance, followed by all the
    unavailable candidates in their input order. (The order of
    candidates with equal numeric distance is the one [argsort]
    returns.) *)
Theorem sort_values_ranking (df : list Row) :
  exists ranked : list Row,
    sort_values argsort df = Ok (ranked ++ unavailable_rows df) /\
    Permutation (ranked ++ unavailable_rows df) df /\
    Permutation ranked (numeric_rows df) /\
    Forall (fun r => numeric r = true) ranked /\
    Sorted Rle (map key_of ranked) /\
    Forall (fun r => unavailable r = true) (unavailable_rows df) /\
    filter (same_key None) (ranked ++ unavailable_rows df)
    = filter (same_key None) df.
Proof.
  exact (sort_values_facts df).
Qed.

End SortValuesFacts.

(* ------------------------------------------------------------------ *)
(** ** A sorting permutation that keeps the promise of [argsort] *)

Section InsertionArgsort.

Variable before : R -> R -> bool.
Hypothesis before_true : forall x y, before x y = true -> x <= y.
Hypothesis before_false : forall x y, before x y = false -> y <= x.

Variable a : list R.

Lemma insert_index_permutation (i : nat) (sorted : list nat) :
  Permutation (insert_index before a i sorted) (i :: sorted).
Proof.
  induction sorted as [|j rest IH]; simpl; [constructor; constructor|].
  destruct (before (nth i a 0) (nth j a 0)).
  - apply Permutation_refl.
  - apply Permutation_trans with (j :: i :: rest).
    + constructor. exact IH.
    + apply perm_swap.
Qed.

Lemma insertion_permutation (indices : list nat) :
  Permutation (fold_right (insert_index before a) [] indices) indices.
Proof.
  induction indices as [|i rest IH]; simpl; [constructor|].
  apply Permutation_trans with (i :: fold_right (insert_index before a) [] rest).
  - apply insert_index_permutation.
  - constructor. exact IH.
Qed.

Lemma insert_index_sorted (i : nat) (sorted : list nat) :
  Sorted Rle (map (fun k => nth k a 0) sorted) ->
  Sorted Rle (map (fun k => nth k a 0) (insert_index before a i sorted)).
Proof.
  induction sorted as [|j rest IH]; simpl; intros HS.
  - repeat constructor.
  - destruct (before (nth i a 0) (nth j a 0)) eqn:E; simpl.
    + constructor; [exact HS|]. constructor. apply before_true. exact E.
    + apply Sorted_inv in HS as [HS Hd].
      constructor; [apply IH; exact HS|].
      destruct rest as [|k rest']; simpl.
      * constructor. apply before_false. exact E.
      * destruct (before (nth i a 0) (nth k a 0)); simpl; constructor.
        -- apply before_false. exact E.
        -- apply HdRel_inv in Hd. exact Hd.
Qed.

Lemma insertion_sorted (indices : list nat) :
  Sorted Rle (map (fun k => nth k a 0)
                  (fold_right (insert_index before a) [] indices)).
Proof.
  induction indices as [|i rest IH]; simpl; [constructor|].
  apply insert_index_sorted. exact IH.
Qed.

End InsertionArgsort.

Lemma argsort_with_contract (before : R -> R -> bool) :
  (forall x y, before x y = true -> x <= y) ->
  (forall x y, before x y = false -> y <= x) ->
  argsort_contract (argsort_with before).
Proof.
  intros Ht Hf a. unfold argsort_with. split.
  - apply insertion_permutation.
  - apply insertion_sorted; assumption.
Qed.

Lemma argsort_stable_contract : argsort_contract argsort_stable.
Proof.
  apply argsort_with_contract; intros x y; unfold Rleb;
    destruct (Rle_dec x y); intros H; try discriminate; lra.
Qed.

Lemma sort_values_ranking_witness :
  exists ranked : list Row,
    sort_values argsort_stable [hospital_far; hospital_near; hospital_unlocated]
    = Ok (ranked ++ unavailable_rows [hospital_far; hospital_near; hospital_unlocated]) /\
    Permutation
      (ranked ++ unavailable_rows [hospital_far; hospital_near; hospital_unlocated])
      [hospital_far; hospital_near; hospital_unlocated] /\
    Permutation ranked (numeric_rows [hospital_far; hospital_near; hospital_unlocated]) /\
    Forall (fun r => numeric r = true) ranked /\
    Sorted Rle (map key_of ranked) /\
    Forall (fun r => unavailable r = true)
           (unavailable_rows [hospital_far; hospital_near; hospital_unlocated]) /\
    filter (same_key None)
           (ranked ++ unavailable_rows [hospital_far; hospital_near; hospital_unlocated])
    = filter (same_key None) [hospital_far; hospital_near; hospital_unlocated].
Proof.
  exact (sort_values_ranking argsort_stable argsort_stable_contract
           [hospital_far; hospital_near; hospital_unlocated]).
Defined.

(* ------------------------------------------------------------------ *)
(** ** The subset [df_sorted.head(top_n)] *)

Section TopN.

Variable argsort : list R -> list nat.
Hypothesis argsort_ok : argsort_contract argsort.

(** C3, as the code has it. The subset is the first [top_n] rows of the
    whole sorted frame, whose length is min(top_n, number of
    candidates): the first numerically ranked candidates and, when
    [top_n] exceeds their count, the first unavailable candidates after
    them. It is free of unavailable candidates when [top_n] does not
    exceed the numerically ranked count. *)
Theorem head_of_ranking (df : list Row) (top_n : nat) :
  exists ranked : list Row,
    sort_values argsort df = Ok (ranked ++ unavailable_rows df) /\
    Permutation ranked (numeric_rows df) /\
    head top_n (ranked ++ unavailable_rows df)
    = firstn top_n ranked
      ++ firstn (top_n - List.length (numeric_rows df)) (unavailable_rows df) /\
    List.length (head top_n (ranked ++ unavailable_rows df))
    = Nat.min top_n (List.length df) /\
    ((top_n <= List.length (numeric_rows df))%nat ->
     Forall (fun r => numeric r = true)
            (head top_n (ranked ++ unavailable_rows df))).
Proof.
  destruct (sort_values_facts argsort argsort_ok df)
    as (ranked & E & HPall & HP & HN & _).
  assert (Hlen := Permutation_length HP).
  exists ranked. split; [exact E|]. split; [exact HP|].
  unfold head. split; [|split].
  - rewrite firstn_app, Hlen. reflexivity.
  - rewrite length_firstn, (Permutation_length HPall). reflexivity.
  - intros Hle. rewrite firstn_app.
    replace (top_n - List.length ranked)%nat with 0%nat by lia.
    rewrite firstn_O, app_nil_r.
    apply Forall_forall. intros r Hr.
    rewrite Forall_forall in HN. apply HN.
    rewrite <- (firstn_skipn top_n ranked). apply in_or_app. left. exact Hr.
Qed.

(** With one located and one unlocated candidate every sorting
    permutation gives the same frame. *)
Lemma sort_values_one_numeric (r u : Row) :
  numeric r = true -> unavailable u = true ->
  sort_values argsort [r; u] = Ok [r; u].
Proof.
  intros Hr Hu.
  destruct (sort_values_structure argsort argsort_ok [r; u]) as (ranked & E & H2).
  rewrite E.
  assert (Hn : numeric_rows [r; u] = [r]).
  { unfold numeric_rows. simpl. rewrite Hr.
    unfold numeric, unavailable in *. rewrite Hu. reflexivity. }
  assert (Hu' : unavailable_rows [r; u] = [u]).
  { unfold unavailable_rows. simpl. rewrite Hu.
    unfold numeric, unavailable in *.
    apply negb_true_iff in Hr. rewrite Hr. reflexivity. }
  rewrite Hn in H2. rewrite Hu'.
  destruct (argsort_ok (map key_of [r])) as [HP _]. simpl in HP.
  apply Permutation_sym, Permutation_length_1_inv in HP.
  simpl in H2. rewrite HP in H2.
  inversion H2 as [|i y is' ys Hi Hrest]; subst.
  inversion Hrest; subst. simpl in Hi. injection Hi as <-. reflexivity.
Qed.

(** The example of the specification: distances 12.4, 3.2 and one
    unavailable candidate come out as 3.2, 12.4, unavailable. *)
Lemma ranking_example :
  sort_values argsort [hospital_far; hospital_near; hospital_unlocated]
  = Ok [hospital_near; hospital_far; hospital_unlocated].
Proof.
  destruct (sort_values_structure argsort argsort_ok
              [hospital_far; hospital_near; hospital_unlocated])
    as (ranked & E & H2).
  rewrite E. clear E.
  change (numeric_rows [hospital_far; hospital_near; hospital_unlocated])
    with [hospital_far; hospital_near] in H2.
  change (unavailable_rows [hospital_far; hospital_near; hospital_unlocated])
    with [hospital_unlocated].
  change (map key_of [hospital_far; hospital_near]) with [12.4; 3.2] in H2.
  destruct (argsort_ok [12.4; 3.2]) as [HP HS].
  change (seq 0 (List.length [12.4; 3.2])) with [0%nat; 1%nat] in HP.
  apply Permutation_sym, Permutation_length_2_inv in HP as [HP | HP];
    rewrite HP in HS, H2.
  - exfalso. simpl in HS. apply Sorted_inv in HS as [_ Hd].
    apply HdRel_inv in Hd. lra.
  - inversion H2 as [|i y is' ys Hi Hrest]; subst.
    inversion Hrest as [|i' y' is'' ys' Hi' Hrest']; subst.
    inversion Hrest'; subst.
    simpl in Hi, Hi'. injection Hi as <-. injection Hi' as <-. reflexivity.
Qed.

End TopN.

Lemma head_of_ranking_witness :
  exists ranked : list Row,
    sort_values argsort_stable [hospital_far; hospital_near; hospital_unlocated]
    = Ok (ranked ++ unavailable_rows [hospital_far; hospital_near; hospital_unlocated]) /\
    Permutation ranked (numeric_rows [hospital_far; hospital_near; hospital_unlocated]) /\
    head 2 (ranked ++ unavailable_rows [hospital_far; hospital_near; hospital_unlocated])
    = firstn 2 ranked
      ++ firstn (2 - List.length
                       (numeric_rows [hospital_far; hospital_near; hospital_unlocated]))
                (unavailable_rows [hospital_far; hospital_near; hospital_unlocated]) /\
    List.length
      (head 2 (ranked ++ unavailable_rows [hospital_far; hospital_near; hospital_unlocated]))
    = Nat.min 2 (List.length [hospital_far; hospital_near; hospital_unlocated]) /\
    ((2 <= List.length
             (numeric_rows [hospital_far; hospital_near; hospital_unlocated]))%nat ->
     Forall (fun r => numeric r = true)
            (head 2 (ranked
                     ++ unavailable_rows [hospital_far; hospital_near; hospital_unlocated]))).
Proof.
  exact (head_of_ranking argsort_stable argsort_stable_contract
           [hospital_far; hospital_near; hospital_unlocated] 2).
Defined.

(** C3 as stated fails: with one numerically ranked candidate, one
    unavailable candidate and [top_n = 2], the subset has two entries,
    more than min(2, 1), and holds the unavailable candidate; this for
    every sorting permutation [argsort] may return. *)
Lemma head_includes_unavailable :
  exists (df : list Row) (top_n : nat),
    df = [hospital_near; hospital_unlocated] /\ top_n = 2%nat /\
    unavailable hospital_unlocated = true /\
    List.length (numeric_rows df) = 1%nat /\
    forall argsort : list R -> list nat,
      argsort_contract argsort ->
      exists df_sorted : list Row,
        sort_values argsort df = Ok df_sorted /\
        head top_n df_sorted = [hospital_near; hospital_unlocated] /\
        (Nat.min top_n (List.length (numeric_rows df))
         < List.length (head top_n df_sorted))%nat.
Proof.
  exists [hospital_near; hospital_unlocated], 2%nat.
  split; [reflexivity|]. split; [reflexivity|]. split; [reflexivity|].
  split; [reflexivity|].
  intros argsort Hok. exists [hospital_near; hospital_unlocated].
  split; [apply sort_values_one_numeric; [exact Hok | reflexivity | reflexivity]|].
  split; [reflexivity|]. simpl. lia.
Qed.

(* ------------------------------------------------------------------ *)
(** ** Rounding *)

Lemma py_round2_small (x : R) : 0 <= x -> x * 100 < 1 / 2 -> py_round2 x = 0.
Proof.
  intros H0 H1. unfold py_round2, round_half_even.
  rewrite (Zfloor_eq 0 (x * 100)) by lra.
  rewrite Rltb_true by (simpl; lra). simpl. lra.
Qed.

(* ------------------------------------------------------------------ *)
(** ** The rows of the search handler *)

Lemma truthy_zero : truthy 0 = false.
Proof. unfold truthy. now rewrite Reqb_true. Qed.

Lemma truthy_nonzero (x : R) : x <> 0 -> truthy x = true.
Proof. intros H. unfold truthy. now rewrite Reqb_false. Qed.

Lemma haversine_km_value (olat olon la lo : R) :
  haversine_km RealModel olat olon la lo
  = Ok (haversine_value {| latitude := olat; longitude := olon |}
                        {| latitude := la; longitude := lo |}).
Proof.
  exact (haversine_km_exact {| latitude := olat; longitude := olon |}
                            {| latitude := la; longitude := lo |}).
Qed.

Lemma data_row_located (olat olon la lo : R) (name addr : option pystr) :
  la <> 0 -> lo <> 0 ->
  data_row olat olon
    {| properties := Some {| prop_name := name; prop_formatted := addr;
                             prop_lat := Some la; prop_lon := Some lo |} |}
  = Ok {| Name := get_default name (str "Unknown");
          Address := get_default addr (str "No address available");
          Approx_Distance_km :=
            Km (py_round2
                  (haversine_value {| latitude := olat; longitude := olon |}
                                   {| latitude := la; longitude := lo |}));
          lat := Float (Finite la);
          lon := Float (Finite lo) |}.
Proof.
  intros Hla Hlo. unfold data_row, approx_km. simpl.
  rewrite (truthy_nonzero la Hla), (truthy_nonzero lo Hlo). simpl.
  rewrite haversine_km_value. reflexivity.
Qed.

(** *** The rows on Python values *)

(** On floats the distance on values is [haversine_km]. *)
Lemma Py_haversine_km_floats (P : Arith) (a b c d : num (floats P)) :
  Py.haversine_km P (Py.PFloat a) (Py.PFloat b) (Py.PFloat c) (Py.PFloat d)
  = haversine_km (floats P) a b c d.
Proof. reflexivity. Qed.

Lemma Py_data_row_distance (P : Arith)
  (origin_lat origin_lon hospital : Py.value (num (floats P)))
  (row : Py.Row (num (floats P))) :
  Py.data_row P origin_lat origin_lon hospital = Ok row ->
  Py.distance_row P origin_lat origin_lon hospital row.
Proof.
  unfold Py.data_row, Py.distance_row.
  destruct (Py.get hospital (str "properties") (Py.PDict [])) as [props|e] eqn:E0;
    [|discriminate].
  cbn [bind].
  destruct (Py.get props (str "name") _) as [name|e]; [|discriminate].
  destruct (Py.get props (str "formatted") _) as [address|e]; [|discriminate].
  destruct (Py.get props (str "lat") Py.PNone) as [h_lat|e] eqn:E1; [|discriminate].
  destruct (Py.get props (str "lon") Py.PNone) as [h_lon|e] eqn:E2; [|discriminate].
  cbn [bind]. unfold Py.approx_km.
  destruct (Py.truthy P h_lat && Py.truthy P h_lon) eqn:Et.
  - destruct (Py.haversine_km P origin_lat origin_lon h_lat h_lon) as [d|e] eqn:Ed;
      [|discriminate].
    cbn [bind]. intros E. injection E as <-.
    exists props. cbn [Py.lat Py.lon Py.Approx_Distance_km]. rewrite Et.
    split; [reflexivity|]. split; [exact E1|]. split; [exact E2|].
    exists d. split; [exact Ed|]. split; reflexivity.
  - cbn [bind]. intros E. injection E as <-.
    exists props. cbn [Py.lat Py.lon Py.Approx_Distance_km]. rewrite Et.
    split; [reflexivity|]. split; [exact E1|]. split; [exact E2|].
    split; reflexivity.
Qed.

Lemma Py_data_rows_Forall2 (P : Arith)
  (origin_lat origin_lon : Py.value (num (floats P)))
  (hospitals : list (Py.value (num (floats P))))
  (rows : list (Py.Row (num (floats P)))) :
  Py.data_rows P origin_lat origin_lon hospitals = Ok rows ->
  Forall2 (fun hospital row =>
             Py.data_row P origin_lat origin_lon hospital = Ok row)
          hospitals rows.
Proof.
  revert rows. induction hospitals as [|h hs IH]; simpl; intros rows E.
  - injection E as <-. constructor.
  - destruct (Py.data_row P origin_lat origin_lon h) as [row|e] eqn:Er;
      [|discriminate].
    cbn [bind] in E.
    destruct (Py.data_rows P origin_lat origin_lon hs) as [rs|e]; [|discriminate].
    cbn [bind] in E. injection E as <-.
    constructor; [exact Er | apply IH; reflexivity].
Qed.

(** C4, as the code has it. When the loop returns the rows, the row of
    each hospital whose latitude and longitude are both truthy
    (present and not zero) holds the distance from the origin rounded
    to two decimal places, and this stored, rounded value is the sort
    key; the row of every other hospital holds "N/A". This holds in
    every arithmetic, double precision included. *)
Theorem approx_distance_is_rounded (P : Arith)
  (origin_lat origin_lon : Py.value (num (floats P)))
  (hospitals : list (Py.value (num (floats P))))
  (rows : list (Py.Row (num (floats P)))) :
  Py.data_rows P origin_lat origin_lon hospitals = Ok rows ->
  Forall2 (Py.distance_row P origin_lat origin_lon) hospitals rows.
Proof.
  intros E. apply Py_data_rows_Forall2 in E.
  induction E as [|h row hs rs Hr _ IH]; constructor; [|exact IH].
  apply Py_data_row_distance. exact Hr.
Qed.

Lemma approx_distance_is_rounded_witness :
  let P := Binary64_arith (Binary64.libm_of Binary64.glibc_samples) in
  let origin_lat := Py.PFloat Binary64.Lahore_lat in
  let origin_lon := Py.PFloat Binary64.Lahore_lon in
  let hospitals :=
    [Py.hospital_at "Near" Binary64.hospital_lat Binary64.hospital_lon] in
  let rows :=
    [{| Py.Name := Py.PStr (str "Near");
        Py.Address := Py.PStr (str "No address available");
        Py.Approx_Distance_km := Py.Km Binary64.km_3_56;
        Py.lat := Py.PFloat Binary64.hospital_lat;
        Py.lon := Py.PFloat Binary64.hospital_lon |}] in
  Py.data_rows P origin_lat origin_lon hospitals = Ok rows /\
  Forall2 (Py.distance_row P origin_lat origin_lon) hospitals rows.
Proof.
  cbv zeta.
  assert (E : Py.data_rows
                (Binary64_arith (Binary64.libm_of Binary64.glibc_samples))
                (Py.PFloat Binary64.Lahore_lat) (Py.PFloat Binary64.Lahore_lon)
                [Py.hospital_at "Near" Binary64.hospital_lat Binary64.hospital_lon]
              = Ok [{| Py.Name := Py.PStr (str "Near");
                       Py.Address := Py.PStr (str "No address available");
                       Py.Approx_Distance_km := Py.Km Binary64.km_3_56;
                       Py.lat := Py.PFloat Binary64.hospital_lat;
                       Py.lon := Py.PFloat Binary64.hospital_lon |}])
    by (vm_compute; reflexivity).
  split; [exact E|].
  exact (approx_distance_is_rounded _ _ _ _ _ E).
Defined.

(** Two points on one meridian, the second to the north and not past
    the pole: the distance is the radius times the difference of
    latitude. *)
Lemma haversine_value_meridian (lat_a lat_b lon_ab : R) :
  lat_a <= lat_b <= lat_a + 180 ->
  haversine_value {| latitude := lat_a; longitude := lon_ab |}
                  {| latitude := lat_b; longitude := lon_ab |}
  = 6371 * deg2rad (lat_b - lat_a).
Proof.
  intros H. unfold haversine_value, haversine_a. simpl.
  assert (Hpi := PI_RGT_0).
  replace ((deg2rad lon_ab - deg2rad lon_ab) / 2) with 0 by lra.
  rewrite sin_0.
  replace ((sin ((deg2rad lat_b - deg2rad lat_a) / 2))² +
           cos (deg2rad lat_a) * cos (deg2rad lat_b) * 0²)
    with ((sin ((deg2rad lat_b - deg2rad lat_a) / 2))²)
    by (unfold Rsqr; ring).
  assert (E : (deg2rad lat_b - deg2rad lat_a) / 2 = deg2rad (lat_b - lat_a) / 2)
    by (unfold deg2rad; field).
  rewrite E.
  assert (B : 0 <= deg2rad (lat_b - lat_a) / 2 <= PI / 2).
  { unfold deg2rad. split.
    - apply Rmult_le_pos; [|lra].
      apply Rmult_le_pos; [|lra]. apply Rmult_le_pos; lra.
    - assert ((lat_b - lat_a) * PI <= 180 * PI)
        by (apply Rmult_le_compat_r; lra).
      lra. }
  rewrite sqrt_Rsqr by (apply sin_ge_0; lra).
  rewrite asin_sin by lra. lra.
Qed.

Lemma next_door_distance :
  let d := haversine_value Lahore {| latitude := 31.52041; longitude := 74.3587 |} in
  0 < d /\ py_round2 d = 0.
Proof.
  unfold Lahore. rewrite haversine_value_meridian by lra.
  assert (Hpi := PI_RGT_0). assert (Hpi4 := PI_4).
  cbv zeta. unfold deg2rad. split; [nra|].
  apply py_round2_small; nra.
Qed.

Lemma two_doors_distance :
  let d := haversine_value Lahore {| latitude := 31.52042; longitude := 74.3587 |} in
  py_round2 d = 0 /\
  haversine_value Lahore {| latitude := 31.52041; longitude := 74.3587 |} < d.
Proof.
  unfold Lahore. rewrite !haversine_value_meridian by lra.
  assert (Hpi := PI_RGT_0). assert (Hpi4 := PI_4).
  cbv zeta. unfold deg2rad. split; [|nra].
  apply py_round2_small; nra.
Qed.

Lemma sort_values_stable_ties (r1 r2 : Row) (x : R) :
  sort_key r1 = Some x -> sort_key r2 = Some x ->
  sort_values argsort_stable [r1; r2] = Ok [r1; r2].
Proof.
  intros H1 H2.
  unfold sort_values, nargsort, argsort_stable, argsort_with.
  simpl map. rewrite H1, H2. simpl.
  rewrite (Rleb_true x x) by lra. reflexivity.
Qed.

(** C4 as stated fails: the sort key is the rounded value, not the
    full-precision one. Two hospitals 1.1 m and 2.2 m north of the origin
    both get the key 0.0, so a sort that keeps equal keys in input order
    leaves the farther one in front of the nearer one. *)
Lemma sort_key_is_not_full_precision :
  exists (d1 d2 : R) (r1 r2 : Row),
    haversine_km RealModel 31.5204 74.3587 31.52041 74.3587 = Ok d1 /\
    haversine_km RealModel 31.5204 74.3587 31.52042 74.3587 = Ok d2 /\
    data_row 31.5204 74.3587 next_door = Ok r1 /\
    data_row 31.5204 74.3587 two_doors = Ok r2 /\
    0 < d1 < d2 /\
    sort_key r1 = Some 0 /\ sort_key r1 <> Some d1 /\
    sort_key r2 = Some 0 /\ sort_key r2 <> Some d2 /\
    sort_values argsort_stable [r2; r1] = Ok [r2; r1].
Proof.
  destruct next_door_distance as [Hpos H1].
  destruct two_doors_distance as [H2 Hlt].
  cbv zeta in *. unfold Lahore in *.
  eexists. eexists. eexists. eexists.
  split; [apply haversine_km_value|].
  split; [apply haversine_km_value|].
  split; [apply data_row_located; lra|].
  split; [apply data_row_located; lra|].
  split; [lra|].
  unfold sort_key. simpl Approx_Distance_km. rewrite H1, H2. simpl to_numeric.
  split; [reflexivity|]. split; [intros E; injection E; lra|].
  split; [reflexivity|]. split; [intros E; injection E; lra|].
  apply (sort_values_stable_ties _ _ 0); unfold sort_key; simpl; congruence.
Qed.

(** The ranking never fails on the exact model: every feature yields a
    row. *)
Lemma data_row_total (olat olon : R) (hospital : Feature) :
  exists r : Row, data_row olat olon hospital = Ok r.
Proof.
  unfold data_row, approx_km.
  destruct (prop_lat _) as [la|]; [|simpl; eauto].
  destruct (prop_lon _) as [lo|]; [|simpl; eauto].
  destruct (truthy la && truthy lo); [|simpl; eauto].
  rewrite haversine_km_value. simpl. eauto.
Qed.

Lemma data_rows_total (olat olon : R) (fs : list Feature) :
  exists rows : list Row,
    data_rows olat olon fs = Ok rows /\ List.length rows = List.length fs.
Proof.
  induction fs as [|f fs (rows & E & Hlen)]; simpl.
  - exists []. auto.
  - destruct (data_row_total olat olon f) as (r & Er).
    rewrite Er, E. simpl. exists (r :: rows). simpl. auto.
Qed.

(** C10. A coordinate equal to 0 is read as absent. A hospital whose
    latitude or longitude is 0 gets the marker "N/A" although its
    location is present, and a geocoding result with latitude or
    longitude 0 is reported as a geocoding failure. *)
Theorem zero_coordinate_is_treated_as_absent :
  (forall (olat olon : R) (name addr : option pystr) (h_lon : option R),
      data_row olat olon
        {| properties := Some {| prop_name := name; prop_formatted := addr;
                                 prop_lat := Some 0; prop_lon := h_lon |} |}
      = Ok {| Name := get_default name (str "Unknown");
              Address := get_default addr (str "No address available");
              Approx_Distance_km := N_A;
              lat := Float (Finite 0);
              lon := of_json h_lon |}) /\
  (forall (olat olon : R) (name addr : option pystr) (h_lat : option R),
      data_row olat olon
        {| properties := Some {| prop_name := name; prop_formatted := addr;
                                 prop_lat := h_lat; prop_lon := Some 0 |} |}
      = Ok {| Name := get_default name (str "Unknown");
              Address := get_default addr (str "No address available");
              Approx_Distance_km := N_A;
              lat := of_json h_lat;
              lon := Float (Finite 0) |}) /\
  (forall (geocode_address : pystr -> option R * option R)
          (find_nearby_hospitals : R -> R -> option Places)
          (location_input : pystr) (other : option R),
      location_input <> [] ->
      geocode_address (strip location_input) = (Some 0, other) \/
      geocode_address (strip location_input) = (other, Some 0) ->
      search_handler geocode_address find_nearby_hospitals true location_input
      = Ok Geocoding_failed).
Proof.
  split; [|split].
  - intros. unfold data_row, approx_km. simpl.
    destruct h_lon as [lo|]; [|reflexivity].
    rewrite truthy_zero. reflexivity.
  - intros. unfold data_row, approx_km. simpl.
    destruct h_lat as [la|]; [|reflexivity].
    rewrite truthy_zero, andb_false_r. reflexivity.
  - intros geocode find input other Hne H.
    destruct input as [|c input']; [congruence|].
    unfold search_handler.
    destruct H as [H|H]; rewrite H.
    + destruct other; [|reflexivity]. rewrite truthy_zero. reflexivity.
    + destruct other; [|reflexivity].
      rewrite truthy_zero, andb_false_r. reflexivity.
Qed.

(** With a located origin and a non-empty places response the handler
    shows the frame built from the rows. *)
Lemma search_handler_results
  (geocode_address : pystr -> option R * option R)
  (find_nearby_hospitals : R -> R -> option Places)
  (location_input : pystr) (la lo : R) (f : Feature) (fs : list Feature) :
  location_input <> [] ->
  geocode_address (strip location_input) = (Some la, Some lo) ->
  la <> 0 -> lo <> 0 ->
  find_nearby_hospitals la lo = Some {| features := Some (f :: fs) |} ->
  exists rows : list Row,
    data_rows la lo (f :: fs) = Ok rows /\
    search_handler geocode_address find_nearby_hospitals true location_input
    = Ok (Results (DataFrame rows)).
Proof.
  intros Hne Hg Hla Hlo Hf.
  destruct (data_rows_total la lo (f :: fs)) as (rows & E & _).
  exists rows. split; [exact E|].
  destruct location_input as [|c input']; [congruence|].
  unfold search_handler. rewrite Hg.
  rewrite (truthy_nonzero la Hla), (truthy_nonzero lo Hlo). simpl andb. cbv iota.
  rewrite Hf. simpl features. cbv iota. rewrite E. reflexivity.
Qed.

(** In the frame a missing coordinate beside a present one is NaN. *)
Example DataFrame_mixed :
  DataFrame [ {| Name := str "Near"; Address := []; Approx_Distance_km := Km 3.2;
                 lat := Float (Finite 31.5497); lon := Float (Finite 74.3436) |};
              {| Name := str "Unknown"; Address := []; Approx_Distance_km := N_A;
                 lat := NoneObject; lon := NoneObject |} ]
  = [ {| Name := str "Near"; Address := []; Approx_Distance_km := Km 3.2;
         lat := Float (Finite 31.5497); lon := Float (Finite 74.3436) |};
      {| Name := str "Unknown"; Address := []; Approx_Distance_km := N_A;
         lat := Float NaN; lon := Float NaN |} ].
Proof. reflexivity. Qed.

(** When some hospital has a latitude and some hospital a longitude, both
    columns of the frame are float columns; the other columns are those
    of the rows. *)
Lemma DataFrame_float_columns (data : list Row) :
  existsb is_float (map lat data) = true ->
  existsb is_float (map lon data) = true ->
  Forall (fun r => is_float (lat r) = true /\ is_float (lon r) = true)
         (DataFrame data).
Proof.
  intros Hlat Hlon. unfold DataFrame, infer. rewrite Hlat, Hlon.
  apply Forall_forall. intros r Hr.
  apply in_map_iff in Hr as (r0 & <- & _). simpl.
  destruct (lat r0), (lon r0); simpl; auto.
Qed.

Lemma DataFrame_sort_keys (data : list Row) :
  map sort_key (DataFrame data) = map sort_key data.
Proof.
  unfold DataFrame. rewrite map_map. reflexivity.
Qed.

(** The typed reading of a hospital is the loop body on Python values,
    in exact arithmetic: the two agree on every typed feature. *)
Lemma data_row_on_values (olat olon : R) (hospital : Feature) :
  Py.data_row Real_arith (Py.PFloat olat) (Py.PFloat olon) (py_of_feature hospital)
  = r <- data_row olat olon hospital ;; Ok (py_of_row r).
Proof.
  destruct hospital as [[[name addr la lo]|]];
    [destruct name as [name|], addr as [addr|], la as [la|], lo as [lo|]|];
    unfold Py.data_row, data_row, approx_km, Py.approx_km, py_of_feature,
      py_of_properties, py_of_option;
    cbn - [haversine_km py_round2 Reqb Py.haversine_km];
    rewrite ?andb_false_r;
    try reflexivity;
    rewrite Py_haversine_km_floats;
    change (floats Real_arith) with RealModel;
    unfold truthy;
    destruct (negb (Reqb la 0) && negb (Reqb lo 0)); try reflexivity;
    destruct (haversine_km RealModel olat olon la lo); reflexivity.
Qed.

(* ------------------------------------------------------------------ *)
(** ** Driving distances *)

Section DrivingFacts.

Variable argsort : list R -> list nat.
Hypothesis argsort_ok : argsort_contract argsort.
Variable requests_get : RoutingRequest -> result Response.

(** The adapter returns [None] on every failure: an exception of the
    request, a status that is not a success, a body that is not JSON, no
    feature, or a feature without a distance. Otherwise it returns the
    distance in kilometres. *)
Lemma get_route_distance_km_cases (olat olon : R) (la lo : pyfloat) :
  match requests_get (routing_request olat olon la lo) with
  | Raise _ => get_route_distance_km requests_get olat olon la lo = None
  | Ok r =>
      if ok r then
        match json r with
        | Raise _ => get_route_distance_km requests_get olat olon la lo = None
        | Ok data =>
            match routing_features data with
            | Some (f :: _) =>
                match route_distance f with
                | Ok d =>
                    get_route_distance_km requests_get olat olon la lo
                    = Some (d / 1000)
                | Raise _ =>
                    get_route_distance_km requests_get olat olon la lo = None
                end
            | _ => get_route_distance_km requests_get olat olon la lo = None
            end
        end
      else get_route_distance_km requests_get olat olon la lo = None
  end.
Proof.
  unfold get_route_distance_km.
  destruct (requests_get _) as [r|e]; simpl; [|reflexivity].
  destruct (ok r); simpl; [|reflexivity].
  destruct (json r) as [data|e]; simpl; [|reflexivity].
  destruct (routing_features data) as [[|f rest]|]; simpl; try reflexivity.
  destruct (route_distance f) as [d|e]; simpl; [|reflexivity].
  unfold py_div. simpl. rewrite Reqb_false by lra. reflexivity.
Qed.




End DrivingFacts.

Lemma get_route_distance_km_unreachable (olat olon : R) (la lo : pyfloat) :
  get_route_distance_km requests_get_fails olat olon la lo = None.
Proof. reflexivity. Qed.



(** When no hospital has a latitude the column holds [None] objects and
    the loop of the handler raises [TypeError] at the first row. *)
Lemma driving_distances_no_coordinates
  (argsort : list R -> list nat)
  (requests_get : RoutingRequest -> result Response) (olat olon : R) (r : Row) :
  argsort_contract argsort ->
  sort_key r = None -> lat r = NoneObject ->
  raises TypeError
    (calculate_driving_distances argsort requests_get olat olon [r] 1) = true.
Proof.
  intros Hok Hk Hlat.
  destruct (sort_values_structure argsort Hok [r]) as (ranked & E & H2).
  assert (Hn : numeric_rows [r] = []).
  { unfold numeric_rows, numeric. simpl. rewrite Hk. reflexivity. }
  assert (Hu : unavailable_rows [r] = [r]).
  { unfold unavailable_rows, unavailable. simpl. rewrite Hk. reflexivity. }
  rewrite Hn in H2. rewrite Hu in E.
  destruct (Hok (map key_of [])) as [HP _]. simpl in HP.
  apply Permutation_sym, Permutation_nil in HP. simpl in H2. rewrite HP in H2.
  inversion H2; subst.
  unfold calculate_driving_distances. rewrite E. simpl. rewrite Hlat. reflexivity.
Qed.

(* ================================================================== *)
(** * Part III: further properties of the code *)

(* ------------------------------------------------------------------ *)
(** ** The rows of the search, on the values of the places response *)

Ltac norm_str :=
  repeat match goal with
         | |- context [str ?s] =>
             let t := eval cbv in (str s) in change (str s) with t
         | H : context [str ?s] |- _ =>
             let t := eval cbv in (str s) in change (str s) with t in H
         end.

Section RowsOnValues.

Variable P : Arith.

Local Abbreviation A := (num (floats P)).

Variable origin_lat origin_lon : Py.value A.

Lemma Py_get_dict (v : Py.value A) (key : pystr) (default r : Py.value A) :
  Py.get v key default = Ok r ->
  exists items, v = Py.PDict items /\ r = get_default (Py.lookup key items) default.
Proof.
  destruct v; simpl; intros E; try discriminate E.
  injection E as <-. eexists. split; reflexivity.
Qed.

Lemma Py_data_row_fields (hospital : Py.value A) (row : Py.Row A) :
  Py.data_row P origin_lat origin_lon hospital = Ok row ->
  exists items props : list (pystr * Py.value A),
    hospital = Py.PDict items /\
    get_default (Py.lookup (str "properties") items) (Py.PDict []) = Py.PDict props /\
    Py.Name row
    = get_default (Py.lookup (str "name") props) (Py.PStr (str "Unknown")) /\
    Py.Address row
    = get_default (Py.lookup (str "formatted") props)
        (Py.PStr (str "No address available")) /\
    Py.lat row = get_default (Py.lookup (str "lat") props) Py.PNone /\
    Py.lon row = get_default (Py.lookup (str "lon") props) Py.PNone /\
    (Py.Approx_Distance_km row = Py.N_A <->
     Py.truthy P (Py.lat row) && Py.truthy P (Py.lon row) = false).
Proof.
  unfold Py.data_row.
  destruct (Py.get hospital (str "properties") (Py.PDict [])) as [props|e] eqn:E0;
    [|discriminate].
  apply Py_get_dict in E0 as (items & -> & Ep). cbn [bind].
  destruct props as [| | | | | |props]; try discriminate.
  cbn [Py.get bind]. unfold Py.approx_km.
  destruct (Py.truthy P _ && Py.truthy P _) eqn:Et.
  - destruct (Py.haversine_km P origin_lat origin_lon _ _) as [d|e];
      [|discriminate].
    cbn [bind]. intros E. injection E as <-.
    exists items, props. cbn [Py.Name Py.Address Py.lat Py.lon Py.Approx_Distance_km].
    split; [reflexivity|]. split; [symmetry; exact Ep|].
    do 4 (split; [reflexivity|]). norm_str. rewrite Et. split; discriminate.
  - cbn [bind]. intros E. injection E as <-.
    exists items, props. cbn [Py.Name Py.Address Py.lat Py.lon Py.Approx_Distance_km].
    split; [reflexivity|]. split; [symmetry; exact Ep|].
    do 4 (split; [reflexivity|]). norm_str. rewrite Et. split; reflexivity.
Qed.

Lemma Py_data_row_malformed (hospital : Py.value A) :
  Py.malformed hospital = true ->
  raises AttributeError (Py.data_row P origin_lat origin_lon hospital) = true.
Proof.
  unfold Py.malformed, Py.data_row.
  destruct hospital as [| | | | | |items]; try reflexivity.
  cbn [Py.get bind].
  destruct (Py.lookup (str "properties") items) as [props|]; [|discriminate].
  cbn [get_default].
  destruct props; try discriminate; reflexivity.
Qed.

(** X3. The row loop has no error handling. When it returns, there is
    one row per hospital, in the order of the response: each hospital
    is an object whose "properties", if there, is an object, the name
    and the address are those of the properties or the defaults
    "Unknown" and "No address available", the coordinates are those of
    the properties, and the distance is "N/A" exactly when a coordinate
    is falsy. One hospital that is not such an object ("properties":
    null, for one) makes the whole loop raise, with [AttributeError]
    when the hospitals before it gave their rows. *)
Theorem data_rows_all_or_nothing (hospitals : list (Py.value A)) :
  (forall rows : list (Py.Row A),
     Py.data_rows P origin_lat origin_lon hospitals = Ok rows ->
     Forall2
       (fun hospital row =>
          exists items props : list (pystr * Py.value A),
            hospital = Py.PDict items /\
            get_default (Py.lookup (str "properties") items) (Py.PDict [])
            = Py.PDict props /\
            Py.Name row
            = get_default (Py.lookup (str "name") props) (Py.PStr (str "Unknown")) /\
            Py.Address row
            = get_default (Py.lookup (str "formatted") props)
                (Py.PStr (str "No address available")) /\
            Py.lat row = get_default (Py.lookup (str "lat") props) Py.PNone /\
            Py.lon row = get_default (Py.lookup (str "lon") props) Py.PNone /\
            (Py.Approx_Distance_km row = Py.N_A <->
             Py.truthy P (Py.lat row) && Py.truthy P (Py.lon row) = false))
       hospitals rows) /\
  (forall hospital : Py.value A,
     In hospital hospitals -> Py.malformed hospital = true ->
     exists e : exn, Py.data_rows P origin_lat origin_lon hospitals = Raise e) /\
  (forall (before after : list (Py.value A)) (hospital : Py.value A)
          (rows : list (Py.Row A)),
     hospitals = before ++ hospital :: after ->
     Py.data_rows P origin_lat origin_lon before = Ok rows ->
     Py.malformed hospital = true ->
     raises AttributeError (Py.data_rows P origin_lat origin_lon hospitals) = true).
Proof.
  split; [|split].
  - intros rows E. apply Py_data_rows_Forall2 in E.
    induction E as [|h row hs rs Hr _ IH]; constructor; [|exact IH].
    apply Py_data_row_fields. exact Hr.
  - intros hospital Hin Hm.
    induction hospitals as [|h hs IH]; [destruct Hin|].
    simpl. destruct Hin as [-> | Hin].
    + assert (H := Py_data_row_malformed hospital Hm).
      destruct (Py.data_row P origin_lat origin_lon hospital) as [row|e];
        [discriminate H|].
      exists e. reflexivity.
    + destruct (Py.data_row P origin_lat origin_lon h) as [row|e];
        [|exists e; reflexivity].
      cbn [bind]. destruct (IH Hin) as (e & ->). exists e. reflexivity.
  - intros before after hospital rows -> Hb Hm. revert rows Hb.
    induction before as [|h hs IH]; simpl; intros rows Hb.
    + assert (H := Py_data_row_malformed hospital Hm).
      destruct (Py.data_row P origin_lat origin_lon hospital) as [row|e];
        [discriminate H|exact H].
    + destruct (Py.data_row P origin_lat origin_lon h) as [row|e];
        [|discriminate Hb].
      cbn [bind] in *.
      destruct (Py.data_rows P origin_lat origin_lon hs) as [rs|e] eqn:Ers;
        [|discriminate Hb].
      specialize (IH rs eq_refl).
      destruct (Py.data_rows P origin_lat origin_lon (hs ++ hospital :: after))
        as [rs'|e]; [discriminate IH|exact IH].
Qed.

End RowsOnValues.

(* ------------------------------------------------------------------ *)
(** ** [str.strip] and the accepted addresses *)

Lemma lstrip_spaces (ws x : pystr) :
  Forall (fun c => is_space c = true) ws -> lstrip (ws ++ x) = lstrip x.
Proof.
  induction 1 as [|c ws Hc _ IH]; simpl; [reflexivity|].
  rewrite Hc. exact IH.
Qed.

Lemma lstrip_no_space (x : pystr) :
  Forall (fun c => is_space c = false) x -> lstrip x = x.
Proof.
  intros H. destruct H as [|c x Hc _]; simpl; [reflexivity|].
  rewrite Hc. reflexivity.
Qed.

Lemma Forall_rev_iff {A : Type} (P : A -> Prop) (l : list A) :
  Forall P l -> Forall P (rev l).
Proof.
  intros H. apply Forall_forall. intros x Hx.
  apply in_rev in Hx. rewrite Forall_forall in H. auto.
Qed.

(** Text free of whitespace, followed by whitespace only, is stripped to
    the text. *)
Lemma strip_text_then_spaces (e ws : pystr) :
  Forall (fun c => is_space c = false) e ->
  Forall (fun c => is_space c = true) ws ->
  strip (e ++ ws) = e.
Proof.
  intros He Hws. unfold strip, rstrip.
  assert (L : lstrip (e ++ ws) = e ++ ws \/ (e = [] /\ lstrip (e ++ ws) = [])).
  { destruct He as [|c e Hc He]; simpl.
    - right. split; [reflexivity|].
      rewrite <- (app_nil_r ws), lstrip_spaces by assumption. reflexivity.
    - left. rewrite Hc. reflexivity. }
  destruct L as [L | [-> L]]; rewrite L; [|reflexivity].
  rewrite rev_app_distr, lstrip_spaces by (apply Forall_rev_iff; assumption).
  rewrite lstrip_no_space by (apply Forall_rev_iff; assumption).
  apply rev_involutive.
Qed.

(** An accepted address is an address of the specified form, followed
    by at most one line feed, which [strip] removes. *)
Lemma accepted_email_strip (email : pystr) :
  email_accepted email = true ->
  exists e : pystr,
    email_form e /\ strip email = e /\ (email = e \/ email = e ++ [chr_LF]).
Proof.
  intros H. apply email_accepted_iff in H as (e & nl & -> & He & Hnl).
  exists e. split; [exact He|]. split.
  - apply strip_text_then_spaces; [apply email_form_no_space; exact He|].
    destruct Hnl as [-> | ->]; repeat constructor.
  - destruct Hnl as [-> | ->]; [left; apply app_nil_r | right; reflexivity].
Qed.

(** X6. The address the send handler uses, [email.strip()], is of the
    specified form for every address the guard accepts: stripping
    removes at most one trailing line feed, the only whitespace the
    pattern lets through. *)
Theorem accepted_email_stripped_is_well_formed (email : pystr) :
  email_accepted email = true ->
  email_form (strip email) /\
  (email = strip email \/ email = strip email ++ [chr_LF]).
Proof.
  intros H. destruct (accepted_email_strip email H) as (e & He & -> & Hnl).
  split; assumption.
Qed.

Lemma accepted_email_stripped_is_well_formed_witness :
  email_form (strip (str "user@example.com" ++ [chr_LF])) /\
  (str "user@example.com" ++ [chr_LF] = strip (str "user@example.com" ++ [chr_LF]) \/
   str "user@example.com" ++ [chr_LF]
   = strip (str "user@example.com" ++ [chr_LF]) ++ [chr_LF]).
Proof.
  exact (accepted_email_stripped_is_well_formed
           (str "user@example.com" ++ [chr_LF]) eq_refl).
Defined.

Lemma count_at_part (p : pystr) : part_ok p -> count_occ N.eq_dec p chr_at = 0%nat.
Proof.
  intros [_ H]. apply count_occ_not_In. intros Hin.
  rewrite Forall_forall in H. destruct (H _ Hin) as [Hne _]. congruence.
Qed.

(** X7. Every accepted address contains exactly one "@". *)
Theorem accepted_email_one_at (email : pystr) :
  email_accepted email = true ->
  count_occ N.eq_dec email chr_at = 1%nat.
Proof.
  intros H.
  destruct (accepted_email_strip email H) as (e & Hf & _ & Hnl).
  destruct Hf as (l & d & t & Es & Hl & Hd & Ht).
  assert (C : count_occ N.eq_dec e chr_at = 1%nat).
  { rewrite Es, count_occ_app. simpl.
    rewrite count_occ_app. simpl.
    rewrite (count_at_part l Hl), (count_at_part d Hd), (count_at_part t Ht).
    reflexivity. }
  destruct Hnl as [E | E]; rewrite E; [exact C|].
  rewrite count_occ_app, C. reflexivity.
Qed.

Lemma accepted_email_one_at_witness :
  count_occ N.eq_dec (str "user@example.com") chr_at = 1%nat.
Proof.
  exact (accepted_email_one_at (str "user@example.com") eq_refl).
Defined.

(* ------------------------------------------------------------------ *)
(** ** [html.escape] of the response *)

Lemma replace_char_app (old : N) (new s t : pystr) :
  replace_char old new (s ++ t) = replace_char old new s ++ replace_char old new t.
Proof. unfold replace_char. apply flat_map_app. Qed.

Lemma replace_char_absent (old : N) (new s : pystr) :
  ~ In old s -> replace_char old new s = s.
Proof.
  unfold replace_char. induction s as [|c s IH]; simpl; intros H; [reflexivity|].
  destruct (N.eqb_spec c old) as [->|Hne]; [exfalso; apply H; now left|].
  simpl. f_equal. apply IH. intros Hin. apply H. now right.
Qed.

(** The five replacements in sequence never touch the output of an
    earlier one: together they replace each character once. *)
Lemma html_escape_single_pass (s : pystr) :
  html_escape s = flat_map escape_char s.
Proof.
  unfold html_escape. induction s as [|c s IH]; [reflexivity|].
  change (c :: s) with ([c] ++ s).
  rewrite !replace_char_app, IH. rewrite flat_map_app. f_equal.
  unfold escape_char, replace_char at 5. cbn [flat_map]. rewrite app_nil_r.
  destruct (N.eqb_spec c chr_amp) as [->|H1]; [reflexivity|].
  unfold replace_char at 4. cbn [flat_map]. rewrite app_nil_r.
  destruct (N.eqb_spec c chr_lt) as [->|H2]; [reflexivity|].
  unfold replace_char at 3. cbn [flat_map]. rewrite app_nil_r.
  destruct (N.eqb_spec c chr_gt) as [->|H3]; [reflexivity|].
  unfold replace_char at 2. cbn [flat_map]. rewrite app_nil_r.
  destruct (N.eqb_spec c chr_quot) as [->|H4]; [reflexivity|].
  unfold replace_char. cbn [flat_map]. rewrite app_nil_r.
  destruct (N.eqb_spec c chr_apos) as [->|H5]; reflexivity.
Qed.

Lemma escape_char_no_markup (c : N) :
  Forall (fun x => is_markup x = false) (escape_char c).
Proof.
  unfold escape_char.
  destruct (N.eqb_spec c chr_amp); [repeat constructor|].
  destruct (N.eqb_spec c chr_lt) as [|H2]; [repeat constructor|].
  destruct (N.eqb_spec c chr_gt) as [|H3]; [repeat constructor|].
  destruct (N.eqb_spec c chr_quot) as [|H4]; [repeat constructor|].
  destruct (N.eqb_spec c chr_apos) as [|H5]; [repeat constructor|].
  constructor; [|constructor]. unfold is_markup.
  apply N.eqb_neq in H2, H3, H4, H5. rewrite H2, H3, H4, H5. reflexivity.
Qed.

Lemma escape_char_cases (c : N) :
  (escape_char c = [c] /\ c <> chr_amp) \/
  exists second rest, escape_char c = chr_amp :: second :: rest.
Proof.
  unfold escape_char.
  destruct (N.eqb_spec c chr_amp) as [|H1]; [right; repeat eexists|].
  destruct (N.eqb_spec c chr_lt); [right; repeat eexists|].
  destruct (N.eqb_spec c chr_gt); [right; repeat eexists|].
  destruct (N.eqb_spec c chr_quot); [right; repeat eexists|].
  destruct (N.eqb_spec c chr_apos); [right; repeat eexists|].
  left. auto.
Qed.

(** An entity at the head of two escaped texts determines the character
    it stands for and leaves the rests equal. *)
Lemma escape_char_prefix (c d : N) (x y : pystr) :
  escape_char c ++ x = escape_char d ++ y -> c = d /\ x = y.
Proof.
  unfold escape_char.
  destruct (N.eqb_spec c chr_amp) as [->|C1];
    [|destruct (N.eqb_spec c chr_lt) as [->|C2];
      [|destruct (N.eqb_spec c chr_gt) as [->|C3];
        [|destruct (N.eqb_spec c chr_quot) as [->|C4];
          [|destruct (N.eqb_spec c chr_apos) as [->|C5]]]]];
  (destruct (N.eqb_spec d chr_amp) as [->|D1];
    [|destruct (N.eqb_spec d chr_lt) as [->|D2];
      [|destruct (N.eqb_spec d chr_gt) as [->|D3];
        [|destruct (N.eqb_spec d chr_quot) as [->|D4];
          [|destruct (N.eqb_spec d chr_apos) as [->|D5]]]]]);
  simpl; intros E; try discriminate E;
    injection E; intros; subst; try (split; reflexivity);
    exfalso; unfold chr_amp, chr_lt, chr_gt, chr_quot, chr_apos in *; congruence.
Qed.

Lemma html_escape_injective_aux (s t : pystr) :
  flat_map escape_char s = flat_map escape_char t -> s = t.
Proof.
  revert t. induction s as [|c s IH]; intros [|d t] E; simpl in E.
  - reflexivity.
  - destruct (escape_char_cases d) as [[Ed _] | (a & r & Ed)];
      rewrite Ed in E; discriminate E.
  - destruct (escape_char_cases c) as [[Ec _] | (a & r & Ec)];
      rewrite Ec in E; discriminate E.
  - apply escape_char_prefix in E as [-> E]. f_equal. apply IH. exact E.
Qed.

(** X8. The response is rendered as text: whatever the response, the
    markup handed to the page is the fixed container around an escaped
    text that holds no "<", no ">", no double quote and no apostrophe, and
    in which every
    character of the response is replaced exactly once (an "&" of the
    response is never escaped twice). *)
Theorem rendered_response_has_no_markup (llm_response : option pystr) :
  exists escaped : pystr,
    render_response llm_response
    = result_container_open ++ escaped ++ result_container_close /\
    escaped = flat_map escape_char (or_empty llm_response) /\
    Forall (fun c => is_markup c = false) escaped.
Proof.
  exists (html_escape (or_empty llm_response)).
  split; [reflexivity|]. split; [apply html_escape_single_pass|].
  rewrite html_escape_single_pass.
  induction (or_empty llm_response) as [|c s IH]; simpl; [constructor|].
  apply Forall_app. split; [apply escape_char_no_markup | exact IH].
Qed.

(** X9. Escaping loses nothing: two different texts never have the same
    escaped form. *)
Theorem html_escape_injective (s t : pystr) :
  html_escape s = html_escape t -> s = t.
Proof.
  rewrite !html_escape_single_pass. apply html_escape_injective_aux.
Qed.

Lemma html_escape_injective_witness :
  str "a<b" = str "a<b".
Proof.
  exact (html_escape_injective (str "a<b") (str "a<b") eq_refl).
Defined.

Example html_escape_example :
  html_escape (str "<b>Tom & Jerry's</b>")
  = str "&lt;b&gt;Tom &amp; Jerry&#x27;s&lt;/b&gt;".
Proof. reflexivity. Qed.

(* ------------------------------------------------------------------ *)
(** ** Secrets and configuration *)

Section SecretsFacts.

Variable st_secrets_get : pystr -> result (option secret).
Variable os_environ : pystr -> option pystr.
Variable int_of_str : pystr -> option Z.

Lemma get_secret_optional (name : pystr) (default : option pystr) :
  get_secret st_secrets_get os_environ name false default
  = Returns (looked_up st_secrets_get os_environ name default).
Proof.
  unfold get_secret, looked_up.
  destruct (st_secrets_get name) as [[v|]|e]; reflexivity.
Qed.

Lemma or_value_truthy (x : option secret) (y : secret) :
  secret_truthy y = true -> secret_truthy (or_value x y) = true.
Proof.
  intros Hy. unfold or_value. destruct x as [v|]; [|exact Hy].
  destruct (secret_truthy v) eqn:E; assumption.
Qed.

Lemma or_opt_truthy (x y : option secret) :
  truthy_opt (or_opt x y) = truthy_opt x || truthy_opt y.
Proof.
  unfold or_opt. destruct (truthy_opt x) eqn:E; [rewrite E|]; reflexivity.
Qed.

(** The port, line 43: [int(get_secret("BREVO_SMTP_PORT") or 587)]. *)
Lemma load_config_port :
  let port_secret :=
    or_value (looked_up st_secrets_get os_environ (str "BREVO_SMTP_PORT") None)
             (SecretInt 587) in
  match load_config st_secrets_get os_environ int_of_str with
  | Returns cfg => py_int int_of_str port_secret = Returns (BREVO_SMTP_PORT cfg)
  | Stops _ => False
  | Fails e => py_int int_of_str port_secret = Fails e
  end.
Proof.
  cbv zeta. unfold load_config. rewrite !get_secret_optional. cbn [script_bind].
  destruct (py_int int_of_str _) as [z| |e] eqn:Ei.
  - cbn [script_bind]. rewrite ?get_secret_optional. cbn [script_bind]. reflexivity.
  - exfalso. revert Ei. unfold py_int.
    destruct (or_value _ _) as [s|z|o]; [destruct (int_of_str s)| |destruct (obj_int o)];
      discriminate.
  - cbn [script_bind]. reflexivity.
Qed.

(** What the later statements share. *)
Lemma load_config_facts :
  match load_config st_secrets_get os_environ int_of_str with
  | Returns cfg =>
      secret_truthy (BREVO_SMTP_HOST cfg) = true /\
      secret_truthy (BREVO_FROM_NAME cfg) = true /\
      (truthy_opt (BREVO_SMTP_LOGIN cfg) = true ->
       truthy_opt (BREVO_FROM_EMAIL cfg) = true)
  | _ => True
  end.
Proof.
  unfold load_config. rewrite !get_secret_optional. cbn [script_bind].
  destruct (py_int int_of_str _) as [z| |e]; cbn [script_bind]; [|exact I|exact I].
  rewrite ?get_secret_optional. cbn [script_bind].
  cbn [BREVO_SMTP_HOST BREVO_FROM_NAME BREVO_SMTP_LOGIN BREVO_FROM_EMAIL].
  repeat split; try (apply or_value_truthy; reflexivity).
  intros H. rewrite or_opt_truthy, H. apply orb_true_r.
Qed.

Lemma or_value_cases (x : option secret) (y : secret) :
  (truthy_opt x = false /\ or_value x y = y) \/
  (exists v, x = Some v /\ secret_truthy v = true /\ or_value x y = v).
Proof.
  unfold or_value. destruct x as [v|]; [|left; split; reflexivity].
  cbn [truthy_opt]. destruct (secret_truthy v) eqn:E.
  - right. exists v. repeat split. exact E.
  - left. split; reflexivity.
Qed.

(** X10. Loading the configuration never stops the app, whatever
    secrets are missing: every secret is read as optional. It fails
    exactly when the port secret is truthy and [int] raises on it, with
    the exception of [int]: [ValueError] for a string that is not an
    integer, [TypeError] for an array, [OverflowError] for an infinite
    float. A loaded configuration has a non-empty host and sender name,
    the port 587 when no port is given, else the [int] of the port
    secret, and a sender address whenever it has a login. *)
Theorem load_config_outcome :
  let port := looked_up st_secrets_get os_environ (str "BREVO_SMTP_PORT") None in
  match load_config st_secrets_get os_environ int_of_str with
  | Returns cfg =>
      secret_truthy (BREVO_SMTP_HOST cfg) = true /\
      secret_truthy (BREVO_FROM_NAME cfg) = true /\
      (truthy_opt port = false -> BREVO_SMTP_PORT cfg = 587%Z) /\
      (forall v, port = Some v -> secret_truthy v = true ->
                 py_int int_of_str v = Returns (BREVO_SMTP_PORT cfg)) /\
      (truthy_opt (BREVO_SMTP_LOGIN cfg) = true ->
       truthy_opt (BREVO_FROM_EMAIL cfg) = true)
  | Stops _ => False
  | Fails e =>
      exists v : secret,
        port = Some v /\ secret_truthy v = true /\
        py_int int_of_str v = Fails e /\
        (forall s, v = SecretStr s ->
                   exn_cls e = ValueError /\ int_of_str s = None) /\
        (v = toml_array_587 -> exn_cls e = TypeError) /\
        (v = toml_inf -> exn_cls e = OverflowError)
  end.
Proof.
  cbv zeta.
  assert (Hp := load_config_port). assert (Hf := load_config_facts).
  cbv zeta in Hp.
  destruct (or_value_cases
              (looked_up st_secrets_get os_environ (str "BREVO_SMTP_PORT") None)
              (SecretInt 587)) as [[Hn Ho] | (v & Hv & Ht & Ho)];
    rewrite Ho in Hp;
    (destruct (load_config st_secrets_get os_environ int_of_str) as [cfg|m|e];
     [ | exfalso; exact Hp | ]).
  - destruct Hf as (H1 & H2 & H3).
    split; [exact H1|]. split; [exact H2|].
    split; [intros _; cbn [py_int] in Hp; congruence|].
    split; [|exact H3].
    intros v Hv Ht. rewrite Hv in Hn. cbn [truthy_opt] in Hn. congruence.
  - discriminate Hp.
  - destruct Hf as (H1 & H2 & H3).
    split; [exact H1|]. split; [exact H2|].
    split; [intros Hn; rewrite Hv in Hn; cbn [truthy_opt] in Hn; congruence|].
    split; [|exact H3].
    intros v' Hv' _. rewrite Hv in Hv'. injection Hv' as <-. exact Hp.
  - exists v. split; [exact Hv|]. split; [exact Ht|]. split; [exact Hp|].
    split; [|split].
    + intros s ->. cbn [py_int] in Hp.
      destruct (int_of_str s); [discriminate Hp|].
      injection Hp as <-. split; reflexivity.
    + intros ->. cbn in Hp. injection Hp as <-. reflexivity.
    + intros ->. cbn in Hp. injection Hp as <-. reflexivity.
Qed.

(** X11. With a loaded configuration, sending mail is enabled exactly
    when the login and the password are non-empty and the port is not
    0: the host has a default and never blocks it. Whenever sending is
    enabled, the sender address of the header and of the envelope is
    non-empty. *)
Theorem can_send_email_iff :
  match load_config st_secrets_get os_environ int_of_str with
  | Returns cfg =>
      can_send_email cfg
      = negb (BREVO_SMTP_PORT cfg =? 0)%Z
        && truthy_opt (BREVO_SMTP_LOGIN cfg)
        && truthy_opt (BREVO_SMTP_PASSWORD cfg) /\
      (can_send_email cfg = true ->
       truthy_opt (BREVO_FROM_EMAIL cfg) = true /\
       truthy_opt (envelope_sender cfg) = true)
  | _ => True
  end.
Proof.
  assert (H := load_config_facts).
  destruct (load_config st_secrets_get os_environ int_of_str) as [cfg| |]; auto.
  destruct H as (Hhost & _ & Hfrom).
  unfold can_send_email. rewrite Hhost. split; [reflexivity|].
  cbn [andb]. intros Hc.
  apply andb_true_iff in Hc as [Hc _]. apply andb_true_iff in Hc as [_ Hlogin].
  split; [apply Hfrom; exact Hlogin|].
  unfold envelope_sender. rewrite or_opt_truthy, (Hfrom Hlogin). reflexivity.
Qed.

End SecretsFacts.

(* ------------------------------------------------------------------ *)
(** ** The search on the answers of the two services *)

Section SearchOnValues.

Variable P : Arith.

Local Abbreviation A := (num (floats P)).

Variable requests_get_geocode : Py.GeocodeRequest -> result (Py.Response A).
Variable requests_get_places : Py.PlacesRequest A -> result (Py.Response A).

(** Every failure of the geocoding request, of its status, of its body
    and of the shape of its body gives [(None, None)]. *)
Lemma geocode_address_body (address : pystr) :
  Py.geocode_address P requests_get_geocode address
  = match requests_get_geocode {| Py.text := address |} with
    | Ok r =>
        if Py.ok r then
          match Py.json r with
          | Ok body => get_default (Py.first_coordinates body) (Py.PNone, Py.PNone)
          | Raise _ => (Py.PNone, Py.PNone)
          end
        else (Py.PNone, Py.PNone)
    | Raise _ => (Py.PNone, Py.PNone)
    end.
Proof.
  unfold Py.geocode_address, Py.first_coordinates.
  destruct (requests_get_geocode {| Py.text := address |}) as [r|e]; [|reflexivity].
  cbn [bind]. destruct (Py.ok r); [|reflexivity].
  destruct (Py.json r) as [body|e]; [|reflexivity].
  cbn [bind].
  destruct body as [| | | | | |items]; try reflexivity.
  cbn [Py.get Py.getitem_str bind].
  destruct (Py.lookup (str "features") items) as [features|]; [|reflexivity].
  cbn [get_default lift_partial bind].
  destruct features as [|b|z|x|s|fs|d]; cbn [Py.truthy]; try reflexivity.
  - destruct b; reflexivity.
  - destruct (negb (z =? 0)%Z); reflexivity.
  - destruct (negb (fis_zero (floats P) x)); reflexivity.
  - destruct s; reflexivity.
  - destruct fs as [|first rest]; [reflexivity|].
    cbn [Py.getitem_0 bind].
    destruct first as [| | | | | |first]; try reflexivity.
    cbn [Py.getitem_str].
    destruct (Py.lookup (str "properties") first) as [p|]; [|reflexivity].
    cbn [lift_partial bind].
    destruct p; reflexivity.
  - destruct d; reflexivity.
Qed.

Lemma find_nearby_hospitals_body (lat lon : Py.value A) :
  Py.find_nearby_hospitals P requests_get_places lat lon
  = match requests_get_places (Py.places_request P lat lon) with
    | Ok r =>
        if Py.ok r then
          match Py.json r with
          | Ok body => body
          | Raise _ => Py.PNone
          end
        else Py.PNone
    | Raise _ => Py.PNone
    end.
Proof.
  unfold Py.find_nearby_hospitals.
  destruct (requests_get_places _) as [r|e]; [|reflexivity].
  cbn [bind]. destruct (Py.ok r); [|reflexivity].
  destruct (Py.json r); reflexivity.
Qed.

(** X12. What the search has done when it reaches the frame, whatever
    the two services answer. The geocoding adapter swallows every
    failure: a failed request, a bad status, a body that is not JSON or
    not of the expected shape all give [(None, None)], and with it
    "geocoding failed". The places adapter swallows the failures of the
    request, but its body is used as it comes: the search gives rows
    only for an object whose "features" is a non-empty list on which the
    row loop returns; a truthy body that is not an object raises
    [AttributeError], truthy "features" that are a string or an object
    raise [AttributeError], and that are a number raise [TypeError]. *)
Theorem search_handler_outcome (search_clicked : bool) (location_input : pystr) :
  let coordinates :=
    match requests_get_geocode {| Py.text := strip location_input |} with
    | Ok r =>
        if Py.ok r then
          match Py.json r with
          | Ok body => get_default (Py.first_coordinates body) (Py.PNone, Py.PNone)
          | Raise _ => (Py.PNone, Py.PNone)
          end
        else (Py.PNone, Py.PNone)
    | Raise _ => (Py.PNone, Py.PNone)
    end in
  let located := Py.truthy P (fst coordinates) && Py.truthy P (snd coordinates) in
  let hospitals :=
    match requests_get_places
            (Py.places_request P (fst coordinates) (snd coordinates)) with
    | Ok r =>
        if Py.ok r then
          match Py.json r with
          | Ok body => body
          | Raise _ => Py.PNone
          end
        else Py.PNone
    | Raise _ => Py.PNone
    end in
  match Py.search_handler P requests_get_geocode requests_get_places
          search_clicked location_input with
  | Ok Py.Idle => search_clicked = false \/ location_input = []
  | Ok Py.Geocoding_failed =>
      search_clicked = true /\ location_input <> [] /\ located = false
  | Ok Py.No_hospitals_found =>
      search_clicked = true /\ location_input <> [] /\ located = true /\
      (Py.truthy P hospitals = false \/
       exists items : list (pystr * Py.value A),
         hospitals = Py.PDict items /\
         Py.truthy P (get_default (Py.lookup (str "features") items) Py.PNone)
         = false)
  | Ok (Py.Results rows) =>
      search_clicked = true /\ location_input <> [] /\ located = true /\
      exists (items : list (pystr * Py.value A)) (features : list (Py.value A)),
        hospitals = Py.PDict items /\
        Py.lookup (str "features") items = Some (Py.PList features) /\
        features <> [] /\
        Py.data_rows P (fst coordinates) (snd coordinates) features = Ok rows
  | Raise e =>
      search_clicked = true /\ location_input <> [] /\ located = true /\
      Py.truthy P hospitals = true /\
      ((forall items, hospitals <> Py.PDict items) /\ exn_cls e = AttributeError \/
       exists (items : list (pystr * Py.value A)) (features : Py.value A),
         hospitals = Py.PDict items /\
         Py.lookup (str "features") items = Some features /\
         Py.truthy P features = true /\
         match features with
         | Py.PList hospitals =>
             Py.data_rows P (fst coordinates) (snd coordinates) hospitals = Raise e
         | Py.PStr _ | Py.PDict _ => exn_cls e = AttributeError
         | _ => exn_cls e = TypeError
         end)
  end.
Proof.
  cbv zeta. unfold Py.search_handler.
  destruct search_clicked; [|left; reflexivity].
  destruct location_input as [|c s] eqn:Ei; [right; reflexivity|].
  rewrite <- Ei.
  assert (Hne : location_input <> []) by (rewrite Ei; discriminate).
  clear Ei c s.
  rewrite geocode_address_body.
  set (coordinates := match requests_get_geocode _ with Ok _ => _ | Raise _ => _ end).
  destruct coordinates as [lat lon] eqn:Ec. cbn [fst snd].
  destruct (Py.truthy P lat && Py.truthy P lon) eqn:El;
    [|split; [reflexivity|]; split; [exact Hne|reflexivity]].
  rewrite find_nearby_hospitals_body.
  set (hospitals := match requests_get_places _ with Ok _ => _ | Raise _ => _ end).
  destruct (Py.truthy P hospitals) eqn:Eh;
    [|split; [reflexivity|]; split; [exact Hne|]; split; [reflexivity|];
      left; reflexivity].
  destruct hospitals as [|b|z|x|s|l|items] eqn:Ehs;
    try (cbn [Py.get bind]; split; [reflexivity|]; split; [exact Hne|];
         split; [reflexivity|]; split; [reflexivity|]; left;
         split; [intros items'; discriminate|reflexivity]).
  cbn [Py.get Py.getitem_str bind].
  destruct (Py.lookup (str "features") items) as [features|] eqn:Ef;
    cbn [get_default lift_partial bind].
  2:{ cbn [Py.truthy]. split; [reflexivity|]. split; [exact Hne|].
      split; [reflexivity|]. right. exists items.
      split; [reflexivity|]. rewrite Ef. reflexivity. }
  destruct (Py.truthy P features) eqn:Et.
  2:{ split; [reflexivity|]. split; [exact Hne|].
      split; [reflexivity|]. right. exists items.
      split; [reflexivity|]. rewrite Ef. exact Et. }
  destruct features as [|b|z|x|s|hs|d]; cbn [Py.iterate bind];
    try (split; [reflexivity|]; split; [exact Hne|];
         split; [reflexivity|]; split; [reflexivity|]; right;
         eexists items, _; split; [reflexivity|]; split; [exact Ef|];
         split; [exact Et|]; reflexivity).
  - (* a string *)
    destruct s as [|c s]; [discriminate Et|]. cbn [map Py.data_rows].
    cbn [Py.data_row Py.get bind]. unfold Py.data_row. cbn [Py.get bind].
    split; [reflexivity|]. split; [exact Hne|].
    split; [reflexivity|]. split; [reflexivity|]. right.
    eexists items, _. split; [reflexivity|]. split; [exact Ef|].
    split; [exact Et|]. reflexivity.
  - (* a list *)
    destruct (Py.data_rows P lat lon hs) as [rows|e] eqn:Er; cbn [bind].
    + split; [reflexivity|]. split; [exact Hne|]. split; [reflexivity|].
      exists items, hs. split; [reflexivity|]. split; [exact Ef|].
      split; [|exact Er]. intros ->. discriminate Et.
    + split; [reflexivity|]. split; [exact Hne|].
      split; [reflexivity|]. split; [reflexivity|]. right.
      eexists items, _. split; [reflexivity|]. split; [exact Ef|].
      split; [exact Et|]. exact Er.
  - (* an object *)
    destruct d as [|kv d]; [discriminate Et|]. cbn [map Py.data_rows].
    unfold Py.data_row. cbn [Py.get bind].
    split; [reflexivity|]. split; [exact Hne|].
    split; [reflexivity|]. split; [reflexivity|]. right.
    eexists items, _. split; [reflexivity|]. split; [exact Ef|].
    split; [exact Et|]. reflexivity.
Qed.

End SearchOnValues.

(* ------------------------------------------------------------------ *)
(** ** The session *)

Lemma str_eqb_refl (a : pystr) : str_eqb a a = true.
Proof.
  induction a as [|x a IH]; simpl; [reflexivity|].
  rewrite N.eqb_refl. exact IH.
Qed.

Lemma lstrip_decompose (s : pystr) :
  exists ws : pystr,
    s = ws ++ lstrip s /\
    Forall (fun c => is_space c = true) ws /\
    (forall c, hd_error (lstrip s) = Some c -> is_space c = false).
Proof.
  induction s as [|c s (ws & E & Hws & Hhd)]; simpl.
  - exists []. repeat split; [constructor | discriminate].
  - destruct (is_space c) eqn:Ec.
    + exists (c :: ws). simpl. rewrite <- E.
      repeat split; [constructor; assumption | exact Hhd].
    + exists []. repeat split; [constructor|].
      simpl. intros c' H. injection H as <-. exact Ec.
Qed.

(** [strip] removes whitespace at both ends and nothing else. *)
Lemma strip_decompose (s : pystr) :
  exists pre post : pystr,
    s = pre ++ strip s ++ post /\
    Forall (fun c => is_space c = true) pre /\
    Forall (fun c => is_space c = true) post /\
    (forall c, hd_error (strip s) = Some c -> is_space c = false) /\
    (forall c, hd_error (rev (strip s)) = Some c -> is_space c = false).
Proof.
  destruct (lstrip_decompose s) as (ws1 & E1 & H1 & Hd1).
  destruct (lstrip_decompose (rev (lstrip s))) as (ws2 & E2 & H2 & Hd2).
  unfold strip, rstrip.
  set (y := lstrip s) in *. set (z := lstrip (rev y)) in *.
  assert (Ey : y = rev z ++ rev ws2).
  { rewrite <- rev_app_distr, <- E2. symmetry. apply rev_involutive. }
  exists ws1, (rev ws2).
  split; [rewrite <- Ey; exact E1|].
  split; [exact H1|]. split; [apply Forall_rev_iff; exact H2|].
  split.
  - intros c Hc. apply Hd1. rewrite Ey.
    destruct (rev z) as [|c' r]; [discriminate Hc | exact Hc].
  - rewrite rev_involutive. exact Hd2.
Qed.

Lemma strip_empty_iff (s : pystr) :
  strip s = [] <-> Forall (fun c => is_space c = true) s.
Proof.
  destruct (strip_decompose s) as (pre & post & E & Hpre & Hpost & Hhd & _).
  split.
  - intros H. rewrite H in E. rewrite E. apply Forall_app. auto.
  - intros H. destruct (strip s) as [|c t] eqn:Es; [reflexivity|].
    rewrite E in H. apply Forall_app in H as [_ H].
    apply Forall_app in H as [H _]. inversion H as [|c' t' Hc _]; subst.
    rewrite (Hhd c eq_refl) in Hc. discriminate.
Qed.

Section SessionFacts.

Variable client : option Groq.
Variable render_pdf : pystr -> result bytes.
Variable hospital_finder : bool.

(** X13. The analysis handler asks the model exactly when the symptoms
    hold a character that is not whitespace. Blank symptoms leave the
    session as it was. Otherwise the prompt is the symptoms without
    the whitespace at both ends, the returned text becomes the response
    shown, and the download and email section is hidden until a PDF is
    generated again. *)
Theorem analyze_blank_or_stripped (symptoms : pystr) (s : SessionState) :
  (Forall (fun c => is_space c = true) symptoms ->
   exists n, on_analyze client symptoms s = Ok (s, st_warning n)) /\
  (~ Forall (fun c => is_space c = true) symptoms ->
   exists (pre post : pystr) (answer : pystr) (s' : SessionState) (n : pystr),
     symptoms = pre ++ strip symptoms ++ post /\
     Forall (fun c => is_space c = true) pre /\
     Forall (fun c => is_space c = true) post /\
     (forall c, hd_error (strip symptoms) = Some c -> is_space c = false) /\
     (forall c, hd_error (rev (strip symptoms)) = Some c -> is_space c = false) /\
     ask_groq client (strip symptoms) = Ok answer /\
     on_analyze client symptoms s = Ok (s', st_success n) /\
     ss_llm_response s' = Some answer /\
     pdf_section_shown s' = false /\
     ss_theme s' = ss_theme s /\ ss_pdf_path s' = ss_pdf_path s).
Proof.
  split; intros H.
  - apply strip_empty_iff in H. unfold on_analyze. rewrite H. eauto.
  - destruct (strip_decompose symptoms) as (pre & post & E & Hpre & Hpost & Hh & Hl).
    destruct (ask_groq_total client (strip symptoms)) as (answer & Ea).
    unfold on_analyze.
    destruct (strip symptoms) as [|c t] eqn:Es.
    + exfalso. apply H. apply strip_empty_iff. exact Es.
    + rewrite Ea. cbn [bind].
      eexists pre, post, answer, _, _.
      repeat split; try eassumption; reflexivity.
Qed.

Lemma step_total (w : World) (e : event) :
  exists w', step client render_pdf hospital_finder w e = Ok w'.
Proof.
  unfold step. destruct e; cbn [bind]; eauto.
  unfold with_session at 1. cbn [session].
  unfold on_analyze.
  destruct (strip symptoms) as [|c t]; cbn [bind]; [eauto|].
  destruct (ask_groq_total client (c :: t)) as (answer & Ea).
  rewrite Ea. cbn [bind]. eauto.
Qed.

Lemma init_theme_fields (s : SessionState) :
  (ss_theme (init_theme s) = ss_theme s \/ ss_theme (init_theme s) = Some (str "dark")) /\
  ss_theme (init_theme s) <> None /\
  ss_llm_response (init_theme s) = ss_llm_response s /\
  ss_pdf_generated (init_theme s) = ss_pdf_generated s /\
  ss_pdf_path (init_theme s) = ss_pdf_path s.
Proof.
  unfold init_theme. destruct (ss_theme s) eqn:E; simpl.
  - rewrite E. repeat split; auto. discriminate.
  - repeat split; auto. discriminate.
Qed.

Lemma init_search_fields (s : SessionState) :
  ss_theme (init_search hospital_finder s) = ss_theme s /\
  ss_llm_response (init_search hospital_finder s) = ss_llm_response s /\
  ss_pdf_generated (init_search hospital_finder s) = ss_pdf_generated s /\
  ss_pdf_path (init_search hospital_finder s) = ss_pdf_path s.
Proof.
  unfold init_search. destruct hospital_finder, (ss_search_clicked s); simpl; auto.
Qed.

Lemma on_search_fields (location_input : pystr) (s : SessionState) :
  ss_theme (on_search location_input s) = ss_theme s /\
  ss_llm_response (on_search location_input s) = ss_llm_response s /\
  ss_pdf_generated (on_search location_input s) = ss_pdf_generated s /\
  ss_pdf_path (on_search location_input s) = ss_pdf_path s.
Proof.
  unfold on_search. destruct location_input; simpl; auto.
Qed.

(** The invariant looks at four keys and at the files only. *)
Lemma session_invariant_same (w w' : World) :
  ss_theme (session w') = ss_theme (session w) ->
  ss_llm_response (session w') = ss_llm_response (session w) ->
  ss_pdf_generated (session w') = ss_pdf_generated (session w) ->
  ss_pdf_path (session w') = ss_pdf_path (session w) ->
  files w' = files w ->
  session_invariant render_pdf w -> session_invariant render_pdf w'.
Proof.
  unfold session_invariant, pdf_section_shown.
  intros -> -> -> -> ->. tauto.
Qed.

Lemma init_theme_invariant (w : World) :
  session_invariant render_pdf w ->
  session_invariant render_pdf (with_session w (init_theme (session w))).
Proof.
  intros [Ht Hp]. destruct (init_theme_fields (session w)) as (T & _ & L & G & P).
  unfold session_invariant, pdf_section_shown, with_session in *. cbn [session files].
  rewrite L, G, P. split; [|exact Hp].
  destruct T as [T | T]; rewrite T; [exact Ht | auto].
Qed.

Lemma step_invariant (w w' : World) (e : event) :
  session_invariant render_pdf w ->
  step client render_pdf hospital_finder w e = Ok w' ->
  session_invariant render_pdf w'.
Proof.
  intros Hinv. apply init_theme_invariant in Hinv.
  unfold step.
  set (w0 := with_session w (init_theme (session w))) in *.
  assert (Tail : forall (w1 : World) (s : SessionState),
             session_invariant render_pdf w1 ->
             ss_theme s = ss_theme (session w1) ->
             ss_llm_response s = ss_llm_response (session w1) ->
             ss_pdf_generated s = ss_pdf_generated (session w1) ->
             ss_pdf_path s = ss_pdf_path (session w1) ->
             session_invariant render_pdf (with_session w1 s)).
  { intros w1 s H1 A B C D.
    apply (session_invariant_same w1); auto. }
  destruct e; cbn [bind].
  - (* Rerun *)
    intros H. injection H as <-.
    destruct (init_search_fields (session w0)) as (A & B & C & D).
    apply Tail; auto.
  - (* toggle *)
    intros H. injection H as <-.
    destruct (init_search_fields (session (with_session w0 (on_toggle (session w0)))))
      as (A & B & C & D).
    apply Tail; auto.
    destruct Hinv as [_ Hp].
    unfold session_invariant, pdf_section_shown, with_session, on_toggle in *.
    cbn [session files ss_theme ss_llm_response ss_pdf_generated ss_pdf_path].
    split; [|exact Hp].
    destruct (str_eqb _ _); auto.
  - (* analyze *)
    unfold on_analyze.
    destruct (strip symptoms) as [|c t]; cbn [bind fst].
    + intros H. injection H as <-.
      destruct (init_search_fields (session (with_session w0 (session w0))))
        as (A & B & C & D).
      apply Tail; auto.
    + destruct (ask_groq client (c :: t)) as [answer|ex]; cbn [bind fst];
        [|discriminate].
      intros H. injection H as <-.
      match goal with
      | |- session_invariant _ (with_session ?w1 (init_search _ ?s1)) =>
          destruct (init_search_fields s1) as (A & B & C & D);
          apply Tail; [ | exact A | exact B | exact C | exact D]
      end.
      destruct Hinv as [Ht _].
      unfold session_invariant, pdf_section_shown, with_session.
      cbn [session files ss_theme ss_llm_response ss_pdf_generated ss_pdf_path
           get_default].
      split; [exact Ht | discriminate].
  - (* generate *)
    intros H. injection H as <-.
    match goal with
    | |- session_invariant _ (with_session ?w1 (init_search _ ?s1)) =>
        destruct (init_search_fields s1) as (A & B & C & D);
        apply Tail; [ | exact A | exact B | exact C | exact D]
    end.
    unfold on_generate_pdf.
    destruct (ss_llm_response (session w0)) as [resp|] eqn:Er; [|exact Hinv].
    destruct (render_pdf (or_empty (Some resp))) as [data|ex] eqn:Ep;
      [|exact Hinv].
    destruct Hinv as [Ht _].
    unfold session_invariant, pdf_section_shown.
    cbn [fst session files ss_theme ss_llm_response ss_pdf_generated ss_pdf_path
         get_default].
    split; [exact Ht|]. intros _. split; [reflexivity|].
    exists resp, data. split; [first [reflexivity | exact Er]|]. split; [exact Ep|].
    unfold write_file. rewrite str_eqb_refl. reflexivity.
  - (* send *)
    intros H. injection H as <-.
    destruct (init_search_fields (session w0)) as (A & B & C & D).
    apply Tail; auto.
  - (* search *)
    intros H. injection H as <-.
    destruct (init_search_fields (session w0)) as (A & B & C & D).
    destruct hospital_finder eqn:Hf.
    + destruct (on_search_fields location_input (init_search true (session w0)))
        as (A' & B' & C' & D').
      apply Tail;
        [exact Hinv
        | exact (eq_trans A' A) | exact (eq_trans B' B)
        | exact (eq_trans C' C) | exact (eq_trans D' D)].
    + apply Tail; auto.
Qed.

(** What the later statements share: every run from a new session ends,
    and in a world that satisfies the invariant. *)
Lemma run_invariant (w : World) (events : list event) :
  session_invariant render_pdf w ->
  exists w', run client render_pdf hospital_finder w events = Ok w' /\
             session_invariant render_pdf w'.
Proof.
  revert w. induction events as [|e rest IH]; intros w Hinv; simpl.
  - eauto.
  - destruct (step_total w e) as (w1 & E1). rewrite E1. cbn [bind].
    apply IH. exact (step_invariant w w1 e Hinv E1).
Qed.

Lemma new_session_invariant (files0 : pystr -> option bytes) :
  session_invariant render_pdf {| session := new_session; files := files0 |}.
Proof.
  unfold session_invariant, pdf_section_shown. simpl. split; [auto | discriminate].
Qed.

(** X14. The state a session is in after any sequence of runs from a
    new session, whatever files were there before: the theme is "dark"
    or "light" (or not yet set), and whenever the download and email
    section is shown, the path is the report's file name, a response is
    set and the file holds the document generated from that very
    response. *)
Theorem session_invariant_always (files0 : pystr -> option bytes)
  (events : list event) (w : World) :
  run client render_pdf hospital_finder
    {| session := new_session; files := files0 |} events = Ok w ->
  (ss_theme (session w) = None \/
   ss_theme (session w) = Some (str "dark") \/
   ss_theme (session w) = Some (str "light")) /\
  (pdf_section_shown (session w) = true ->
   ss_pdf_path (session w) = Some pdf_file_name /\
   exists (llm_response : pystr) (data : bytes),
     ss_llm_response (session w) = Some llm_response /\
     render_pdf (or_empty (Some llm_response)) = Ok data /\
     files w pdf_file_name = Some data).
Proof.
  intros E.
  destruct (run_invariant _ events (new_session_invariant files0)) as (w' & E' & H).
  rewrite E in E'. injection E' as <-. exact H.
Qed.

End SessionFacts.

Lemma session_invariant_always_witness :
  let render_pdf := fun text : pystr => Ok (str "%PDF " ++ text) in
  let events := [Click_analyze (str " fever "); Click_generate_pdf; Click_toggle] in
  exists w : World,
    run None render_pdf true {| session := new_session; files := fun _ => None |}
      events = Ok w /\
    (ss_theme (session w) = None \/
     ss_theme (session w) = Some (str "dark") \/
     ss_theme (session w) = Some (str "light")) /\
    (pdf_section_shown (session w) = true ->
     ss_pdf_path (session w) = Some pdf_file_name /\
     exists (llm_response : pystr) (data : bytes),
       ss_llm_response (session w) = Some llm_response /\
       render_pdf (or_empty (Some llm_response)) = Ok data /\
       files w pdf_file_name = Some data).
Proof.
  cbv zeta. eexists. split; [vm_compute; reflexivity|].
  apply (session_invariant_always None (fun text : pystr => Ok (str "%PDF " ++ text))
           true (fun _ => None)
           [Click_analyze (str " fever "); Click_generate_pdf; Click_toggle]).
  vm_compute. reflexivity.
Defined.

(** X15. From every world a session can reach, clicking the theme
    button twice has the effect of a plain rerun, and one click changes
    the theme, the background colour and the label of the button. *)
Theorem toggle_twice_is_rerun (client : option Groq)
  (render_pdf : pystr -> result bytes) (hospital_finder : bool)
  (files0 : pystr -> option bytes) (events : list event) :
  exists w w1 : World,
    run client render_pdf hospital_finder
      {| session := new_session; files := files0 |} events = Ok w /\
    run client render_pdf hospital_finder w [Click_toggle; Click_toggle]
    = step client render_pdf hospital_finder w Rerun /\
    step client render_pdf hospital_finder w Click_toggle = Ok w1 /\
    exists before after : pystr,
      ss_theme (init_theme (session w)) = Some before /\
      ss_theme (session w1) = Some after /\
      before <> after /\
      bg_color (palette before) <> bg_color (palette after) /\
      toggle_label before <> toggle_label after.
Proof.
  destruct (run_invariant client render_pdf hospital_finder _ events
              (new_session_invariant render_pdf files0)) as (w & E & [Ht _]).
  exists w. destruct w as [[t l g p sc] fs]. cbn [session ss_theme] in Ht.
  eexists. split; [exact E|].
  destruct Ht as [-> | [-> | ->]]; destruct hospital_finder, sc as [b|];
    (split; [reflexivity|]); (split; [reflexivity|]);
    eexists; eexists; (split; [reflexivity|]); (split; [reflexivity|]);
    repeat split; discriminate.
Qed.

(* ------------------------------------------------------------------ *)
(** ** The send handler *)

Ltac session_cases S :=
  repeat match type of S with
         | _ \/ _ => destruct S as [S | S]
         | _ /\ _ => let H := fresh "H" in destruct S as [H S]
         end.

Ltac in_calls Hin :=
  simpl in Hin;
  repeat (destruct Hin as [Hin | Hin]; try discriminate Hin);
  try contradiction.

Section SendEmailFacts.

Variable str_of_int : Z -> pystr.
Variable smtp_server : list smtp_call -> smtp_call -> option exn.
Variable smtp_quit : list smtp_call -> quit_answer.
Variable missing_key_message : pystr -> pystr.
Variable cfg : Config.

Ltac answer_calls :=
  repeat match goal with
         | |- context [smtp_server ?l ?c] =>
             destruct (smtp_server l c) eqn:?; cbn [app fst snd]
         | |- context [smtp_quit ?l] =>
             destruct (smtp_quit l) eqn:?; cbn [app fst snd]
         end.

(** The calls of a session, by the first call the server refuses. *)
Lemma smtp_session_calls (email : pystr) (msg : Message) :
  let connect := SMTP_connect (BREVO_SMTP_HOST cfg) (BREVO_SMTP_PORT cfg) in
  let login := SMTP_login (BREVO_SMTP_LOGIN cfg) (BREVO_SMTP_PASSWORD cfg) in
  let sendmail := SMTP_sendmail (envelope_sender cfg) (strip email) msg in
  let s := smtp_session smtp_server smtp_quit cfg email msg in
  (smtp_server [] connect <> None /\ fst s = [connect] /\ snd s <> Ok tt) \/
  (smtp_server [] connect = None /\
   ((smtp_server [connect] SMTP_ehlo <> None /\
     fst s = [connect; SMTP_ehlo; SMTP_quit] /\ snd s <> Ok tt) \/
    (smtp_server [connect] SMTP_ehlo = None /\
     ((smtp_server [connect; SMTP_ehlo] SMTP_starttls <> None /\
       fst s = [connect; SMTP_ehlo; SMTP_starttls; SMTP_quit] /\ snd s <> Ok tt) \/
      (smtp_server [connect; SMTP_ehlo] SMTP_starttls = None /\
       ((smtp_server [connect; SMTP_ehlo; SMTP_starttls] SMTP_ehlo <> None /\
         fst s = [connect; SMTP_ehlo; SMTP_starttls; SMTP_ehlo; SMTP_quit] /\
         snd s <> Ok tt) \/
        (smtp_server [connect; SMTP_ehlo; SMTP_starttls] SMTP_ehlo = None /\
         ((smtp_server [connect; SMTP_ehlo; SMTP_starttls; SMTP_ehlo] login <> None /\
           fst s = [connect; SMTP_ehlo; SMTP_starttls; SMTP_ehlo; login; SMTP_quit] /\
           snd s <> Ok tt) \/
          (smtp_server [connect; SMTP_ehlo; SMTP_starttls; SMTP_ehlo] login = None /\
           fst s = [connect; SMTP_ehlo; SMTP_starttls; SMTP_ehlo; login; sendmail;
                    SMTP_quit] /\
           (snd s = Ok tt ->
            smtp_server [connect; SMTP_ehlo; SMTP_starttls; SMTP_ehlo; login] sendmail
            = None)))))))))).
Proof.
  cbv zeta. unfold smtp_session, smtp_body, smtp_do_all, smtp_do. cbn [app].
  answer_calls;
    first
      [ left; repeat split; congruence
      | right; split; [reflexivity|];
        first
          [ left; repeat split; congruence
          | right; split; [reflexivity|];
            first
              [ left; repeat split; congruence
              | right; split; [reflexivity|];
                first
                  [ left; repeat split; congruence
                  | right; split; [reflexivity|];
                    first
                      [ left; repeat split; congruence
                      | right; split; [reflexivity|];
                        split; [reflexivity|]; congruence ] ] ] ] ].
Qed.

(** The handler either stops before the server or runs one session with
    the message built from the stored file. *)
Lemma on_send_email_cases (w : World) (email : pystr) :
  let r := on_send_email str_of_int smtp_server smtp_quit missing_key_message
             cfg w email in
  (fst r = [] /\ forall to_addr, snd r <> Sent to_addr) \/
  (email_accepted email = true /\ can_send_email cfg = true /\
   exists (path : pystr) (data : bytes),
     ss_pdf_path (session w) = Some path /\ files w path = Some data /\
     let s := smtp_session smtp_server smtp_quit cfg email
                (build_message str_of_int cfg email data) in
     fst r = fst s /\
     (forall to_addr, snd r = Sent to_addr ->
        snd s = Ok tt /\ to_addr = strip email)).
Proof.
  cbv zeta. unfold on_send_email.
  destruct (email_accepted email) eqn:Ea; cbn [negb];
    [|left; split; [reflexivity|discriminate]].
  destruct (can_send_email cfg) eqn:Ec; cbn [negb];
    [|left; split; [reflexivity|discriminate]].
  destruct (ss_pdf_path (session w)) as [path|] eqn:Ep;
    [|left; split; [reflexivity|discriminate]].
  destruct (files w path) as [data|] eqn:Ef;
    [|left; split; [reflexivity|discriminate]].
  right. split; [reflexivity|]. split; [reflexivity|].
  exists path, data. split; [reflexivity|]. split; [exact Ef|].
  destruct (smtp_session smtp_server smtp_quit cfg email _) as [calls [[]|e]];
    cbn [fst snd]; split; try reflexivity.
  - intros to_addr E. injection E as <-. split; reflexivity.
  - discriminate.
Qed.

Lemma can_send_email_fields :
  can_send_email cfg = true ->
  secret_truthy (BREVO_SMTP_HOST cfg) = true /\
  BREVO_SMTP_PORT cfg <> 0%Z /\
  truthy_opt (BREVO_SMTP_LOGIN cfg) = true /\
  truthy_opt (BREVO_SMTP_PASSWORD cfg) = true.
Proof.
  unfold can_send_email. rewrite !andb_true_iff, negb_true_iff, Z.eqb_neq.
  tauto.
Qed.

Lemma envelope_sender_truthy :
  can_send_email cfg = true -> truthy_opt (envelope_sender cfg) = true.
Proof.
  intros H. apply can_send_email_fields in H. destruct H as (_ & _ & Hl & _).
  unfold envelope_sender, or_opt.
  destruct (truthy_opt (BREVO_FROM_EMAIL cfg)) eqn:E; [exact E|exact Hl].
Qed.

(** X16. The send handler reaches the mail server only with an accepted
    address, a complete SMTP configuration and a stored report file that
    exists; then its first call connects to the configured host, which
    is non-empty, and port, which is not 0, and it connects once. In
    every other case it makes no call at all. *)
Theorem send_email_traffic_guarded (w : World) (email : pystr) :
  let calls := fst (on_send_email str_of_int smtp_server smtp_quit
                      missing_key_message cfg w email) in
  calls = [] \/
  (email_accepted email = true /\
   can_send_email cfg = true /\
   secret_truthy (BREVO_SMTP_HOST cfg) = true /\
   BREVO_SMTP_PORT cfg <> 0%Z /\
   (exists (path : pystr) (data : bytes),
      ss_pdf_path (session w) = Some path /\ files w path = Some data) /\
   exists rest : list smtp_call,
     calls = SMTP_connect (BREVO_SMTP_HOST cfg) (BREVO_SMTP_PORT cfg) :: rest /\
     forall host port, ~ In (SMTP_connect host port) rest).
Proof.
  cbv zeta.
  destruct (on_send_email_cases w email) as [[E _] | (Ea & Ec & path & data & Ep & Ef & El & _)];
    [left; exact E|].
  right. split; [exact Ea|]. split; [exact Ec|].
  destruct (can_send_email_fields Ec) as (Hh & Hp & _).
  split; [exact Hh|]. split; [exact Hp|].
  split; [exists path, data; split; assumption|].
  cbv zeta in El. rewrite El.
  pose proof (smtp_session_calls email (build_message str_of_int cfg email data)) as S.
  cbv zeta in S.
  repeat match type of S with
         | _ \/ _ => destruct S as [S | S]
         | _ /\ _ => let H := fresh "H" in destruct S as [H S]
         end;
    (match goal with
     | H : fst _ = _ |- _ => rewrite H
     end);
    eexists; (split; [reflexivity|]);
    intros host port Hin; simpl in Hin;
    repeat (destruct Hin as [Hin | Hin]; try discriminate Hin); exact Hin.
Qed.

(** X17. The order of the SMTP conversation. The login, with the
    configured credentials, is made only after the server has accepted
    STARTTLS, and the message is handed over only after the server has
    accepted the login. A connection that was opened is always closed
    with QUIT, whatever failed in between. Success is reported only
    when the server has accepted the message, and for the stripped
    address. *)
Theorem smtp_conversation_order (w : World) (email : pystr) :
  let connect := SMTP_connect (BREVO_SMTP_HOST cfg) (BREVO_SMTP_PORT cfg) in
  let login := SMTP_login (BREVO_SMTP_LOGIN cfg) (BREVO_SMTP_PASSWORD cfg) in
  let r := on_send_email str_of_int smtp_server smtp_quit missing_key_message
             cfg w email in
  (forall user password,
     In (SMTP_login user password) (fst r) ->
     SMTP_login user password = login /\
     smtp_server [connect; SMTP_ehlo] SMTP_starttls = None /\
     exists rest,
       fst r = [connect; SMTP_ehlo; SMTP_starttls; SMTP_ehlo; login] ++ rest) /\
  (forall from_addr to_addr msg,
     In (SMTP_sendmail from_addr to_addr msg) (fst r) ->
     smtp_server [connect; SMTP_ehlo; SMTP_starttls; SMTP_ehlo] login = None /\
     fst r = [connect; SMTP_ehlo; SMTP_starttls; SMTP_ehlo; login;
              SMTP_sendmail from_addr to_addr msg; SMTP_quit]) /\
  (fst r = [] \/
   (fst r = [connect] /\ smtp_server [] connect <> None) \/
   (smtp_server [] connect = None /\ last (fst r) connect = SMTP_quit)) /\
  (forall to_addr,
     snd r = Sent to_addr ->
     to_addr = strip email /\
     exists msg,
       In (SMTP_sendmail (envelope_sender cfg) to_addr msg) (fst r) /\
       smtp_server [connect; SMTP_ehlo; SMTP_starttls; SMTP_ehlo; login]
         (SMTP_sendmail (envelope_sender cfg) to_addr msg) = None).
Proof.
  cbv zeta.
  destruct (on_send_email_cases w email)
    as [[E Hs] | (Ea & Ec & path & data & Ep & Ef & El & Hs)].
  - rewrite E. repeat split; try (intros; contradiction).
    + left. reflexivity.
    + exfalso. exact (Hs _ H).
    + exfalso. exact (Hs _ H).
  - cbv zeta in El, Hs. rewrite El.
    pose proof (smtp_session_calls email (build_message str_of_int cfg email data)) as S.
    cbv zeta in S.
    clear El. session_cases S;
      (match goal with
       | H : fst _ = _ |- _ => rewrite H
       end);
      (split; [intros user password Hin; in_calls Hin;
               (split; [symmetry; exact Hin|]);
               (split; [assumption|]);
               eexists; reflexivity|]);
      (split; [intros from_addr to_addr msg Hin; in_calls Hin;
               (split; [assumption|]); rewrite Hin; reflexivity|]);
      (split; [first [ right; left; split; [reflexivity|assumption]
                     | right; right; split; [assumption|reflexivity] ]|]);
      intros to_addr Hsent; destruct (Hs _ Hsent) as [Hok ->];
      try contradiction;
      (split; [reflexivity|]);
      eexists; (split; [simpl; do 5 right; left; reflexivity|]);
      apply S; exact Hok.
Qed.

(** X18. What is handed to the server. The recipient is the stripped
    address, which is of the specified form and is the To header; the
    envelope sender is the configured sender address or else the login,
    and is not empty; the attachment is the content of the stored report
    file; and a Reply-To header is present exactly when a reply address
    is configured. *)
Theorem sent_message_content (w : World) (email : pystr)
  (from_addr : option secret) (to_addr : pystr) (msg : Message) :
  In (SMTP_sendmail from_addr to_addr msg)
     (fst (on_send_email str_of_int smtp_server smtp_quit missing_key_message
             cfg w email)) ->
  to_addr = strip email /\
  email_form to_addr /\
  header_To msg = to_addr /\
  from_addr = envelope_sender cfg /\
  truthy_opt from_addr = true /\
  (exists path : pystr,
     ss_pdf_path (session w) = Some path /\
     files w path = Some (attachment msg)) /\
  (header_Reply_To msg <> None <-> truthy_opt (BREVO_REPLY_TO_EMAIL cfg) = true).
Proof.
  destruct (on_send_email_cases w email)
    as [[E Hs] | (Ea & Ec & path & data & Ep & Ef & El & Hs)].
  - rewrite E. intros [].
  - cbv zeta in El. rewrite El.
    pose proof (smtp_session_calls email (build_message str_of_int cfg email data)) as S.
    cbv zeta in S.
    destruct (accepted_email_strip email Ea) as (e & He & Hstrip & _).
    session_cases S;
      (match goal with
       | H : fst _ = _ |- _ => rewrite H
       end);
      intros Hin; in_calls Hin.
    injection Hin as <- <- <-.
    split; [reflexivity|].
    split; [rewrite Hstrip; exact He|].
    split; [reflexivity|].
    split; [reflexivity|].
    split; [apply envelope_sender_truthy; exact Ec|].
    split; [exists path; split; assumption|].
    cbn [header_Reply_To build_message].
    destruct (truthy_opt (BREVO_REPLY_TO_EMAIL cfg));
      [destruct (truthy_opt (BREVO_REPLY_TO_NAME cfg))|];
      split; intros; congruence.
Qed.

End SendEmailFacts.

Lemma sent_message_content_witness :
  let w := {| session :=
                {| ss_theme := Some (str "dark");
                   ss_llm_response := Some (str "Rest.");
                   ss_pdf_generated := Some true;
                   ss_pdf_path := Some pdf_file_name;
                   ss_search_clicked := None |};
              files := write_file (fun _ => None) pdf_file_name [37; 80; 68; 70]%N |} in
  let email := str "user@example.com" ++ [chr_LF] in
  let msg := build_message (fun _ => []) example_config email [37; 80; 68; 70]%N in
  let to_addr := str "user@example.com" in
  let from_addr := Some (SecretStr (str "login@smtp-brevo.com")) in
  In (SMTP_sendmail from_addr to_addr msg)
     (fst (on_send_email (fun _ => []) smtp_accepts smtp_says_bye (fun k => k)
             example_config w email)) /\
  to_addr = strip email /\
  email_form to_addr /\
  header_To msg = to_addr /\
  from_addr = envelope_sender example_config /\
  truthy_opt from_addr = true /\
  (exists path : pystr,
     ss_pdf_path (session w) = Some path /\
     files w path = Some (attachment msg)) /\
  (header_Reply_To msg <> None
   <-> truthy_opt (BREVO_REPLY_TO_EMAIL example_config) = true).
Proof.
  cbv zeta.
  assert (H : In (SMTP_sendmail (Some (SecretStr (str "login@smtp-brevo.com")))
                    (str "user@example.com")
                    (build_message (fun _ => []) example_config
                       (str "user@example.com" ++ [chr_LF]) [37; 80; 68; 70]%N))
                 (fst (on_send_email (fun _ => []) smtp_accepts smtp_says_bye
                         (fun k => k) example_config
                         {| session :=
                              {| ss_theme := Some (str "dark");
                                 ss_llm_response := Some (str "Rest.");
                                 ss_pdf_generated := Some true;
                                 ss_pdf_path := Some pdf_file_name;
                                 ss_search_clicked := None |};
                            files := write_file (fun _ => None) pdf_file_name
                                       [37; 80; 68; 70]%N |}
                         (str "user@example.com" ++ [chr_LF])))).
  { vm_compute. do 5 right. left. reflexivity. }
  split; [exact H|].
  exact (sent_message_content (fun _ => []) smtp_accepts smtp_says_bye (fun k => k)
           example_config _ _ _ _ _ H).
Defined.

(** X19. The session and the send handler together. After any sequence
    of runs of the script from a new session, with this session the only
    writer of the report file, a message handed to the server by the
    send button carries the PDF of the response currently shown. The
    handler then never reports a missing file, and a reported failure
    comes from the conversation with the server. Without a generated
    PDF of the current response the button is not drawn and no call is
    made. *)
Theorem emailed_report_is_current_response
  (client : option Groq) (render_pdf : pystr -> result bytes)
  (hospital_finder : bool) (files0 : pystr -> option bytes)
  (str_of_int : Z -> pystr)
  (smtp_server : list smtp_call -> smtp_call -> option exn)
  (smtp_quit : list smtp_call -> quit_answer)
  (missing_key_message : pystr -> pystr) (cfg : Config)
  (events : list event) (email : pystr) :
  exists w : World,
    run client render_pdf hospital_finder
      {| session := new_session; files := files0 |} events = Ok w /\
    let r := send_email_block str_of_int smtp_server smtp_quit
               missing_key_message cfg w email in
    (pdf_section_shown (session w) = false -> r = ([], None)) /\
    (forall from_addr to_addr msg,
       In (SMTP_sendmail from_addr to_addr msg) (fst r) ->
       exists llm_response : pystr,
         ss_llm_response (session w) = Some llm_response /\
         render_pdf (or_empty (Some llm_response)) = Ok (attachment msg)) /\
    snd r <> Some PDF_not_found /\
    (forall error, snd r = Some (Send_failed error) -> fst r <> []).
Proof.
  destruct (run_invariant client render_pdf hospital_finder _ events
              (new_session_invariant render_pdf files0)) as (w & E & [_ Hinv]).
  exists w. split; [exact E|]. cbv zeta. unfold send_email_block.
  destruct (pdf_section_shown (session w)) eqn:Hshown.
  2:{ repeat split; try discriminate. intros ? ? ? []. }
  destruct (Hinv eq_refl) as (Hp & resp & data & Hr & Hd & Hf).
  split; [discriminate|].
  unfold on_send_email. rewrite Hp, Hf.
  destruct (email_accepted email); cbn [negb];
    [|repeat split; try discriminate; intros ? ? ? []].
  destruct (can_send_email cfg); cbn [negb];
    [|repeat split; try discriminate; intros ? ? ? []].
  pose proof (smtp_session_calls smtp_server smtp_quit cfg email
                (build_message str_of_int cfg email data)) as S.
  cbv zeta in S.
  destruct (smtp_session smtp_server smtp_quit cfg email
              (build_message str_of_int cfg email data)) as [calls [[]|e]];
    cbn [fst snd] in *;
    session_cases S;
    (match goal with
     | H : calls = _ |- _ => rewrite H
     end);
    (split; [intros from_addr to_addr msg Hin; in_calls Hin;
             injection Hin as <- <- <-; exists resp; split; assumption|]);
    split; try discriminate; intros; discriminate.
Qed.
